(** * SortiFile: the document classification pipeline and its HTTP variant

    A shallow embedding of [document_classifier.py] (the class
    [DocumentClassifier]: [preprocess_image], [detect_logo],
    [classify_document]; and [main]), of [classify.py] (the function
    [classify_document] that calls a remote inference endpoint) and of
    the callbacks of [GUI_Application.py] ([setup_directories],
    [classify_document], [save_results], [update_display],
    [classify_and_save]; the Tk layout is left out).

    Conventions of the embedding:
    - a Python [float] is a binary64 value: [PrimFloat.float], with the
      IEEE operations of the kernel;
    - a Python [int] is a [Z];
    - a Python exception is a value of [exc]; code that can raise returns
      an [outcome];
    - what the program prints and the HTTP requests it sends are recorded
      in a [world], threaded by the monad [Py];
    - the third-party libraries (PIL, pytesseract, OpenCV, the tokenizer
      and the layout model, requests) and the string builtins are fields
      of a record of externals: the theorems hold whatever they do. *)

From Stdlib Require Import ZArith List String Ascii Bool Lia Floats DecimalString.
From ExtLib Require Import Structures.Monad.
Import ListNotations.
Import MonadNotation.

Local Open Scope string_scope.
Local Open Scope list_scope.
Local Open Scope Z_scope.
Local Open Scope monad_scope.

Set Implicit Arguments.

(* ===================================================================== *)
(** * Python exceptions *)
(* ===================================================================== *)

(** The exception classes the two programs can meet.  [LibraryError n b]
    is a class defined by a library ([cv2.error], [TesseractError],
    [requests.ConnectionError], ...), derived from the class [b]. *)
Inductive exc_class : Type :=
| BaseException
| Exception
| KeyboardInterrupt
| SystemExit
| ArithmeticError
| ZeroDivisionError
| OverflowError
| LookupError
| IndexError
| KeyError
| ValueError
| TypeError
| AttributeError
| NameError
| SyntaxError
| IndentationError
| RuntimeError
| OSError
| FileNotFoundError
| LibraryError (name : string) (base : exc_class).

(** Python's [IOError] is an alias of [OSError]. *)
Definition IOError : exc_class := OSError.

Fixpoint exc_class_eqb (c d : exc_class) : bool :=
  match c, d with
  | BaseException, BaseException
  | Exception, Exception
  | KeyboardInterrupt, KeyboardInterrupt
  | SystemExit, SystemExit
  | ArithmeticError, ArithmeticError
  | ZeroDivisionError, ZeroDivisionError
  | OverflowError, OverflowError
  | LookupError, LookupError
  | IndexError, IndexError
  | KeyError, KeyError
  | ValueError, ValueError
  | TypeError, TypeError
  | AttributeError, AttributeError
  | NameError, NameError
  | SyntaxError, SyntaxError
  | IndentationError, IndentationError
  | RuntimeError, RuntimeError
  | OSError, OSError
  | FileNotFoundError, FileNotFoundError => true
  | LibraryError n b, LibraryError n' b' => String.eqb n n' && exc_class_eqb b b'
  | _, _ => false
  end.

(** The class a class derives from ([None] at the root). *)
Definition base_class (c : exc_class) : option exc_class :=
  match c with
  | BaseException => None
  | Exception | KeyboardInterrupt | SystemExit => Some BaseException
  | ArithmeticError | LookupError | ValueError | TypeError | AttributeError
  | NameError | SyntaxError | RuntimeError | OSError => Some Exception
  | ZeroDivisionError | OverflowError => Some ArithmeticError
  | IndexError | KeyError => Some LookupError
  | IndentationError => Some SyntaxError
  | FileNotFoundError => Some OSError
  | LibraryError _ b => Some b
  end.

(** The class and all the classes it derives from, most specific first. *)
Fixpoint mro (c : exc_class) : list exc_class :=
  match c with
  | BaseException => [BaseException]
  | Exception => [Exception; BaseException]
  | KeyboardInterrupt => [KeyboardInterrupt; BaseException]
  | SystemExit => [SystemExit; BaseException]
  | ArithmeticError => [ArithmeticError; Exception; BaseException]
  | ZeroDivisionError => [ZeroDivisionError; ArithmeticError; Exception; BaseException]
  | OverflowError => [OverflowError; ArithmeticError; Exception; BaseException]
  | LookupError => [LookupError; Exception; BaseException]
  | IndexError => [IndexError; LookupError; Exception; BaseException]
  | KeyError => [KeyError; LookupError; Exception; BaseException]
  | ValueError => [ValueError; Exception; BaseException]
  | TypeError => [TypeError; Exception; BaseException]
  | AttributeError => [AttributeError; Exception; BaseException]
  | NameError => [NameError; Exception; BaseException]
  | SyntaxError => [SyntaxError; Exception; BaseException]
  | IndentationError => [IndentationError; SyntaxError; Exception; BaseException]
  | RuntimeError => [RuntimeError; Exception; BaseException]
  | OSError => [OSError; Exception; BaseException]
  | FileNotFoundError => [FileNotFoundError; OSError; Exception; BaseException]
  | LibraryError n b => LibraryError n b :: mro b
  end.

Definition issubclass (c d : exc_class) : bool :=
  existsb (exc_class_eqb d) (mro c).

(** An exception object: its class and the text [str(e)] gives. *)
Record exc : Type := mkExc { exc_type : exc_class; exc_str : string }.

Definition isinstance (e : exc) (c : exc_class) : bool :=
  issubclass (exc_type e) c.

(** [except (c1, c2, ...)]: does the clause catch [e]? *)
Definition catches (classes : list exc_class) (e : exc) : bool :=
  existsb (isinstance e) classes.

(* ===================================================================== *)
(** * Outcomes and the two monads *)
(* ===================================================================== *)

Inductive outcome (A : Type) : Type :=
| Return (a : A)
| Raise (e : exc).

Arguments Return {A} a.
Arguments Raise {A} e.

Definition outcome_bind {A B} (m : outcome A) (k : A -> outcome B) : outcome B :=
  match m with
  | Return a => k a
  | Raise e => Raise e
  end.

#[export] Instance Monad_outcome : Monad outcome :=
  {| ret := @Return; bind := @outcome_bind |}.

(* ===================================================================== *)
(** * Numbers *)
(* ===================================================================== *)

(** An entry of a Python list of numbers: the literal [0] is an [int], a
    quotient is a [float]. *)
Inductive pynum : Type :=
| PyInt (n : Z)
| PyFloat (x : float).

Definition Z2SF (n : Z) : spec_float :=
  match n with
  | Z0 => S754_zero false
  | Zpos p => S754_finite false p 0
  | Zneg p => S754_finite true p 0
  end.

(** The least magnitude that rounds (to nearest, ties to even) beyond the
    largest binary64 number: the midpoint of [2^1024 - 2^971] and [2^1024]. *)
Definition overflow_threshold : Z := 2 ^ 1024 - 2 ^ 970.

(** The binary64 number nearest to the exact quotient [a / b] ([b <> 0]). *)
Definition nearest_quotient (a b : Z) : float :=
  SF2Prim (SFdiv prec emax (Z2SF a) (Z2SF b)).

(** The binary64 number nearest to the integer [n]. *)
Definition nearest_float (n : Z) : float :=
  SF2Prim (binary_normalize prec emax n 0 false).

(** [a / b] on two [int]s: true division, correctly rounded. *)
Definition int_truediv (a b : Z) : outcome float :=
  if b =? 0 then Raise (mkExc ZeroDivisionError "division by zero")
  else if overflow_threshold * Z.abs b <=? Z.abs a
  then Raise (mkExc OverflowError "integer division result too large for a float")
  else Return (nearest_quotient a b).

(** The exact quotient [a / b] rounds to a finite binary64 number. *)
Definition quotient_in_range (a b : Z) : Prop :=
  Z.abs a < overflow_threshold * Z.abs b.

(** [float(n)] on an [int]. *)
Definition float_of_int (n : Z) : outcome float :=
  if overflow_threshold <=? Z.abs n
  then Raise (mkExc OverflowError "int too large to convert to float")
  else Return (nearest_float n).

(** [x / n] on a [float] and an [int]: the [int] is converted first. *)
Definition float_div_int (x : float) (n : Z) : outcome float :=
  d <- float_of_int n ;;
  if n =? 0 then Raise (mkExc ZeroDivisionError "float division by zero")
  else Return (x / d)%float.

(** [x * 1000] on a [float]. *)
Definition times_1000 (x : float) : float := (x * 1000)%float.

(* ===================================================================== *)
(** * Python values *)
(* ===================================================================== *)

(** The values JSON and dict displays produce.  A [dict] keeps its items
    in insertion order; its keys are distinct, and a lookup takes the
    first item with the key. *)
#[warnings="-register-all"]
Inductive pyval : Type :=
| VNone
| VBool (b : bool)
| VInt (n : Z)
| VFloat (x : float)
| VStr (s : string)
| VList (l : list pyval)
| VDict (items : list (string * pyval)).

(** Truth value testing, as [if v:] does it. *)
Definition truthy (v : pyval) : bool :=
  match v with
  | VNone => false
  | VBool b => b
  | VInt n => negb (n =? 0)
  | VFloat x => negb (x =? 0)%float
  | VStr s => negb (String.eqb s "")
  | VList l => match l with [] => false | _ => true end
  | VDict items => match items with [] => false | _ => true end
  end.

Fixpoint assoc {A} (key : string) (items : list (string * A)) : option A :=
  match items with
  | [] => None
  | (k, v) :: rest => if String.eqb k key then Some v else assoc key rest
  end.

(** [v.get(key)]: [None] for a missing key; only a [dict] has the method. *)
Definition py_get (v : pyval) (key : string) : outcome pyval :=
  match v with
  | VDict items =>
      match assoc key items with
      | Some x => Return x
      | None => Return VNone
      end
  | _ => Raise (mkExc AttributeError "object has no attribute 'get'")
  end.

(** [b[i]] on a list, for an index [i >= 0]. *)
Definition getitem {A} (l : list A) (i : nat) : outcome A :=
  match nth_error l i with
  | Some a => Return a
  | None => Raise (mkExc IndexError "list index out of range")
  end.

(** An HTTP request with a JSON body. *)
Record request : Type := mkRequest {
  method : string;
  url : string;
  json : pyval
}.

(** What the program has done to the outside: the lines it printed and
    the HTTP requests it sent, oldest first. *)
Record world : Type := mkWorld {
  stdout : list string;
  http_log : list request
}.

Definition print_to (w : world) (line : string) : world :=
  {| stdout := stdout w ++ [line]; http_log := http_log w |}.

Definition log_request (w : world) (r : request) : world :=
  {| stdout := stdout w; http_log := http_log w ++ [r] |}.

Definition Py (A : Type) : Type := world -> outcome A * world.

Definition Py_ret {A} (a : A) : Py A := fun w => (Return a, w).

Definition Py_bind {A B} (m : Py A) (k : A -> Py B) : Py B :=
  fun w =>
    match m w with
    | (Return a, w') => k a w'
    | (Raise e, w') => (Raise e, w')
    end.

#[export] Instance Monad_Py : Monad Py :=
  {| ret := @Py_ret; bind := @Py_bind |}.

(** A computation that cannot touch the world. *)
Definition lift {A} (m : outcome A) : Py A := fun w => (m, w).

Definition print (line : string) : Py unit :=
  fun w => (Return tt, print_to w line).

(** [try: body  except classes: handler]: an exception of [body] that the
    clause catches runs the handler, in the world the body left; any
    other exception goes on to the caller. *)
Definition try_except {A} (body : Py A) (classes : list exc_class)
    (handler : exc -> Py A) : Py A :=
  fun w =>
    match body w with
    | (Return a, w') => (Return a, w')
    | (Raise e, w') => if catches classes e then handler e w' else (Raise e, w')
    end.

(* ===================================================================== *)
(** * [base64.b64encode] *)
(* ===================================================================== *)

Definition b64_alphabet : list ascii :=
  list_ascii_of_string
    "ABCDEFGHIJKLMNOPQRSTUVWXYZabcdefghijklmnopqrstuvwxyz0123456789+/".

Definition b64_digit (n : nat) : ascii := nth n b64_alphabet "="%char.

(** Three bytes give four digits; one or two trailing bytes are padded
    with [=]. *)
Fixpoint b64encode (data : list Byte.byte) : string :=
  match data with
  | [] => EmptyString
  | [a] =>
      let a := Byte.to_nat a in
      String (b64_digit (a / 4))
        (String (b64_digit (a mod 4 * 16)) "==")
  | [a; b] =>
      let a := Byte.to_nat a in
      let b := Byte.to_nat b in
      String (b64_digit (a / 4))
        (String (b64_digit (a mod 4 * 16 + b / 16))
           (String (b64_digit (b mod 16 * 4)) "="))
  | a :: b :: c :: rest =>
      let a := Byte.to_nat a in
      let b := Byte.to_nat b in
      let c := Byte.to_nat c in
      String (b64_digit (a / 4))
        (String (b64_digit (a mod 4 * 16 + b / 16))
           (String (b64_digit (b mod 16 * 4 + c / 64))
              (String (b64_digit (c mod 64)) (b64encode rest))))
  end%nat.

(* ===================================================================== *)
(** * [document_classifier.py] *)
(* ===================================================================== *)

(** A tensor of shape [(rows, columns)] is the list of its rows. *)
Definition tensor (A : Type) : Type := list (list A).

(** [t.size(1)] *)
Definition size_1 {A} (t : tensor A) : nat :=
  match t with
  | [] => O
  | row :: _ => List.length row
  end.

(** A box is a list of four numbers. *)
Definition Box : Type := list pynum.

(** What the tokenizer returns, and the key [bbox] that
    [preprocess_image] adds.  [bbox] holds the nested list that is given
    to [torch.tensor]: one row of boxes for the one document. *)
Record BatchEncoding : Type := mkEncoding {
  input_ids : tensor Z;
  token_type_ids : tensor Z;
  attention_mask : tensor Z;
  bbox : option (list (list Box))
}.

(** [encoding['bbox'] = v] *)
Definition set_bbox (encoding : BatchEncoding) (v : list (list Box)) : BatchEncoding :=
  {| input_ids := input_ids encoding;
     token_type_ids := token_type_ids encoding;
     attention_mask := attention_mask encoding;
     bbox := Some v |}.

(** OpenCV's constants, with the values the library gives them. *)
Definition COLOR_BGR2GRAY : Z := 6.
Definition THRESH_BINARY_INV : Z := 1.
Definition RETR_EXTERNAL : Z := 0.
Definition CHAIN_APPROX_SIMPLE : Z := 2.

(** The libraries the classifier calls, and the builtins of [str].
    Nothing is assumed of them. *)
Record Externals : Type := mkExternals {
  (* PIL *)
  Image : Type;
  Image_open : string -> outcome Image;
  Image_convert : Image -> string -> outcome Image;
  Image_size : Image -> Z * Z;
  (* pytesseract *)
  image_to_string : Image -> outcome string;
  image_to_boxes : Image -> outcome string;
  (* str.splitlines, str.split, int *)
  str_splitlines : string -> list string;
  str_split : string -> list string;
  int_of_str : string -> outcome Z;
  (* the LayoutLM tokenizer, called with
     add_special_tokens, padding, truncation, max_length, return_tensors *)
  tokenizer : string -> bool -> string -> bool -> Z -> string -> outcome BatchEncoding;
  (* cv2 *)
  ndarray : Type;
  contour : Type;
  cv2_imread : string -> outcome (option ndarray);
  cv2_cvtColor : option ndarray -> Z -> outcome ndarray;
  cv2_threshold : ndarray -> Z -> Z -> Z -> outcome (float * ndarray);
  cv2_findContours : ndarray -> Z -> Z -> outcome (list contour * option ndarray);
  cv2_contourArea : contour -> float;
  cv2_boundingRect : contour -> Z * Z * Z * Z;
  (* the LayoutLM model: the logits of [self.model] on the encoding,
     and softmax *)
  model_logits : BatchEncoding -> outcome (tensor float);
  softmax : tensor float -> Z -> tensor float
}.

Module DocumentClassifier.

(** [get_document_types()] *)
Definition get_document_types : list (Z * string) :=
  [(0, "Invoice"); (1, "Resume"); (2, "Contract"); (3, "ID Card");
   (4, "Bank Statement")].

(** [str(n)] on an [int]. *)
Definition str_of_int (n : Z) : string := NilZero.string_of_int (Z.to_int n).

(** [d[key]] on the dict of document types. *)
Fixpoint dict_getitem (d : list (Z * string)) (key : Z) : outcome string :=
  match d with
  | [] => Raise (mkExc KeyError (str_of_int key))
  | (k, v) :: rest => if k =? key then Return v else dict_getitem rest key
  end.

(** The rectangle that pads the list of boxes: [[0, 0, 0, 0]]. *)
Definition zero_box : Box := [PyInt 0; PyInt 0; PyInt 0; PyInt 0].

(** Lines 72 to 80: the list of boxes is made as long as the tokenized
    input. *)
Definition match_length (normalized_boxes : list Box) (input_length : nat) : list Box :=
  let num_boxes := List.length normalized_boxes in
  if (num_boxes <? input_length)%nat
  then normalized_boxes ++ repeat zero_box (input_length - num_boxes)
  else if (input_length <? num_boxes)%nat
  then firstn input_length normalized_boxes
  else normalized_boxes.

(** Scanning a flattened tensor for its greatest entry, as torch does:
    a later entry replaces the best one when it is greater, or when it is
    a NaN and the best one is not.  The result is the index and the value
    of the first greatest entry. *)
Definition beats (x best : float) : bool :=
  (best <? x)%float || (is_nan x && negb (is_nan best)).

Fixpoint scan_max (best_i : nat) (best : float) (i : nat) (l : list float) : nat * float :=
  match l with
  | [] => (best_i, best)
  | x :: rest =>
      if beats x best then scan_max i x (S i) rest
      else scan_max best_i best (S i) rest
  end.

(** [t.argmax().item()] *)
Definition tensor_argmax (t : tensor float) : outcome Z :=
  match List.concat t with
  | [] => Raise (mkExc RuntimeError "argmax(): expected a non-empty tensor")
  | x :: rest => Return (Z.of_nat (fst (scan_max 0 x 1 rest)))
  end.

(** [t.max().item()] *)
Definition tensor_max (t : tensor float) : outcome float :=
  match List.concat t with
  | [] => Raise (mkExc RuntimeError "max(): expected a non-empty tensor")
  | x :: rest => Return (snd (scan_max 0 x 1 rest))
  end.

(** The boost of line 129: [0.1], the binary64 number nearest to 1/10. *)
Definition logo_boost : float := 0x1.999999999999ap-4%float.

(** Lines 128 and 129. *)
Definition adjust_confidence (has_logo : bool) (predicted_class : Z) (confidence : float) : float :=
  if has_logo && existsb (Z.eqb predicted_class) [0; 2]
  then (confidence + logo_boost)%float
  else confidence.

Section WithExternals.

Context (ext : Externals).

(** The body of the loop of lines 52 to 59, for one line of the OCR
    output: the normalized box and the word. *)
Definition normalize_box (width height : Z) (box : string) : outcome (Box * string) :=
  let b := str_split ext box in
  s1 <- getitem b 1 ;;
  n1 <- int_of_str ext s1 ;;
  q1 <- int_truediv n1 width ;;
  let x1 := times_1000 q1 in
  s2 <- getitem b 2 ;;
  n2 <- int_of_str ext s2 ;;
  q2 <- int_truediv (height - n2) height ;;
  let y1 := times_1000 q2 in
  s3 <- getitem b 3 ;;
  n3 <- int_of_str ext s3 ;;
  q3 <- int_truediv n3 width ;;
  let x2 := times_1000 q3 in
  s4 <- getitem b 4 ;;
  n4 <- int_of_str ext s4 ;;
  q4 <- int_truediv (height - n4) height ;;
  let y2 := times_1000 q4 in
  s0 <- getitem b 0 ;;
  ret ([PyFloat x1; PyFloat y1; PyFloat x2; PyFloat y2], s0).

(** The loop of lines 52 to 59. *)
Fixpoint normalize_boxes (width height : Z) (lines : list string)
    (normalized_boxes : list Box) (words : list string)
  : outcome (list Box * list string) :=
  match lines with
  | [] => ret (normalized_boxes, words)
  | box :: rest =>
      r <- normalize_box width height box ;;
      normalize_boxes width height rest
        (normalized_boxes ++ [fst r]) (words ++ [snd r])
  end.

Definition preprocess_image (image_path : string) : outcome BatchEncoding :=
  opened <- Image_open ext image_path ;;
  image <- Image_convert ext opened "RGB" ;;
  let (width, height) := Image_size ext image in
  text <- image_to_string ext image ;;
  boxes <- image_to_boxes ext image ;;
  r <- normalize_boxes width height (str_splitlines ext boxes) [] [] ;;
  let normalized_boxes := fst r in
  encoding <- tokenizer ext text true "max_length" true 512 "pt" ;;
  let input_length := size_1 (input_ids encoding) in
  let normalized_boxes := match_length normalized_boxes input_length in
  ret (set_bbox encoding [normalized_boxes]).

(** The stages of [preprocess_image] around the loop return: the image,
    the text and the boxes of the OCR, and the encoding of the text. *)
Definition stages_return (image_path : string) (image : Image ext)
    (text boxes : string) (encoding : BatchEncoding) : Prop :=
  (exists opened,
      Image_open ext image_path = Return opened /\
      Image_convert ext opened "RGB" = Return image) /\
  image_to_string ext image = Return text /\
  image_to_boxes ext image = Return boxes /\
  tokenizer ext text true "max_length" true 512 "pt" = Return encoding.

(** The aspect ratio of line 104, when it can be computed. *)
Definition aspect_ratio (c : contour ext) : float :=
  let '(_, _, w, h) := cv2_boundingRect ext c in
  (nearest_float w / nearest_float h)%float.

(** The two tests of lines 102 and 105. *)
Definition is_potential_logo (c : contour ext) : bool :=
  (1000 <? cv2_contourArea ext c)%float
  && ((0.5 <=? aspect_ratio c)%float && (aspect_ratio c <=? 2)%float).

(** The sides of the bounding rectangle are numbers line 104 can divide:
    OpenCV gives positive 32-bit sides. *)
Definition sides_divide (c : contour ext) : Prop :=
  let '(_, _, w, h) := cv2_boundingRect ext c in
  h <> 0 /\ Z.abs w < overflow_threshold /\ Z.abs h < overflow_threshold.

(** The loop of lines 100 to 106. *)
Fixpoint filter_contours (contours : list (contour ext))
    (potential_logos : list (Z * Z * Z * Z)) : outcome (list (Z * Z * Z * Z)) :=
  match contours with
  | [] => ret potential_logos
  | c :: rest =>
      let area := cv2_contourArea ext c in
      if (1000 <? area)%float then
        let '(x, y, w, h) := cv2_boundingRect ext c in
        fw <- float_of_int w ;;
        aspect_ratio <- float_div_int fw h ;;
        if (0.5 <=? aspect_ratio)%float && (aspect_ratio <=? 2)%float
        then filter_contours rest (potential_logos ++ [(x, y, w, h)])
        else filter_contours rest potential_logos
      else filter_contours rest potential_logos
  end.

Definition detect_logo (image_path : string) : outcome bool :=
  image <- cv2_imread ext image_path ;;
  gray <- cv2_cvtColor ext image COLOR_BGR2GRAY ;;
  tb <- cv2_threshold ext gray 127 255 THRESH_BINARY_INV ;;
  let binary := snd tb in
  ch <- cv2_findContours ext binary RETR_EXTERNAL CHAIN_APPROX_SIMPLE ;;
  let contours := fst ch in
  potential_logos <- filter_contours contours [] ;;
  ret (0 <? List.length potential_logos)%nat.

(** The image is read, turned to gray, thresholded at 127 of 255 with
    the inverse binary rule, and its external contours are [contours]. *)
Definition contours_found (image_path : string) (contours : list (contour ext)) : Prop :=
  exists image gray tb ch,
    cv2_imread ext image_path = Return image /\
    cv2_cvtColor ext image COLOR_BGR2GRAY = Return gray /\
    cv2_threshold ext gray 127 255 THRESH_BINARY_INV = Return tb /\
    cv2_findContours ext (snd tb) RETR_EXTERNAL CHAIN_APPROX_SIMPLE = Return ch /\
    contours = fst ch.

(** The [try] block of [classify_document], lines 112 to 135. *)
Definition classify_document_body (image_path : string) : outcome pyval :=
  encoding <- preprocess_image image_path ;;
  has_logo <- detect_logo image_path ;;
  logits <- model_logits ext encoding ;;
  let predictions := softmax ext logits 1 in
  predicted_class <- tensor_argmax predictions ;;
  confidence <- tensor_max predictions ;;
  let confidence := adjust_confidence has_logo predicted_class confidence in
  document_type <- dict_getitem get_document_types predicted_class ;;
  ret (VDict [("document_type", VStr document_type);
              ("confidence", VFloat confidence);
              ("has_logo", VBool has_logo)]).

(** A stage of the [try] block raises [e], the stages before it having
    returned: image loading, OCR, box normalization, tokenization, logo
    detection, model inference, and the reading of the prediction. *)
Inductive stage_raises (image_path : string) (e : exc) : Prop :=
| image_loading_raises :
    Image_open ext image_path = Raise e ->
    stage_raises image_path e
| image_conversion_raises (opened : Image ext) :
    Image_open ext image_path = Return opened ->
    Image_convert ext opened "RGB" = Raise e ->
    stage_raises image_path e
| ocr_text_raises (opened image : Image ext) :
    Image_open ext image_path = Return opened ->
    Image_convert ext opened "RGB" = Return image ->
    image_to_string ext image = Raise e ->
    stage_raises image_path e
| ocr_boxes_raises (opened image : Image ext) (text : string) :
    Image_open ext image_path = Return opened ->
    Image_convert ext opened "RGB" = Return image ->
    image_to_string ext image = Return text ->
    image_to_boxes ext image = Raise e ->
    stage_raises image_path e
| box_normalization_raises (opened image : Image ext) (text boxes : string) :
    Image_open ext image_path = Return opened ->
    Image_convert ext opened "RGB" = Return image ->
    image_to_string ext image = Return text ->
    image_to_boxes ext image = Return boxes ->
    normalize_boxes (fst (Image_size ext image)) (snd (Image_size ext image))
      (str_splitlines ext boxes) [] [] = Raise e ->
    stage_raises image_path e
| tokenizer_raises (opened image : Image ext) (text boxes : string)
    (r : list Box * list string) :
    Image_open ext image_path = Return opened ->
    Image_convert ext opened "RGB" = Return image ->
    image_to_string ext image = Return text ->
    image_to_boxes ext image = Return boxes ->
    normalize_boxes (fst (Image_size ext image)) (snd (Image_size ext image))
      (str_splitlines ext boxes) [] [] = Return r ->
    tokenizer ext text true "max_length" true 512 "pt" = Raise e ->
    stage_raises image_path e
| logo_detection_raises (encoding : BatchEncoding) :
    preprocess_image image_path = Return encoding ->
    detect_logo image_path = Raise e ->
    stage_raises image_path e
| model_inference_raises (encoding : BatchEncoding) (has_logo : bool) :
    preprocess_image image_path = Return encoding ->
    detect_logo image_path = Return has_logo ->
    model_logits ext encoding = Raise e ->
    stage_raises image_path e
| prediction_raises (encoding : BatchEncoding) (has_logo : bool) (logits : tensor float) :
    preprocess_image image_path = Return encoding ->
    detect_logo image_path = Return has_logo ->
    model_logits ext encoding = Return logits ->
    (predicted_class <- tensor_argmax (softmax ext logits 1) ;;
     _ <- tensor_max (softmax ext logits 1) ;;
     dict_getitem get_document_types predicted_class) = Raise e ->
    stage_raises image_path e.

Definition classify_document (image_path : string) : Py pyval :=
  try_except (lift (classify_document_body image_path)) [Exception]
    (fun e =>
       print ("Error processing document: " ++ exc_str e)%string ;;
       ret VNone).

End WithExternals.

End DocumentClassifier.

(* ===================================================================== *)
(** * [classify.py] *)
(* ===================================================================== *)

(** What the HTTP variant calls: the file system, [requests] and the
    builtin [eval].  [eval] runs code: besides its value or exception, it
    gives the lines that code prints and the requests it sends, which can
    depend on the world so far. *)
Record HttpExternals : Type := mkHttpExternals {
  read_file : string -> outcome (list Byte.byte);
  Response : Type;
  requests_post : string -> pyval -> outcome Response;
  Response_json : Response -> outcome pyval;
  eval : string -> world -> outcome pyval * (list string * list request)
}.

Module Classify.

Definition OLLAMA_API_URL : string := "http://localhost:11434/api/generate".
Definition MODEL_NAME : string := "x/llama3.2-vision:latest".

Definition prompt : string :=
  ("Classify the document type " ++ "Return only the category in JSON format.")%string.

(** The request payload of lines 23 to 29. *)
Definition payload (image_base64 : string) : pyval :=
  VDict [("model", VStr MODEL_NAME);
         ("prompt", VStr prompt);
         ("images", VList [VStr image_base64]);
         ("format", VStr "json");
         ("stream", VBool false)].

Section WithExternals.

Context (ext : HttpExternals).

(** [requests.post(url, json=data)]: the request is recorded, answered
    or not. *)
Definition post (url : string) (data : pyval) : Py (Response ext) :=
  fun w =>
    (requests_post ext url data,
     log_request w {| method := "POST"; url := url; json := data |}).

(** [eval(source)] *)
Definition py_eval (source : string) : Py pyval :=
  fun w =>
    let '(r, (printed, sent)) := eval ext source w in
    (r, {| stdout := stdout w ++ printed; http_log := http_log w ++ sent |}).

Definition classify_document (image_path : string) : Py pyval :=
  image <- lift (read_file ext image_path) ;;
  let image_base64 := b64encode image in
  let data := payload image_base64 in
  response <- post OLLAMA_API_URL data ;;
  response_json <- lift (Response_json ext response) ;;
  done <- lift (py_get response_json "done") ;;
  if truthy done then
    output_json <- lift (py_get response_json "response") ;;
    if truthy output_json then
      match output_json with
      | VStr source =>
          try_except
            (document_info <- py_eval source ;;
             lift (py_get document_info "category"))
            [SyntaxError; KeyError]
            (fun _ =>
               print "Unexpected JSON format in response." ;;
               print source ;;
               ret (VStr "Unknown document type"))
      | _ =>
          lift (Raise (mkExc TypeError
                         "eval() arg 1 must be a string, bytes or code object"))
      end
    else ret (VStr "Unknown document type")
  else ret (VStr "Unknown document type").

End WithExternals.

End Classify.

(* ===================================================================== *)
(** * A small world to run the programs in *)
(* ===================================================================== *)

(** Three image files, with what the libraries find in them, and an
    inference server.  The builtins of [str] are given on ASCII text. *)
Module Fixture.

Definition LF : ascii := ascii_of_nat 10.

Definition is_space (c : ascii) : bool :=
  match nat_of_ascii c with
  | 9 | 10 | 11 | 12 | 13 | 28 | 29 | 30 | 31 | 32 => true
  | _ => false
  end%nat.

Definition flush (cur : list ascii) : list string :=
  match cur with
  | [] => []
  | _ => [string_of_list_ascii cur]
  end.

(** [s.split()] *)
Fixpoint split_from (s : string) (cur : list ascii) : list string :=
  match s with
  | EmptyString => flush cur
  | String c rest =>
      if is_space c then flush cur ++ split_from rest []
      else split_from rest (cur ++ [c])
  end.

Definition split (s : string) : list string := split_from s [].

(** [s.splitlines()], for lines that end in a line feed. *)
Fixpoint splitlines_from (s : string) (cur : list ascii) : list string :=
  match s with
  | EmptyString => flush cur
  | String c rest =>
      if Ascii.eqb c LF then string_of_list_ascii cur :: splitlines_from rest []
      else splitlines_from rest (cur ++ [c])
  end.

Definition splitlines (s : string) : list string := splitlines_from s [].

Definition digit (c : ascii) : option Z :=
  let n := nat_of_ascii c in
  if ((48 <=? n) && (n <=? 57))%nat then Some (Z.of_nat (n - 48)) else None.

Fixpoint digits (s : string) (acc : Z) : option Z :=
  match s with
  | EmptyString => Some acc
  | String c rest =>
      match digit c with
      | Some d => digits rest (10 * acc + d)
      | None => None
      end
  end.

Definition invalid_literal : exc :=
  mkExc ValueError "invalid literal for int() with base 10".

Definition unsigned (s : string) : outcome Z :=
  match s with
  | EmptyString => Raise invalid_literal
  | _ => match digits s 0 with
         | Some n => Return n
         | None => Raise invalid_literal
         end
  end.

(** [int(s)] on a decimal literal with an optional sign. *)
Definition int (s : string) : outcome Z :=
  match s with
  | String "-" rest => n <- unsigned rest ;; ret (- n)
  | String "+" rest => unsigned rest
  | _ => unsigned s
  end.

(** What the libraries see in one image file. *)
Record scene : Type := mkScene {
  scene_size : Z * Z;
  scene_text : string;
  scene_boxes : string;
  scene_contours : list (float * (Z * Z * Z * Z))
}.

Definition p85 : float := 0x1.b333333333333p-1%float.  (* 0.85 *)
Definition p95 : float := 0x1.e666666666666p-1%float.  (* 0.95 *)
Definition p05 : float := 0x1.999999999999ap-5%float.  (* 0.05 *)
Definition p04 : float := 0x1.47ae147ae147bp-5%float.  (* 0.04 *)
Definition p03 : float := 0x1.eb851eb851eb8p-6%float.  (* 0.03 *)

Definition invoice : scene :=
  {| scene_size := (1000, 1400);
     scene_text := "IN";
     scene_boxes :=
       ("I 100 1330 112 1350 0" ++ String LF "N 114 1330 130 1350 0")%string;
     scene_contours := [(10000%float, (50, 50, 101, 101)); (96.5%float, (100, 50, 12, 20))] |}.

Definition resume : scene :=
  {| scene_size := (1000, 1400);
     scene_text := "CV";
     scene_boxes := "C 100 1330 112 1350 0";
     scene_contours := [(10000%float, (50, 50, 101, 101))] |}.

Definition blank : scene :=
  {| scene_size := (800, 600);
     scene_text := "";
     scene_boxes := "";
     scene_contours := [] |}.

(** A logo whose contour has an area of exactly 1000: a filled
    rectangle of 41 by 26 pixels, whose contour runs through the centres
    of its border pixels. *)
Definition stamp : scene :=
  {| scene_size := (800, 600);
     scene_text := "";
     scene_boxes := "";
     scene_contours := [(1000%float, (50, 50, 41, 26))] |}.

(** The two boxes of the invoice, as lines 54 to 58 compute them. *)
Definition invoice_boxes : list Box :=
  [[PyFloat (nearest_quotient 100 1000 * 1000);
    PyFloat (nearest_quotient (1400 - 1330) 1400 * 1000);
    PyFloat (nearest_quotient 112 1000 * 1000);
    PyFloat (nearest_quotient (1400 - 1350) 1400 * 1000)];
   [PyFloat (nearest_quotient 114 1000 * 1000);
    PyFloat (nearest_quotient (1400 - 1330) 1400 * 1000);
    PyFloat (nearest_quotient 130 1000 * 1000);
    PyFloat (nearest_quotient (1400 - 1350) 1400 * 1000)]]%float.

Definition files : list (string * scene) :=
  [("invoice.png", invoice); ("resume.png", resume); ("blank.png", blank);
   ("stamp.png", stamp)].

Definition no_such_file (path : string) : exc :=
  mkExc FileNotFoundError ("[Errno 2] No such file or directory: " ++ path)%string.

Definition cv2_error : exc_class := LibraryError "cv2.error" Exception.

Definition open_image (path : string) : outcome scene :=
  match assoc path files with
  | Some s => Return s
  | None => Raise (no_such_file path)
  end.

(** The tokenizer: [CLS], one token for each character, [SEP], cut or
    padded with zeros to [max_length]. *)
Definition encode (text : string) (n : nat) : BatchEncoding :=
  let codes := map (fun c => Z.of_nat (nat_of_ascii c)) (list_ascii_of_string text) in
  {| input_ids := [firstn n (101 :: codes ++ 102 :: repeat 0 n)];
     token_type_ids := [repeat 0 n];
     attention_mask := [firstn n (repeat 1 (2 + List.length codes) ++ repeat 0 n)];
     bbox := None |}.

Definition tokenize (text : string) (add_special_tokens : bool) (padding : string)
    (truncation : bool) (max_length : Z) (return_tensors : string)
  : outcome BatchEncoding :=
  Return (encode text (Z.to_nat max_length)).

(** The model: it tells an invoice (I) from a resume (C) by the first
    character, and its scores are probabilities already. *)
Definition model (encoding : BatchEncoding) : outcome (tensor float) :=
  match input_ids encoding with
  | [_ :: 73 :: _] => Return [[p85; p05; p04; p03; p03]]
  | [_ :: 67 :: _] => Return [[p05; p85; p04; p03; p03]]
  | [_] => Return [[0.25; 0.25; 0.25; 0.125; 0.125]%float]
  | _ => Raise (mkExc RuntimeError "expected a batch of one sequence")
  end.

Definition cvtColor (image : option scene) (code : Z) : outcome scene :=
  match image with
  | Some s => Return s
  | None => Raise (mkExc cv2_error "(-215:Assertion failed) !_src.empty() in function 'cvtColor'")
  end.

Definition externals : Externals :=
  {| Image := scene;
     Image_open := open_image;
     Image_convert := fun image mode => Return image;
     Image_size := scene_size;
     image_to_string := fun image => Return (scene_text image);
     image_to_boxes := fun image => Return (scene_boxes image);
     str_splitlines := splitlines;
     str_split := split;
     int_of_str := int;
     tokenizer := tokenize;
     ndarray := scene;
     contour := float * (Z * Z * Z * Z);
     cv2_imread := fun path => Return (assoc path files);
     cv2_cvtColor := cvtColor;
     cv2_threshold := fun gray thresh maxval type => Return (nearest_float thresh, gray);
     cv2_findContours := fun binary mode method => Return (scene_contours binary, None);
     cv2_contourArea := fst;
     cv2_boundingRect := snd;
     model_logits := model;
     softmax := fun logits dim => logits |}.

(** The bytes of four files, and what the inference server answers for
    each: a category, a generation that is not done, text that is not an
    expression, and an empty text. *)
Definition file_bytes : list (string * list Byte.byte) :=
  [("invoice.png", list_byte_of_string "Man");
   ("pending.png", list_byte_of_string "Ma");
   ("garbled.png", list_byte_of_string "M");
   ("silent.png", list_byte_of_string "none")].

Definition read (path : string) : outcome (list Byte.byte) :=
  match assoc path file_bytes with
  | Some data => Return data
  | None => Raise (no_such_file path)
  end.

Definition answers : list (string * pyval) :=
  [("TWFu", VDict [("model", VStr Classify.MODEL_NAME);
                   ("response", VStr "{'category': 'Invoice'}");
                   ("done", VBool true)]);
   ("TWE=", VDict [("model", VStr Classify.MODEL_NAME);
                   ("response", VStr "{'category': 'Inv");
                   ("done", VBool false)]);
   ("TQ==", VDict [("model", VStr Classify.MODEL_NAME);
                   ("response", VStr "{category");
                   ("done", VBool true)]);
   ("bm9uZQ==", VDict [("model", VStr Classify.MODEL_NAME);
                       ("response", VStr "");
                       ("done", VBool true)])].

Definition connection_error : exc :=
  mkExc (LibraryError "requests.exceptions.ConnectionError" OSError) "Connection refused".

Definition server (url : string) (data : pyval) : outcome pyval :=
  if String.eqb url Classify.OLLAMA_API_URL then
    match py_get data "images" with
    | Return (VList [VStr image]) =>
        match assoc image answers with
        | Some answer => Return answer
        | None => Return (VDict [("error", VStr "unknown image")])
        end
    | _ => Return (VDict [("error", VStr "no image")])
    end
  else Raise connection_error.

(** [eval] on the two texts the server sends. *)
Definition evaluate (source : string) (w : world)
  : outcome pyval * (list string * list request) :=
  if String.eqb source "{'category': 'Invoice'}"
  then (Return (VDict [("category", VStr "Invoice")]), ([], []))
  else (Raise (mkExc SyntaxError "invalid syntax"), ([], [])).

Definition http_externals : HttpExternals :=
  {| read_file := read;
     Response := pyval;
     requests_post := server;
     Response_json := fun response => Return response;
     eval := evaluate |}.

Definition fresh : world := {| stdout := []; http_log := [] |}.

(** The only contour of the stamp. *)
Definition stamp_contour : float * (Z * Z * Z * Z) := (1000%float, (50, 50, 41, 26)).

(** A check of the scaling of lines 54 to 57 on every pixel coordinate
    [0 .. side] of an image side: the scaled coordinate and the flipped
    one lie in [0, 1000], and the flipped one falls when the coordinate
    grows. *)
Definition scaled (n side : Z) : float := times_1000 (nearest_quotient n side).

Definition in_0_1000 (x : float) : bool := (0 <=? x)%float && (x <=? 1000)%float.

Definition coordinates (side : Z) : list Z :=
  map Z.of_nat (seq 0 (S (Z.to_nat side))).

Definition side_ok (side : Z) : bool :=
  forallb
    (fun x =>
       in_0_1000 (scaled x side)
       && in_0_1000 (scaled (side - x) side)
       && ((x =? side) || (scaled (side - (x + 1)) side <? scaled (side - x) side)%float))
    (coordinates side).

End Fixture.

(* ===================================================================== *)
(** * Python values: subscripts, defaults and formatting *)
(* ===================================================================== *)

Definition type_name (v : pyval) : string :=
  match v with
  | VNone => "NoneType"
  | VBool _ => "bool"
  | VInt _ => "int"
  | VFloat _ => "float"
  | VStr _ => "str"
  | VList _ => "list"
  | VDict _ => "dict"
  end.

(** A Python dict with string keys, as the list of its items. *)
Definition dict : Type := list (string * pyval).

(** [d.get(key, default)] on a dict. *)
Definition dict_get (d : dict) (key : string) (default : pyval) : pyval :=
  match assoc key d with
  | Some v => v
  | None => default
  end.

(** [key in d] on a dict. *)
Definition dict_contains (d : dict) (key : string) : bool :=
  match assoc key d with
  | Some _ => true
  | None => false
  end.

(** [v.get(key, default)] on any value: only a dict has the method. *)
Definition py_get_default (v : pyval) (key : string) (default : pyval) : outcome pyval :=
  match v with
  | VDict items => Return (dict_get items key default)
  | _ => Raise (mkExc AttributeError
                  ("'" ++ type_name v ++ "' object has no attribute 'get'")%string)
  end.

(** [v[key]] for a string key: a missing key of a dict is a [KeyError]
    whose text is the key in quotes; a list or a string wants an integer
    index; the other values have no subscript. *)
Definition py_getitem (v : pyval) (key : string) : outcome pyval :=
  match v with
  | VDict items =>
      match assoc key items with
      | Some x => Return x
      | None => Raise (mkExc KeyError ("'" ++ key ++ "'")%string)
      end
  | VList _ =>
      Raise (mkExc TypeError "list indices must be integers or slices, not str")
  | VStr _ =>
      Raise (mkExc TypeError "string indices must be integers, not 'str'")
  | _ =>
      Raise (mkExc TypeError ("'" ++ type_name v ++ "' object is not subscriptable")%string)
  end.

(** A replacement field of an f-string, [{v:spec}]: the builtin
    [format], which is the text itself for a [str] and an empty spec. *)
Definition format_value (format : pyval -> string -> outcome string)
    (v : pyval) (spec : string) : outcome string :=
  match v with
  | VStr s => if String.eqb spec "" then Return s else format v spec
  | _ => format v spec
  end.

(* ===================================================================== *)
(** * [document_classifier.py]: [main] *)
(* ===================================================================== *)

Module Main.

Definition image_path : string :=
  "/Users/internalis/Documents/SortiFile/Data/invoive1.png".

Section WithExternals.

(** The classifier that [DocumentClassifier()] has built, and the
    builtin [format]. *)
Context (ext : Externals) (format : pyval -> string -> outcome string).

(** Lines 149 to 152: the three lines for a result that is true. *)
Definition report (result : pyval) : Py unit :=
  if truthy result then
    document_type <- lift (py_getitem result "document_type") ;;
    line1 <- lift (format_value format document_type "") ;;
    print ("Document Type: " ++ line1)%string ;;
    confidence <- lift (py_getitem result "confidence") ;;
    line2 <- lift (format_value format confidence ".2f") ;;
    print ("Confidence: " ++ line2)%string ;;
    has_logo <- lift (py_getitem result "has_logo") ;;
    print ("Logo Detected: " ++ (if truthy has_logo then "Yes" else "No"))%string
  else ret tt.

Definition main : Py unit :=
  try_except
    (result <- DocumentClassifier.classify_document ext image_path ;;
     report result)
    [Exception]
    (fun e => print ("Error processing document: " ++ exc_str e)%string).

End WithExternals.

End Main.

(* ===================================================================== *)
(** * [GUI_Application.py]: the state of the application *)
(* ===================================================================== *)

(** A call to the file system, with what it gave: [None] for a call
    that went through, the exception otherwise. *)
Inductive fs_event : Type :=
| Mkdir (path : string) (failure : option exc)
| PathExists (path : string) (answer : bool)
| Opened (path mode : string) (failure : option exc)
| Wrote (path text : string) (failure : option exc)
| ReadAll (path : string) (content : outcome string).

(** A message box: its kind ([showwarning] or [showerror]), title and
    message. *)
Record dialog : Type := mkDialog {
  dialog_kind : string;
  dialog_title : string;
  dialog_message : string
}.

(** The application between two callbacks: what it has done to the
    outside, the Tk variables and widgets, and how often the clock was
    read.  The events Tk handles inside [update()] and while a message
    box is open are not part of the model. *)
Record gui : Type := mkGui {
  outside : world;
  fs_log : list fs_event;
  clock : nat;
  redraws : nat;
  file_path : string;
  model_var : string;
  status_var : string;
  result_text : string;
  json_text : string;
  history_tree : list (string * pyval * string);
  dialogs : list dialog
}.

Definition with_outside (g : gui) (w : world) : gui :=
  mkGui w (fs_log g) (clock g) (redraws g) (file_path g) (model_var g)
    (status_var g) (result_text g) (json_text g) (history_tree g) (dialogs g).

Definition with_fs_log (g : gui) (l : list fs_event) : gui :=
  mkGui (outside g) l (clock g) (redraws g) (file_path g) (model_var g)
    (status_var g) (result_text g) (json_text g) (history_tree g) (dialogs g).

Definition with_clock (g : gui) (n : nat) : gui :=
  mkGui (outside g) (fs_log g) n (redraws g) (file_path g) (model_var g)
    (status_var g) (result_text g) (json_text g) (history_tree g) (dialogs g).

Definition with_redraws (g : gui) (n : nat) : gui :=
  mkGui (outside g) (fs_log g) (clock g) n (file_path g) (model_var g)
    (status_var g) (result_text g) (json_text g) (history_tree g) (dialogs g).

Definition with_status_var (g : gui) (s : string) : gui :=
  mkGui (outside g) (fs_log g) (clock g) (redraws g) (file_path g) (model_var g)
    s (result_text g) (json_text g) (history_tree g) (dialogs g).

Definition with_result_text (g : gui) (s : string) : gui :=
  mkGui (outside g) (fs_log g) (clock g) (redraws g) (file_path g) (model_var g)
    (status_var g) s (json_text g) (history_tree g) (dialogs g).

Definition with_json_text (g : gui) (s : string) : gui :=
  mkGui (outside g) (fs_log g) (clock g) (redraws g) (file_path g) (model_var g)
    (status_var g) (result_text g) s (history_tree g) (dialogs g).

Definition with_history_tree (g : gui) (h : list (string * pyval * string)) : gui :=
  mkGui (outside g) (fs_log g) (clock g) (redraws g) (file_path g) (model_var g)
    (status_var g) (result_text g) (json_text g) h (dialogs g).

Definition with_dialogs (g : gui) (d : list dialog) : gui :=
  mkGui (outside g) (fs_log g) (clock g) (redraws g) (file_path g) (model_var g)
    (status_var g) (result_text g) (json_text g) (history_tree g) d.

(** Code that runs in the application. *)
Definition Gui (A : Type) : Type := gui -> outcome A * gui.

Definition Gui_ret {A} (a : A) : Gui A := fun g => (Return a, g).

Definition Gui_bind {A B} (m : Gui A) (k : A -> Gui B) : Gui B :=
  fun g =>
    match m g with
    | (Return a, g') => k a g'
    | (Raise e, g') => (Raise e, g')
    end.

#[export] Instance Monad_Gui : Monad Gui :=
  {| ret := @Gui_ret; bind := @Gui_bind |}.

(** A call that cannot touch the application. *)
Definition call {A} (m : outcome A) : Gui A := fun g => (m, g).

(** Code that prints and sends requests only. *)
Definition in_world {A} (m : Py A) : Gui A :=
  fun g => let (r, w) := m (outside g) in (r, with_outside g w).

(** [raise e] *)
Definition raise {A} (e : exc) : Gui A := fun g => (Raise e, g).

(** [try: body  except classes as e: handler] in the application. *)
Definition gui_try {A} (body : Gui A) (classes : list exc_class)
    (handler : exc -> Gui A) : Gui A :=
  fun g =>
    match body g with
    | (Return a, g') => (Return a, g')
    | (Raise e, g') => if catches classes e then handler e g' else (Raise e, g')
    end.

(** What [GUI_Application.py] calls besides [requests] and [eval]:
    [format], [os.path], [pathlib], the clock, [json], [csv] and the file
    system, whose answer to a call can depend on all the calls before. *)
Record GuiExternals : Type := mkGuiExternals {
  http : HttpExternals;
  builtin_format : pyval -> string -> outcome string;
  os_path_basename : string -> string;
  os_path_getsize : string -> outcome Z;
  (* str(Path(a) / b), Path(p).name, Path(p).stem *)
  Path_join : string -> string -> string;
  Path_name : string -> string;
  Path_stem : string -> string;
  (* datetime.now() at the n-th reading of the clock *)
  datetime : Type;
  datetime_now : nat -> datetime;
  isoformat : datetime -> string;
  strftime : datetime -> string -> string;
  (* json.dump: the text that reaches the file, and the exception if the
     value cannot be serialized; json.dumps *)
  json_dump : pyval -> Z -> string * option exc;
  json_dumps : pyval -> Z -> outcome string;
  (* the line csv.writer writes for a row *)
  csv_row : list pyval -> outcome string;
  fs_mkdir : list fs_event -> string -> option exc;
  fs_exists : list fs_event -> string -> bool;
  fs_open : list fs_event -> string -> string -> option exc;
  fs_write : list fs_event -> string -> string -> option exc;
  fs_read : list fs_event -> string -> outcome string
}.

(* ===================================================================== *)
(** * [GUI_Application.py]: [ModernDocumentClassifierGUI] *)
(* ===================================================================== *)

Module Gui.

Definition OLLAMA_API_URL : string := "http://localhost:11434/api/generate".

Definition prompt : string :=
  "Classify the document type. Return only the category in JSON format.".

(** The confidence of line 237: [0.95]. *)
Definition fixed_confidence : float := 0x1.e666666666666p-1%float.

Definition newline : string := String (ascii_of_nat 10) EmptyString.

Definition log_header : list pyval :=
  [VStr "Timestamp"; VStr "Filename"; VStr "Document Type"; VStr "Confidence";
   VStr "Path"].

Section WithExternals.

Context (ext : GuiExternals).

(** The directories and the log file that [setup_directories] names. *)
Definition base_dir : string := "classification_results".
Definition json_dir : string := Path_join ext base_dir "json".
Definition text_dir : string := Path_join ext base_dir "text".
Definition archive_dir : string := Path_join ext base_dir "archive".
Definition log_file : string := Path_join ext base_dir "classification_log.csv".

(** ** The file system, the clock and the widgets *)

Definition record_event (g : gui) (ev : fs_event) : gui :=
  with_fs_log g (fs_log g ++ [ev]).

Definition finish (failure : option exc) (g : gui) : outcome unit * gui :=
  match failure with
  | None => (Return tt, g)
  | Some e => (Raise e, g)
  end.

(** [directory.mkdir(parents=True, exist_ok=True)] *)
Definition mkdir (path : string) : Gui unit :=
  fun g =>
    let failure := fs_mkdir ext (fs_log g) path in
    finish failure (record_event g (Mkdir path failure)).

(** [path.exists()] *)
Definition path_exists (path : string) : Gui bool :=
  fun g =>
    let answer := fs_exists ext (fs_log g) path in
    (Return answer, record_event g (PathExists path answer)).

(** [open(path, mode)] *)
Definition open_file (path mode : string) : Gui unit :=
  fun g =>
    let failure := fs_open ext (fs_log g) path mode in
    finish failure (record_event g (Opened path mode failure)).

(** [f.write(text)] on the file opened at [path]. *)
Definition write (path text : string) : Gui unit :=
  fun g =>
    let failure := fs_write ext (fs_log g) path text in
    finish failure (record_event g (Wrote path text failure)).

(** [f.read()] on the file opened at [path]. *)
Definition read (path : string) : Gui string :=
  fun g =>
    let content := fs_read ext (fs_log g) path in
    (content, record_event g (ReadAll path content)).

(** [datetime.now()] *)
Definition now : Gui (datetime ext) :=
  fun g => (Return (datetime_now ext (clock g)), with_clock g (S (clock g))).

(** [self.status_var.set(text)] *)
Definition set_status (text : string) : Gui unit :=
  fun g => (Return tt, with_status_var g text).

(** [self.model_var.get()] and [self.file_path.get()] *)
Definition get_model : Gui string := fun g => (Return (model_var g), g).

Definition get_file_path : Gui string := fun g => (Return (file_path g), g).

(** [delete(1.0, tk.END)] followed by [insert(tk.END, text)] on the two
    text widgets, and [history_tree.insert('', 0, values=row)]. *)
Definition set_result_text (text : string) : Gui unit :=
  fun g => (Return tt, with_result_text g text).

Definition set_json_text (text : string) : Gui unit :=
  fun g => (Return tt, with_json_text g text).

Definition insert_history (row : string * pyval * string) : Gui unit :=
  fun g => (Return tt, with_history_tree g (row :: history_tree g)).

(** [self.root.update()] *)
Definition update : Gui unit :=
  fun g => (Return tt, with_redraws g (S (redraws g))).

(** [messagebox.showwarning(title, message)] and [showerror]. *)
Definition show (kind title message : string) : Gui unit :=
  fun g => (Return tt, with_dialogs g (dialogs g ++ [mkDialog kind title message])).

(** [eval(output_json)] *)
Definition evaluate (output_json : pyval) : Gui pyval :=
  match output_json with
  | VStr source => in_world (Classify.py_eval (http ext) source)
  | _ => raise (mkExc TypeError "eval() arg 1 must be a string, bytes or code object")
  end.

(** ** [classify_document], lines 210 to 254 *)

(** Lines 233 to 247: the body of the inner [try]. *)
Definition classified (image_path : string) (output_json : pyval) : Gui dict :=
  result <- evaluate output_json ;;
  category <- call (py_get_default result "category" (VStr "Unknown")) ;;
  processed <- now ;;
  model_version <- get_model ;;
  let name := os_path_basename ext image_path in
  size <- call (os_path_getsize ext image_path) ;;
  ret [("category", category);
       ("confidence", VFloat fixed_confidence);
       ("details",
        VDict [("processed_time", VStr (isoformat ext processed));
               ("model_version", VStr model_version);
               ("file_info",
                VDict [("name", VStr name);
                       ("size", VInt size);
                       ("path", VStr image_path)])])].

(** Lines 215 to 251: the body of the outer [try]. *)
Definition classify_document_body (image_path : string) : Gui dict :=
  image <- call (read_file (http ext) image_path) ;;
  let image_base64 := b64encode image in
  model <- get_model ;;
  let data :=
    VDict [("model", VStr model);
           ("prompt", VStr prompt);
           ("images", VList [VStr image_base64]);
           ("format", VStr "json");
           ("stream", VBool false)] in
  response <- in_world (Classify.post (http ext) OLLAMA_API_URL data) ;;
  response_json <- call (Response_json (http ext) response) ;;
  done <- call (py_get_default response_json "done" VNone) ;;
  if truthy done then
    output_json <- call (py_get_default response_json "response" VNone) ;;
    if truthy output_json then
      gui_try (classified image_path output_json)
        [SyntaxError; KeyError]
        (fun e =>
           raise (mkExc Exception ("Error parsing API response: " ++ exc_str e)%string))
    else raise (mkExc Exception "Classification failed")
  else raise (mkExc Exception "Classification failed").

Definition classify_document (image_path : string) : Gui dict :=
  gui_try (classify_document_body image_path) [Exception]
    (fun e => ret [("error", VStr (exc_str e))]).

(** ** [setup_directories], lines 74 to 90 *)

Definition setup_directories : Gui unit :=
  mkdir base_dir ;;
  mkdir json_dir ;;
  mkdir text_dir ;;
  mkdir archive_dir ;;
  found <- path_exists log_file ;;
  if negb found then
    open_file log_file "w" ;;
    line <- call (csv_row ext log_header) ;;
    write log_file line
  else ret tt.

(** ** [save_results], lines 256 to 288 *)

(** [f"{results.get('confidence', 0):.2%}"] *)
Definition confidence_percent (results : dict) : Gui string :=
  call (format_value (builtin_format ext) (dict_get results "confidence" (VInt 0)) ".2%").

(** [json.dump(results, f, indent=4)] on the file opened at [path]. *)
Definition dump (results : dict) (path : string) : Gui unit :=
  let (text, failure) := json_dump ext (VDict results) 4 in
  write path text ;;
  finish failure.

Definition save_results (results : dict) (image_path : string) : Gui (string * string) :=
  stamp <- now ;;
  let timestamp := strftime ext stamp "%Y%m%d_%H%M%S" in
  let filename_base := (timestamp ++ "_" ++ Path_stem ext image_path)%string in
  let json_path := Path_join ext json_dir (filename_base ++ ".json")%string in
  open_file json_path "w" ;;
  dump results json_path ;;
  let text_path := Path_join ext text_dir (filename_base ++ ".txt")%string in
  open_file text_path "w" ;;
  write text_path ("Document Classification Results" ++ newline)%string ;;
  write text_path ("===========================" ++ newline)%string ;;
  written <- now ;;
  write text_path
    ("Timestamp: " ++ strftime ext written "%Y-%m-%d %H:%M:%S" ++ newline)%string ;;
  category <- call (format_value (builtin_format ext)
                      (dict_get results "category" (VStr "Unknown")) "") ;;
  write text_path ("Document Type: " ++ category ++ newline)%string ;;
  percent <- confidence_percent results ;;
  write text_path ("Confidence: " ++ percent ++ newline)%string ;;
  write text_path ("File: " ++ Path_name ext image_path ++ newline)%string ;;
  write text_path ("Path: " ++ image_path ++ newline)%string ;;
  open_file log_file "a" ;;
  logged <- now ;;
  percent <- confidence_percent results ;;
  line <- call (csv_row ext
                  [VStr (isoformat ext logged);
                   VStr (Path_name ext image_path);
                   dict_get results "category" (VStr "Unknown");
                   VStr percent;
                   VStr image_path]) ;;
  write log_file line ;;
  ret (text_path, json_path).

(** ** [update_display], lines 290 to 306 *)

(** [Path(v).name] *)
Definition name_of (v : pyval) : Gui string :=
  match v with
  | VStr path => ret (Path_name ext path)
  | _ => raise (mkExc TypeError
                  ("expected str, bytes or os.PathLike object, not " ++ type_name v)%string)
  end.

Definition update_display (results : dict) (text_path json_path : string) : Gui unit :=
  set_result_text "" ;;
  open_file text_path "r" ;;
  content <- read text_path ;;
  set_result_text content ;;
  set_json_text "" ;;
  text <- call (json_dumps ext (VDict results) 4) ;;
  set_json_text text ;;
  shown <- now ;;
  let time := strftime ext shown "%H:%M:%S" in
  let category := dict_get results "category" (VStr "Unknown") in
  details <- call (py_getitem (VDict results) "details") ;;
  file_info <- call (py_getitem details "file_info") ;;
  path <- call (py_getitem file_info "path") ;;
  name <- name_of path ;;
  insert_history (time, category, name).

(** ** [classify_and_save], lines 308 to 334 *)

(** Lines 319 to 330: the body of the [try]. *)
Definition classify_and_save_body : Gui unit :=
  selected <- get_file_path ;;
  results <- classify_document selected ;;
  (if dict_contains results "error" then
     message <- call (py_getitem (VDict results) "error") ;;
     text <- call (format_value (builtin_format ext) message "") ;;
     raise (mkExc Exception text)
   else ret tt) ;;
  selected <- get_file_path ;;
  paths <- save_results results selected ;;
  update_display results (fst paths) (snd paths) ;;
  set_status "Results saved successfully".

Definition classify_and_save : Gui unit :=
  selected <- get_file_path ;;
  if String.eqb selected ""
  then show "showwarning" "Warning" "Please select a file first"
  else
    set_status "Processing..." ;;
    update ;;
    gui_try classify_and_save_body [Exception]
      (fun e =>
         set_status ("Error: " ++ exc_str e)%string ;;
         show "showerror" "Error" ("Classification failed: " ++ exc_str e)%string).

End WithExternals.

End Gui.

(* ===================================================================== *)
(** * More of the small world: edge cases and the application *)
(* ===================================================================== *)

(** Three more image files for the pipeline: one whose OCR output has
    an empty line after a good one, one whose contours are all small,
    with flat bounding rectangles, and the invoice at the path that
    [main] names. *)
Module Edge.

Definition gap : Fixture.scene :=
  {| Fixture.scene_size := (1000, 1400);
     Fixture.scene_text := "IN";
     Fixture.scene_boxes :=
       ("I 100 1330 112 1350 0"
        ++ String Fixture.LF (String Fixture.LF "N 114 1330 130 1350 0"))%string;
     Fixture.scene_contours := [] |}.

Definition specks : Fixture.scene :=
  {| Fixture.scene_size := (800, 600);
     Fixture.scene_text := "";
     Fixture.scene_boxes := "";
     Fixture.scene_contours :=
       [(30.5%float, (10, 10, 12, 0)); (1000%float, (40, 40, 0, 0))] |}.

Definition files : list (string * Fixture.scene) :=
  [("gap.png", gap); ("specks.png", specks);
   (Main.image_path, Fixture.invoice)].

Definition open_image (path : string) : outcome Fixture.scene :=
  match assoc path files with
  | Some s => Return s
  | None => Raise (Fixture.no_such_file path)
  end.

Definition externals : Externals :=
  {| Image := Fixture.scene;
     Image_open := open_image;
     Image_convert := fun image mode => Return image;
     Image_size := Fixture.scene_size;
     image_to_string := fun image => Return (Fixture.scene_text image);
     image_to_boxes := fun image => Return (Fixture.scene_boxes image);
     str_splitlines := Fixture.splitlines;
     str_split := Fixture.split;
     int_of_str := Fixture.int;
     tokenizer := Fixture.tokenize;
     ndarray := Fixture.scene;
     contour := float * (Z * Z * Z * Z);
     cv2_imread := fun path => Return (assoc path files);
     cv2_cvtColor := Fixture.cvtColor;
     cv2_threshold := fun gray thresh maxval type => Return (nearest_float thresh, gray);
     cv2_findContours :=
       fun binary mode method => Return (Fixture.scene_contours binary, None);
     cv2_contourArea := fst;
     cv2_boundingRect := snd;
     model_logits := Fixture.model;
     softmax := fun logits dim => logits |}.

(** [format] on the values the programs print: a text as it is, the
    two confidences of the fixture with two decimals. *)
Definition format (v : pyval) (spec : string) : outcome string :=
  match v with
  | VStr s => Return s
  | VInt 0 => Return (if String.eqb spec ".2%" then "0.00%" else "0")
  | VFloat x =>
      if (x =? Fixture.p95)%float
      then Return (if String.eqb spec ".2%" then "95.00%" else "0.95")
      else if (x =? Fixture.p85)%float
      then Return (if String.eqb spec ".2%" then "85.00%" else "0.85")
      else Raise (mkExc ValueError "the fixture does not format this number")
  | _ => Raise (mkExc TypeError "unsupported format string passed to __format__")
  end.

End Edge.

(** An inference server with answers of other shapes: a category that
    is the JSON word null, a dict with another key, a JSON array, a
    [response] that is a number, and a response that is a list. *)
Module Oddities.

Definition file_bytes : list (string * list Byte.byte) :=
  [("null.png", list_byte_of_string "nul");
   ("other.png", list_byte_of_string "oth");
   ("array.png", list_byte_of_string "arr");
   ("number.png", list_byte_of_string "num");
   ("list.png", list_byte_of_string "lis")].

Definition read (path : string) : outcome (list Byte.byte) :=
  match assoc path file_bytes with
  | Some data => Return data
  | None => Raise (Fixture.no_such_file path)
  end.

Definition answers : list (string * pyval) :=
  [("bnVs", VDict [("response", VStr "{'category': null}"); ("done", VBool true)]);
   ("b3Ro", VDict [("response", VStr "{'type': 'Invoice'}"); ("done", VBool true)]);
   ("YXJy", VList [VStr "Invoice"]);
   ("bnVt", VDict [("response", VInt 7); ("done", VBool true)]);
   ("bGlz", VDict [("response", VStr "['Invoice']"); ("done", VBool true)])].

Definition server (url : string) (data : pyval) : outcome pyval :=
  match py_get data "images" with
  | Return (VList [VStr image]) =>
      match assoc image answers with
      | Some answer => Return answer
      | None => Return (VDict [("error", VStr "unknown image")])
      end
  | _ => Return (VDict [("error", VStr "no image")])
  end.

Definition name_error : exc := mkExc NameError "name 'null' is not defined".

Definition evaluate (source : string) (w : world)
  : outcome pyval * (list string * list request) :=
  if String.eqb source "{'type': 'Invoice'}"
  then (Return (VDict [("type", VStr "Invoice")]), ([], []))
  else if String.eqb source "['Invoice']"
  then (Return (VList [VStr "Invoice"]), ([], []))
  else if String.eqb source "{'category': null}"
  then (Raise name_error, ([], []))
  else (Raise (mkExc SyntaxError "invalid syntax"), ([], [])).

Definition http_externals : HttpExternals :=
  {| read_file := read;
     Response := pyval;
     requests_post := server;
     Response_json := fun response => Return response;
     eval := evaluate |}.

End Oddities.

(** The application in the small world: the files and the server of
    [Fixture], a clock that ticks once a reading, and a file system that
    never fails and remembers what was written. *)
Module Desk.

Definition digit_text (n : nat) : string :=
  String (ascii_of_nat (48 + n mod 10)) EmptyString.

Definition clock_text (n : nat) (format : string) : string :=
  if String.eqb format "%Y%m%d_%H%M%S" then ("20240411_09300" ++ digit_text n)%string
  else if String.eqb format "%H:%M:%S" then ("09:30:0" ++ digit_text n)%string
  else ("2024-04-11 09:30:0" ++ digit_text n)%string.

Fixpoint before_dot (s : string) : string :=
  match s with
  | EmptyString => EmptyString
  | String c rest => if Ascii.eqb c "."%char then EmptyString else String c (before_dot rest)
  end.

Definition field_text (v : pyval) : string :=
  match v with
  | VStr s => s
  | _ => "?"
  end.

Definition CRLF : string :=
  String (ascii_of_nat 13) (String (ascii_of_nat 10) EmptyString).

Definition csv_line (row : list pyval) : outcome string :=
  Return (String.concat "," (map field_text row) ++ CRLF)%string.

(** A file exists once it was opened for writing or appending. *)
Fixpoint exists_after (log : list fs_event) (path : string) : bool :=
  match log with
  | [] => false
  | Opened p mode None :: rest =>
      (String.eqb p path && negb (String.eqb mode "r")) || exists_after rest path
  | _ :: rest => exists_after rest path
  end.

(** Reading gives back what was written since the file was last
    opened with mode w. *)
Fixpoint content_after (log : list fs_event) (path : string) (so_far : string) : string :=
  match log with
  | [] => so_far
  | Opened p "w" None :: rest =>
      content_after rest path (if String.eqb p path then EmptyString else so_far)
  | Wrote p text None :: rest =>
      content_after rest path (if String.eqb p path then so_far ++ text else so_far)%string
  | _ :: rest => content_after rest path so_far
  end.

Definition getsize (server : HttpExternals) (path : string) : outcome Z :=
  match read_file server path with
  | Return data => Return (Z.of_nat (List.length data))
  | Raise e => Raise e
  end.

(** The desk in front of an inference server. *)
Definition externals_with (server : HttpExternals) : GuiExternals :=
  {| http := server;
     builtin_format := Edge.format;
     os_path_basename := fun path => path;
     os_path_getsize := getsize server;
     Path_join := fun a b => (a ++ "/" ++ b)%string;
     Path_name := fun path => path;
     Path_stem := before_dot;
     datetime := nat;
     datetime_now := fun n => n;
     isoformat := fun n => ("2024-04-11T09:30:0" ++ digit_text n)%string;
     strftime := clock_text;
     json_dump := fun v indent => ("{}", None);
     json_dumps := fun v indent => Return "{}";
     csv_row := csv_line;
     fs_mkdir := fun log path => None;
     fs_exists := exists_after;
     fs_open := fun log path mode => None;
     fs_write := fun log path text => None;
     fs_read := fun log path => Return (content_after log path EmptyString) |}.

Definition externals : GuiExternals := externals_with Fixture.http_externals.

Definition odd_externals : GuiExternals := externals_with Oddities.http_externals.

(** A desk whose disk is full: every [write] fails. *)
Definition disk_full : exc := mkExc OSError "[Errno 28] No space left on device".

Definition full_externals : GuiExternals :=
  {| http := Fixture.http_externals;
     builtin_format := Edge.format;
     os_path_basename := fun path => path;
     os_path_getsize := getsize Fixture.http_externals;
     Path_join := fun a b => (a ++ "/" ++ b)%string;
     Path_name := fun path => path;
     Path_stem := before_dot;
     datetime := nat;
     datetime_now := fun n => n;
     isoformat := fun n => ("2024-04-11T09:30:0" ++ digit_text n)%string;
     strftime := clock_text;
     json_dump := fun v indent => ("{}", None);
     json_dumps := fun v indent => Return "{}";
     csv_row := csv_line;
     fs_mkdir := fun log path => None;
     fs_exists := exists_after;
     fs_open := fun log path mode => None;
     fs_write := fun log path text => Some disk_full;
     fs_read := fun log path => Return (content_after log path EmptyString) |}.

(** The application after start-up, with a file chosen. *)
Definition started (chosen : string) : gui :=
  {| outside := Fixture.fresh;
     fs_log := [];
     clock := 0;
     redraws := 0;
     file_path := chosen;
     model_var := "x/llama3.2-vision:latest";
     status_var := "";
     result_text := "";
     json_text := "";
     history_tree := [];
     dialogs := [] |}.

End Desk.

(* ===================================================================== *)
(** * What a run of the application keeps *)
(* ===================================================================== *)

(** [m] keeps [R]: the state that [m] leaves is related by [R] to the
    state it started in, whether [m] returns or raises. *)
Definition keeps {A} (R : gui -> gui -> Prop) (m : Gui A) : Prop :=
  forall g, R g (snd (m g)).

(** A part of the state is the same after as before. *)
Definition unchanged {T} (part : gui -> T) (g g' : gui) : Prop :=
  part g' = part g.

(** The Tk side of the application and the trace of the file system:
    all of the state but the outside world and the clock. *)
Definition widgets (g : gui) :=
  (fs_log g, redraws g, file_path g, model_var g, status_var g,
   result_text g, json_text g, history_tree g, dialogs g).

(** The calls to the file system that a run adds all satisfy [P]. *)
Definition adds_only (P : fs_event -> Prop) (g g' : gui) : Prop :=
  exists new, fs_log g' = fs_log g ++ new /\ Forall P new.

(** The path of an event and whether it opens a file for writing from
    the start (mode w). *)
Definition event_path (ev : fs_event) : string :=
  match ev with
  | Mkdir path _ => path
  | PathExists path _ => path
  | Opened path _ _ => path
  | Wrote path _ _ => path
  | ReadAll path _ => path
  end.

Definition truncates (ev : fs_event) (path : string) : bool :=
  match ev with
  | Opened p mode _ => String.eqb p path && String.eqb mode "w"
  | _ => false
  end.

(** For the statements about [classify_document] of the application:
    the dict of lines 218 to 224, the state once the request is sent,
    and the dict of lines 235 to 247. *)
Definition request_data (model image_base64 : string) : pyval :=
  VDict [("model", VStr model);
         ("prompt", VStr Gui.prompt);
         ("images", VList [VStr image_base64]);
         ("format", VStr "json");
         ("stream", VBool false)].

Definition requested (g : gui) (image : list Byte.byte) : gui :=
  with_outside g
    (log_request (outside g)
       {| method := "POST"; url := Gui.OLLAMA_API_URL;
          json := request_data (model_var g) (b64encode image) |}).

Definition success_dict (category : pyval) (processed model name : string)
    (size : Z) (image_path : string) : dict :=
  [("category", category);
   ("confidence", VFloat Gui.fixed_confidence);
   ("details",
    VDict [("processed_time", VStr processed);
           ("model_version", VStr model);
           ("file_info",
            VDict [("name", VStr name);
                   ("size", VInt size);
                   ("path", VStr image_path)])])].

(** For the statements about [classify_and_save]: the state when the
    classification starts, after the status is set and the window
    redrawn; and the message box of line 334. *)
Definition processing (g : gui) : gui :=
  with_redraws (with_status_var g "Processing...") (S (redraws g)).

Definition error_box (message : string) : dialog :=
  mkDialog "showerror" "Error" ("Classification failed: " ++ message)%string.

(** For the statements about [save_results]: the paths of the JSON file
    and of the text file for a reading of the clock, lines 258 to 267,
    and the calls to the file system that [save_results] may make. *)
Definition filename_base (ext : GuiExternals) (stamp : datetime ext)
    (image_path : string) : string :=
  (strftime ext stamp "%Y%m%d_%H%M%S" ++ "_" ++ Path_stem ext image_path)%string.

Definition json_path (ext : GuiExternals) (stamp : datetime ext)
    (image_path : string) : string :=
  Path_join ext (Gui.json_dir ext) (filename_base ext stamp image_path ++ ".json")%string.

Definition text_path (ext : GuiExternals) (stamp : datetime ext)
    (image_path : string) : string :=
  Path_join ext (Gui.text_dir ext) (filename_base ext stamp image_path ++ ".txt")%string.

Definition saving (ext : GuiExternals) (stamp : datetime ext)
    (image_path : string) (ev : fs_event) : Prop :=
  match ev with
  | Opened path mode _ =>
      (path = json_path ext stamp image_path /\ mode = "w") \/
      (path = text_path ext stamp image_path /\ mode = "w") \/
      (path = Gui.log_file ext /\ mode = "a")
  | Wrote path _ _ =>
      path = json_path ext stamp image_path \/
      path = text_path ext stamp image_path \/
      path = Gui.log_file ext
  | _ => False
  end.

(** For the statement about [setup_directories]: a call that creates a
    directory or asks whether a path exists. *)
Definition looks_only (ev : fs_event) : Prop :=
  match ev with
  | Mkdir _ _ | PathExists _ _ => True
  | _ => False
  end.

(** The message boxes shown so far and the number of redraws. *)
Definition shown (g : gui) : list dialog * nat := (dialogs g, redraws g).

(* ===================================================================== *)
(** * Proof steps used more than once *)
(* ===================================================================== *)

(** Walking down a nest of "this stage raises, or it returns and ...". *)
Ltac find_stage :=
  repeat first [ left; eassumption | right; eexists; split; [eassumption |] ];
  try eassumption.

(** The same exception at another result type. *)
Ltac reraise H := injection H as ->; reflexivity.

(** From [x <- m ;; k x = Return b]: the value of [m] and the rest. *)
Ltac bind_inv H x Hx :=
  cbn [bind Monad_outcome] in H;
  match type of H with
  | outcome_bind ?m _ = Return _ =>
      destruct m as [x | ?] eqn:Hx; cbn [outcome_bind] in H; [| discriminate H]
  end.

(* ===================================================================== *)
(** * Exceptions and the monads: basic facts *)
(* ===================================================================== *)

Lemma bind_Return_inv {A B} (m : outcome A) (k : A -> outcome B) (b : B) :
  bind m k = Return b -> exists a, m = Return a /\ k a = Return b.
Proof.
  destruct m as [a | e]; simpl; intros H.
  - exists a. split; [reflexivity | exact H].
  - discriminate H.
Qed.

Lemma bind_Return {A B} (m : outcome A) (k : A -> outcome B) (a : A) :
  m = Return a -> bind m k = k a.
Proof. intros ->. reflexivity. Qed.

Lemma exc_class_eqb_refl (c : exc_class) : exc_class_eqb c c = true.
Proof.
  induction c; simpl; try reflexivity.
  rewrite String.eqb_refl, IHc. reflexivity.
Qed.

(** The list of ancestors follows the base classes. *)
Lemma mro_base_class (c : exc_class) :
  mro c = c :: match base_class c with Some b => mro b | None => [] end.
Proof. destruct c; reflexivity. Qed.

Lemma issubclass_refl (c : exc_class) : issubclass c c = true.
Proof.
  unfold issubclass. apply existsb_exists. exists c. split.
  - destruct c; simpl; auto.
  - apply exc_class_eqb_refl.
Qed.

(** A class of a library is an [Exception] when its base is. *)
Lemma library_error_is_Exception (name : string) (base : exc_class) :
  issubclass base Exception = true ->
  issubclass (LibraryError name base) Exception = true.
Proof.
  unfold issubclass. simpl. intros ->. reflexivity.
Qed.

(** A missing file is an [IOError] and an [Exception]; an interrupt from
    the keyboard is not an [Exception]. *)
Lemma exception_classes :
  issubclass FileNotFoundError IOError = true /\
  issubclass FileNotFoundError Exception = true /\
  issubclass KeyboardInterrupt Exception = false /\
  issubclass SystemExit Exception = false.
Proof. repeat split. Qed.

(* ===================================================================== *)
(** * [preprocess_image]: the list of boxes *)
(* ===================================================================== *)

Section MatchLength.

Import DocumentClassifier.

Lemma match_length_short (normalized_boxes : list Box) (input_length : nat) :
  (List.length normalized_boxes < input_length)%nat ->
  match_length normalized_boxes input_length =
  normalized_boxes ++ repeat zero_box (input_length - List.length normalized_boxes).
Proof.
  intros H. unfold match_length.
  destruct (Nat.ltb_spec (List.length normalized_boxes) input_length); [reflexivity | lia].
Qed.

Lemma match_length_long (normalized_boxes : list Box) (input_length : nat) :
  (input_length < List.length normalized_boxes)%nat ->
  match_length normalized_boxes input_length = firstn input_length normalized_boxes.
Proof.
  intros H. unfold match_length.
  destruct (Nat.ltb_spec (List.length normalized_boxes) input_length); [lia |].
  destruct (Nat.ltb_spec input_length (List.length normalized_boxes)); [reflexivity | lia].
Qed.

Lemma match_length_equal (normalized_boxes : list Box) (input_length : nat) :
  List.length normalized_boxes = input_length ->
  match_length normalized_boxes input_length = normalized_boxes.
Proof.
  intros H. unfold match_length.
  destruct (Nat.ltb_spec (List.length normalized_boxes) input_length); [lia |].
  destruct (Nat.ltb_spec input_length (List.length normalized_boxes)); [lia | reflexivity].
Qed.

Lemma match_length_length (normalized_boxes : list Box) (input_length : nat) :
  List.length (match_length normalized_boxes input_length) = input_length.
Proof.
  destruct (Nat.lt_trichotomy (List.length normalized_boxes) input_length) as [H | [H | H]].
  - rewrite match_length_short by exact H.
    rewrite length_app, repeat_length. lia.
  - rewrite match_length_equal by exact H. exact H.
  - rewrite match_length_long by exact H.
    rewrite length_firstn. lia.
Qed.

(** The boxes that are kept are a prefix of the normalized boxes. *)
Lemma match_length_prefix (normalized_boxes : list Box) (input_length : nat) :
  let kept := Nat.min (List.length normalized_boxes) input_length in
  firstn kept (match_length normalized_boxes input_length) = firstn kept normalized_boxes.
Proof.
  intros kept. subst kept.
  destruct (Nat.lt_trichotomy (List.length normalized_boxes) input_length) as [H | [H | H]].
  - rewrite match_length_short by exact H.
    rewrite Nat.min_l by lia.
    rewrite firstn_app, Nat.sub_diag. simpl. apply app_nil_r.
  - rewrite match_length_equal by exact H. reflexivity.
  - rewrite match_length_long by exact H.
    rewrite Nat.min_r by lia.
    rewrite firstn_firstn, Nat.min_id. reflexivity.
Qed.

(** Behind the kept boxes there are zero rectangles only. *)
Lemma match_length_padding (normalized_boxes : list Box) (input_length i : nat) :
  (Nat.min (List.length normalized_boxes) input_length <= i < input_length)%nat ->
  nth_error (match_length normalized_boxes input_length) i = Some zero_box.
Proof.
  intros [Hlo Hhi].
  assert (H : (List.length normalized_boxes < input_length)%nat) by lia.
  rewrite match_length_short by exact H.
  rewrite Nat.min_l in Hlo by lia.
  rewrite nth_error_app2 by exact Hlo.
  apply nth_error_repeat. lia.
Qed.

Lemma match_length_nil (input_length : nat) :
  match_length [] input_length = repeat zero_box input_length.
Proof.
  unfold match_length. simpl.
  destruct input_length as [| n]; [reflexivity |].
  simpl. reflexivity.
Qed.

End MatchLength.

Lemma Forall2_firstn {A B} (R : A -> B -> Prop) (n : nat) (l : list A) (l' : list B) :
  Forall2 R l l' -> Forall2 R (firstn n l) (firstn n l').
Proof.
  intros H. revert n.
  induction H as [| a b l l' Hab Hrest IH]; intros n.
  - rewrite !firstn_nil. constructor.
  - destruct n as [| n]; simpl; constructor; [exact Hab | apply IH].
Qed.

Section Preprocess.

Import DocumentClassifier.

Context (ext : Externals).

(** The loop appends one box for each line, in the order of the lines,
    and each box is the normalized box of its line. *)
Lemma normalize_boxes_spec (width height : Z) (lines : list string) :
  forall (acc : list Box) (acc_words : list string) (r : list Box * list string),
    normalize_boxes ext width height lines acc acc_words = Return r ->
    exists new,
      fst r = acc ++ new /\
      Forall2
        (fun line b => exists word, normalize_box ext width height line = Return (b, word))
        lines new.
Proof.
  induction lines as [| line rest IH]; intros acc acc_words r H; simpl in H.
  - injection H as <-. exists []. split; [symmetry; apply app_nil_r | constructor].
  - apply bind_Return_inv in H. destruct H as [[b word] [Hline Hrest]].
    apply IH in Hrest. destruct Hrest as [new [Hfst Hall]].
    exists (b :: new). split.
    + rewrite Hfst. simpl. rewrite <- app_assoc. reflexivity.
    + constructor; [exists word; exact Hline | exact Hall].
Qed.

(** The loop returns when its body returns on every line. *)
Lemma normalize_boxes_total (width height : Z) (lines : list string) :
  Forall (fun line => exists r, normalize_box ext width height line = Return r) lines ->
  forall acc acc_words,
    exists r, normalize_boxes ext width height lines acc acc_words = Return r.
Proof.
  induction 1 as [| line rest [r Hline] Hrest IH]; intros acc acc_words; simpl.
  - eexists. reflexivity.
  - rewrite Hline. cbn [outcome_bind]. apply IH.
Qed.

Lemma normalize_boxes_length (width height : Z) (lines : list string)
    (r : list Box * list string) :
  normalize_boxes ext width height lines [] [] = Return r ->
  List.length (fst r) = List.length lines.
Proof.
  intros H. apply normalize_boxes_spec in H. destruct H as [new [Hfst Hall]].
  rewrite Hfst. simpl. symmetry. eapply Forall2_length. exact Hall.
Qed.

(** When every stage returns, so does [preprocess_image], with the
    length-matched boxes under the key [bbox]. *)
Lemma preprocess_image_returns (image_path : string) (image : Image ext)
    (text boxes : string) (encoding : BatchEncoding) (r : list Box * list string) :
  stages_return ext image_path image text boxes encoding ->
  normalize_boxes ext (fst (Image_size ext image)) (snd (Image_size ext image))
    (str_splitlines ext boxes) [] [] = Return r ->
  preprocess_image ext image_path =
  Return (set_bbox encoding [match_length (fst r) (size_1 (input_ids encoding))]).
Proof.
  intros [[opened [Hopen Hconv]] [Htext [Hboxes Htok]]] Hloop.
  unfold preprocess_image.
  rewrite (bind_Return _ Hopen), (bind_Return _ Hconv).
  destruct (Image_size ext image) as [width height]. simpl in Hloop.
  rewrite (bind_Return _ Htext), (bind_Return _ Hboxes), (bind_Return _ Hloop).
  rewrite (bind_Return _ Htok). reflexivity.
Qed.

End Preprocess.

Section PreprocessProperties.

Import DocumentClassifier.

Context (ext : Externals).

(** C1: for an OCR output of [N] lines of boxes and a tokenized input of
    length [L], when the stages and the loop return, [preprocess_image]
    returns the encoding with a one-row [bbox] of exactly [L] boxes: the
    [N] normalized boxes followed by [L - N] zero rectangles when
    [N < L], the first [L] normalized boxes when [N > L], and [L] zero
    rectangles when no box was recognized. *)
Theorem preprocess_image_bbox_length (image_path : string) (image : Image ext)
    (text boxes : string) (encoding : BatchEncoding) (r : list Box * list string) :
  stages_return ext image_path image text boxes encoding ->
  normalize_boxes ext (fst (Image_size ext image)) (snd (Image_size ext image))
    (str_splitlines ext boxes) [] [] = Return r ->
  exists final : list Box,
    preprocess_image ext image_path = Return (set_bbox encoding [final]) /\
    List.length (fst r) = List.length (str_splitlines ext boxes) /\
    List.length final = size_1 (input_ids encoding) /\
    ((List.length (fst r) < size_1 (input_ids encoding))%nat ->
     final = fst r ++
             repeat zero_box (size_1 (input_ids encoding) - List.length (fst r))) /\
    ((size_1 (input_ids encoding) < List.length (fst r))%nat ->
     final = firstn (size_1 (input_ids encoding)) (fst r)) /\
    (List.length (str_splitlines ext boxes) = 0%nat ->
     final = repeat zero_box (size_1 (input_ids encoding))).
Proof.
  intros Hstages Hloop.
  exists (match_length (fst r) (size_1 (input_ids encoding))).
  split; [apply preprocess_image_returns with (1 := Hstages) (2 := Hloop) |].
  pose proof (normalize_boxes_length _ _ _ _ Hloop) as Hlen.
  split; [exact Hlen |].
  split; [apply match_length_length |].
  split; [apply match_length_short |].
  split; [apply match_length_long |].
  intros Hzero. rewrite Hzero in Hlen.
  destruct (fst r) as [| b bs]; [apply match_length_nil | discriminate Hlen].
Qed.

(** C9: when the stages and the loop return, the first [min N L] boxes
    of the final list are the normalized boxes of the first [min N L]
    lines of the OCR output, in the order of the lines, and every later
    position up to [L - 1] holds the zero rectangle. *)
Theorem preprocess_image_bbox_prefix (image_path : string) (image : Image ext)
    (text boxes : string) (encoding : BatchEncoding) (r : list Box * list string) :
  stages_return ext image_path image text boxes encoding ->
  normalize_boxes ext (fst (Image_size ext image)) (snd (Image_size ext image))
    (str_splitlines ext boxes) [] [] = Return r ->
  let N := List.length (str_splitlines ext boxes) in
  let L := size_1 (input_ids encoding) in
  exists final : list Box,
    preprocess_image ext image_path = Return (set_bbox encoding [final]) /\
    Forall2
      (fun line b =>
         exists word,
           normalize_box ext (fst (Image_size ext image)) (snd (Image_size ext image)) line
           = Return (b, word))
      (firstn (Nat.min N L) (str_splitlines ext boxes))
      (firstn (Nat.min N L) final) /\
    (forall i, (Nat.min N L <= i < L)%nat -> nth_error final i = Some zero_box) /\
    List.length final = L.
Proof.
  intros Hstages Hloop N L.
  exists (match_length (fst r) L).
  split; [apply preprocess_image_returns with (1 := Hstages) (2 := Hloop) |].
  pose proof (normalize_boxes_length _ _ _ _ Hloop) as Hlen.
  pose proof (normalize_boxes_spec _ _ _ _ _ _ Hloop) as [new [Hfst Hall]].
  simpl in Hfst. rewrite <- Hfst in Hall.
  split.
  - subst N. rewrite <- Hlen.
    rewrite match_length_prefix.
    apply Forall2_firstn. exact Hall.
  - split.
    + intros i Hi. apply match_length_padding. subst N. rewrite Hlen. exact Hi.
    + apply match_length_length.
Qed.

Lemma int_truediv_in_range (a b : Z) :
  b <> 0 -> quotient_in_range a b -> int_truediv a b = Return (nearest_quotient a b).
Proof.
  unfold int_truediv, quotient_in_range. intros Hb Hrange.
  destruct (Z.eqb_spec b 0) as [E | _]; [contradiction |].
  destruct (Z.leb_spec (overflow_threshold * Z.abs b) (Z.abs a)) as [Hge | _].
  - exfalso. apply (Z.lt_irrefl (Z.abs a)).
    apply Z.lt_le_trans with (1 := Hrange). exact Hge.
  - reflexivity.
Qed.

(** C4: for a line of the OCR output whose fields 1 to 4 read as the
    integers [x1], [y1], [x2], [y2], in an image of positive [width] and
    [height], with quotients in the range of [float], the loop body gives
    the box [[x1/width*1000, (height-y1)/height*1000, x2/width*1000,
    (height-y2)/height*1000]]: each quotient is rounded to binary64, then
    multiplied by 1000; the x fields are scaled by the width, the y
    fields are subtracted from the height first. *)
Theorem normalize_box_formula (width height : Z) (box c s1 s2 s3 s4 : string)
    (rest : list string) (x1 y1 x2 y2 : Z) :
  0 < width -> 0 < height ->
  str_split ext box = c :: s1 :: s2 :: s3 :: s4 :: rest ->
  int_of_str ext s1 = Return x1 -> int_of_str ext s2 = Return y1 ->
  int_of_str ext s3 = Return x2 -> int_of_str ext s4 = Return y2 ->
  quotient_in_range x1 width -> quotient_in_range (height - y1) height ->
  quotient_in_range x2 width -> quotient_in_range (height - y2) height ->
  normalize_box ext width height box =
  Return ([PyFloat (nearest_quotient x1 width * 1000);
           PyFloat (nearest_quotient (height - y1) height * 1000);
           PyFloat (nearest_quotient x2 width * 1000);
           PyFloat (nearest_quotient (height - y2) height * 1000)]%float, c).
Proof.
  intros Hw Hh Hsplit H1 H2 H3 H4 R1 R2 R3 R4.
  assert (Hw0 : width <> 0) by lia.
  assert (Hh0 : height <> 0) by lia.
  unfold normalize_box. rewrite Hsplit. unfold getitem. simpl nth_error.
  cbn [bind Monad_outcome outcome_bind].
  rewrite H1. cbn [outcome_bind].
  rewrite (int_truediv_in_range Hw0 R1). cbn [outcome_bind].
  rewrite H2. cbn [outcome_bind].
  rewrite (int_truediv_in_range Hh0 R2). cbn [outcome_bind].
  rewrite H3. cbn [outcome_bind].
  rewrite (int_truediv_in_range Hw0 R3). cbn [outcome_bind].
  rewrite H4. cbn [outcome_bind].
  rewrite (int_truediv_in_range Hh0 R4). cbn [outcome_bind].
  reflexivity.
Qed.

End PreprocessProperties.

(** The formula on whole images: for every side of 1 to 100 pixels and
    every coordinate of the side, the scaled value and the flipped value
    lie between 0 and 1000; the coordinate 0 is flipped to the greatest
    value, and each further pixel to a smaller one. *)
Lemma normalized_coordinates_small_images :
  forallb Fixture.side_ok (map Z.of_nat (seq 1 100)) = true.
Proof. vm_compute. reflexivity. Qed.

Lemma normalized_coordinates_ends :
  Fixture.scaled 0 1400 = 0%float /\ Fixture.scaled 1400 1400 = 1000%float /\
  Fixture.scaled (1400 - 0) 1400 = 1000%float /\ Fixture.scaled (1400 - 1400) 1400 = 0%float.
Proof. repeat split; vm_compute; reflexivity. Qed.

(** The invoice of the fixture: two boxes, padded to 512. *)
Lemma preprocess_image_bbox_length_witness :
  exists final : list Box,
    DocumentClassifier.preprocess_image Fixture.externals "invoice.png"
    = Return (set_bbox (Fixture.encode "IN" 512) [final]) /\
    List.length final = 512%nat /\
    final = Fixture.invoice_boxes ++ repeat DocumentClassifier.zero_box 510.
Proof.
  destruct
    (@preprocess_image_bbox_length Fixture.externals "invoice.png" Fixture.invoice
       "IN" (Fixture.scene_boxes Fixture.invoice) (Fixture.encode "IN" 512)
       (Fixture.invoice_boxes, ["I"; "N"]))
    as [final [Hrun [_ [Hlen [Hshort _]]]]].
  - split; [exists Fixture.invoice; split; reflexivity |].
    split; [reflexivity |]. split; reflexivity.
  - vm_compute. reflexivity.
  - exists final. split; [exact Hrun |]. split; [exact Hlen |].
    apply Hshort. vm_compute. lia.
Defined.

Lemma preprocess_image_bbox_prefix_witness :
  exists final : list Box,
    DocumentClassifier.preprocess_image Fixture.externals "invoice.png"
    = Return (set_bbox (Fixture.encode "IN" 512) [final]) /\
    nth_error final 2 = Some DocumentClassifier.zero_box /\
    nth_error final 511 = Some DocumentClassifier.zero_box.
Proof.
  destruct
    (@preprocess_image_bbox_prefix Fixture.externals "invoice.png" Fixture.invoice
       "IN" (Fixture.scene_boxes Fixture.invoice) (Fixture.encode "IN" 512)
       (Fixture.invoice_boxes, ["I"; "N"]))
    as [final [Hrun [_ [Hpad _]]]].
  - split; [exists Fixture.invoice; split; reflexivity |].
    split; [reflexivity |]. split; reflexivity.
  - vm_compute. reflexivity.
  - exists final. split; [exact Hrun |].
    split; apply Hpad; vm_compute; lia.
Defined.

(** The first line of the invoice: [I 100 1330 112 1350 0] in an image
    of 1000 by 1400 gives [[100.0, 50.0, 112.0, 35.714285714285715]]. *)
Lemma normalize_box_formula_witness :
  DocumentClassifier.normalize_box Fixture.externals 1000 1400 "I 100 1330 112 1350 0"
  = Return ([PyFloat (nearest_quotient 100 1000 * 1000);
             PyFloat (nearest_quotient (1400 - 1330) 1400 * 1000);
             PyFloat (nearest_quotient 112 1000 * 1000);
             PyFloat (nearest_quotient (1400 - 1350) 1400 * 1000)]%float, "I").
Proof.
  apply (@normalize_box_formula Fixture.externals 1000 1400 "I 100 1330 112 1350 0"
           "I" "100" "1330" "112" "1350" ["0"] 100 1330 112 1350);
    try reflexivity; vm_compute; reflexivity.
Defined.

(* ===================================================================== *)
(** * [detect_logo] *)
(* ===================================================================== *)

Lemma float_of_int_in_range (n : Z) :
  Z.abs n < overflow_threshold -> float_of_int n = Return (nearest_float n).
Proof.
  unfold float_of_int. intros H.
  destruct (Z.leb_spec overflow_threshold (Z.abs n)) as [Hge | _]; [| reflexivity].
  exfalso. apply (Z.lt_irrefl (Z.abs n)).
  apply Z.lt_le_trans with (1 := H). exact Hge.
Qed.

Lemma float_div_int_in_range (x : float) (n : Z) :
  n <> 0 -> Z.abs n < overflow_threshold ->
  float_div_int x n = Return (x / nearest_float n)%float.
Proof.
  unfold float_div_int. intros Hn H.
  rewrite float_of_int_in_range by exact H. cbn [bind Monad_outcome outcome_bind].
  destruct (Z.eqb_spec n 0) as [E | _]; [contradiction | reflexivity].
Qed.

Section DetectLogo.

Import DocumentClassifier.

Context (ext : Externals).

(** The loop keeps the bounding rectangles of the contours that pass
    both tests, in the order of the contours. *)
Lemma filter_contours_spec (contours : list (contour ext)) :
  Forall (sides_divide ext) contours ->
  forall potential_logos,
    filter_contours ext contours potential_logos =
    Return (potential_logos ++
            map (cv2_boundingRect ext) (filter (is_potential_logo ext) contours)).
Proof.
  induction 1 as [| c rest Hc Hrest IH]; intros potential_logos; simpl.
  - rewrite app_nil_r. reflexivity.
  - unfold is_potential_logo, aspect_ratio. unfold sides_divide in Hc.
    destruct (cv2_boundingRect ext c) as [[[x y] w] h] eqn:Hrect.
    destruct Hc as [Hh [Hwr Hhr]].
    destruct (1000 <? cv2_contourArea ext c)%float; simpl.
    + rewrite float_of_int_in_range by exact Hwr. cbn [outcome_bind].
      rewrite float_div_int_in_range by assumption. cbn [outcome_bind].
      destruct ((0.5 <=? nearest_float w / nearest_float h)%float
                && (nearest_float w / nearest_float h <=? 2)%float).
      * rewrite IH. simpl. rewrite Hrect, <- app_assoc. reflexivity.
      * apply IH.
    + apply IH.
Qed.

Lemma detect_logo_returns (image_path : string) (contours : list (contour ext)) :
  contours_found ext image_path contours ->
  Forall (sides_divide ext) contours ->
  detect_logo ext image_path = Return (existsb (is_potential_logo ext) contours).
Proof.
  intros [image [gray [tb [ch [Hread [Hgray [Hthresh [Hfind Hcs]]]]]]]] Hsides.
  unfold detect_logo.
  rewrite (bind_Return _ Hread), (bind_Return _ Hgray), (bind_Return _ Hthresh).
  rewrite (bind_Return _ Hfind). rewrite <- Hcs.
  rewrite (filter_contours_spec Hsides). cbn [bind Monad_outcome outcome_bind ret].
  f_equal. simpl app. rewrite length_map.
  clear. induction contours as [| c rest IH]; [reflexivity |].
  simpl. destruct (is_potential_logo ext c); [reflexivity | exact IH].
Qed.

(** C3, amended: [detect_logo] returns true if and only if, among the
    external contours of the image thresholded at 127 of 255 with the
    inverse binary rule, one has an area greater than 1000 and a bounding
    rectangle whose width divided by its height lies in [0.5, 2.0].  So a
    single contour of area greater than 1000 and ratio in [0.5, 2.0]
    gives true, and contours that all fail a test give false. *)
Theorem detect_logo_iff (image_path : string) (contours : list (contour ext)) :
  contours_found ext image_path contours ->
  Forall (sides_divide ext) contours ->
  exists b : bool,
    detect_logo ext image_path = Return b /\
    (b = true <->
     exists c, In c contours /\
               (1000 <? cv2_contourArea ext c)%float = true /\
               (0.5 <=? aspect_ratio ext c)%float = true /\
               (aspect_ratio ext c <=? 2)%float = true) /\
    (forall c, contours = [c] ->
               (1000 <? cv2_contourArea ext c)%float = true ->
               (0.5 <=? aspect_ratio ext c)%float = true ->
               (aspect_ratio ext c <=? 2)%float = true ->
               b = true) /\
    ((forall c, In c contours ->
                (1000 <? cv2_contourArea ext c)%float = false \/
                (0.5 <=? aspect_ratio ext c)%float = false \/
                (aspect_ratio ext c <=? 2)%float = false) ->
     b = false).
Proof.
  intros Hfound Hsides.
  exists (existsb (is_potential_logo ext) contours).
  split; [apply detect_logo_returns; assumption |].
  assert (Hiff : existsb (is_potential_logo ext) contours = true <->
                 exists c, In c contours /\
                           (1000 <? cv2_contourArea ext c)%float = true /\
                           (0.5 <=? aspect_ratio ext c)%float = true /\
                           (aspect_ratio ext c <=? 2)%float = true).
  { rewrite existsb_exists. unfold is_potential_logo.
    split; intros [c [Hin Hc]]; exists c; (split; [exact Hin |]).
    - apply andb_true_iff in Hc. destruct Hc as [Ha Hr].
      apply andb_true_iff in Hr. destruct Hr as [Hlo Hhi]. auto.
    - destruct Hc as [Ha [Hlo Hhi]]. rewrite Ha, Hlo, Hhi. reflexivity. }
  split; [exact Hiff |]. split.
  - intros c -> Ha Hlo Hhi. apply Hiff. exists c. simpl. auto.
  - intros Hnone. apply not_true_is_false. intros Hb.
    apply Hiff in Hb. destruct Hb as [c [Hin [Ha [Hlo Hhi]]]].
    destruct (Hnone c Hin) as [E | [E | E]]; congruence.
Qed.

End DetectLogo.

(** The invoice of the fixture: a contour of area 10000 in a square of
    101 pixels is a logo. *)
Lemma detect_logo_iff_witness :
  DocumentClassifier.detect_logo Fixture.externals "invoice.png" = Return true.
Proof.
  destruct (@detect_logo_iff Fixture.externals "invoice.png"
              (Fixture.scene_contours Fixture.invoice))
    as [b [Hrun [Hiff _]]].
  - exists (Some Fixture.invoice), Fixture.invoice,
      (nearest_float 127, Fixture.invoice),
      (Fixture.scene_contours Fixture.invoice, None).
    repeat split; reflexivity.
  - repeat constructor; try discriminate; vm_compute; reflexivity.
  - rewrite Hrun. f_equal. apply Hiff.
    exists (10000%float, (50, 50, 101, 101)).
    split; [left; reflexivity |]. repeat split; vm_compute; reflexivity.
Defined.

(** C3 as stated fails at the threshold: the only contour of the stamp
    has an area of 1000, which is at least 1000, and a ratio of 41/26,
    which lies in [0.5, 2.0]; [detect_logo] returns false. *)
Lemma detect_logo_area_1000_counterexample :
  DocumentClassifier.contours_found Fixture.externals "stamp.png" [Fixture.stamp_contour] /\
  (1000 <=? cv2_contourArea Fixture.externals Fixture.stamp_contour)%float = true /\
  (0.5 <=? DocumentClassifier.aspect_ratio Fixture.externals Fixture.stamp_contour)%float
  = true /\
  (DocumentClassifier.aspect_ratio Fixture.externals Fixture.stamp_contour <=? 2)%float
  = true /\
  DocumentClassifier.detect_logo Fixture.externals "stamp.png" = Return false.
Proof.
  repeat split; try (vm_compute; reflexivity).
  exists (Some Fixture.stamp), Fixture.stamp,
    (nearest_float 127, Fixture.stamp),
    (Fixture.scene_contours Fixture.stamp, None).
  repeat split; reflexivity.
Qed.

(* ===================================================================== *)
(** * [classify_document]: failures *)
(* ===================================================================== *)

Section ClassifyFailures.

Import DocumentClassifier.

Context (ext : Externals).

(** [except Exception] catches exactly the instances of [Exception]. *)
Lemma catches_Exception (e : exc) : catches [Exception] e = isinstance e Exception.
Proof. unfold catches. simpl. apply orb_false_r. Qed.

(** The whole function in terms of its [try] block. *)
Lemma classify_document_run (image_path : string) (w : world) :
  classify_document ext image_path w =
  match classify_document_body ext image_path with
  | Return result => (Return result, w)
  | Raise e =>
      if isinstance e Exception
      then (Return VNone, print_to w ("Error processing document: " ++ exc_str e)%string)
      else (Raise e, w)
  end.
Proof.
  unfold classify_document, try_except, lift.
  destruct (classify_document_body ext image_path) as [result | e]; [reflexivity |].
  rewrite catches_Exception.
  destruct (isinstance e Exception); reflexivity.
Qed.

Lemma preprocess_image_raises (image_path : string) (e : exc) :
  preprocess_image ext image_path = Raise e <->
  Image_open ext image_path = Raise e \/
  exists opened,
    Image_open ext image_path = Return opened /\
    (Image_convert ext opened "RGB" = Raise e \/
     exists image,
       Image_convert ext opened "RGB" = Return image /\
       (image_to_string ext image = Raise e \/
        exists text,
          image_to_string ext image = Return text /\
          (image_to_boxes ext image = Raise e \/
           exists boxes,
             image_to_boxes ext image = Return boxes /\
             (normalize_boxes ext (fst (Image_size ext image)) (snd (Image_size ext image))
                (str_splitlines ext boxes) [] [] = Raise e \/
              exists r,
                normalize_boxes ext (fst (Image_size ext image))
                  (snd (Image_size ext image)) (str_splitlines ext boxes) [] []
                = Return r /\
                tokenizer ext text true "max_length" true 512 "pt" = Raise e)))).
Proof.
  unfold preprocess_image. cbn [bind Monad_outcome].
  destruct (Image_open ext image_path) as [opened | e0]; cbn [outcome_bind].
  2: { split; [intros H; left; reraise H | intros [H | [o [H _]]]; [reraise H | discriminate H]]. }
  split.
  - intros H. right. exists opened. split; [reflexivity |].
    destruct (Image_convert ext opened "RGB") as [image | e1]; cbn [outcome_bind] in H;
      [right; exists image; split; [reflexivity |] | left; reraise H].
    destruct (Image_size ext image) as [width height]. cbn [fst snd].
    destruct (image_to_string ext image) as [text | e2]; cbn [outcome_bind] in H;
      [right; exists text; split; [reflexivity |] | left; reraise H].
    destruct (image_to_boxes ext image) as [boxes | e3]; cbn [outcome_bind] in H;
      [right; exists boxes; split; [reflexivity |] | left; reraise H].
    destruct (normalize_boxes ext width height (str_splitlines ext boxes) [] [])
      as [r | e4]; cbn [outcome_bind] in H;
      [right; exists r; split; [reflexivity |] | left; reraise H].
    destruct (tokenizer ext text true "max_length" true 512 "pt") as [enc | e5];
      cbn [outcome_bind] in H; [discriminate H | reraise H].
  - intros [H | [o [Ho H]]]; [discriminate H |].
    injection Ho as <-.
    destruct H as [H | [image [Hi H]]]; [rewrite H; reflexivity |].
    rewrite Hi. cbn [outcome_bind].
    destruct (Image_size ext image) as [width height]. cbn [fst snd] in H.
    destruct H as [H | [text [Ht H]]]; [rewrite H; reflexivity |].
    rewrite Ht. cbn [outcome_bind].
    destruct H as [H | [boxes [Hb H]]]; [rewrite H; reflexivity |].
    rewrite Hb. cbn [outcome_bind].
    destruct H as [H | [r [Hr H]]]; [rewrite H; reflexivity |].
    rewrite Hr. cbn [outcome_bind]. rewrite H. reflexivity.
Qed.

(** A stage raises exactly when the [try] block does. *)
Lemma stage_raises_body (image_path : string) (e : exc) :
  stage_raises ext image_path e <-> classify_document_body ext image_path = Raise e.
Proof.
  split.
  - intros H. unfold classify_document_body. cbn [bind Monad_outcome].
    destruct H as [H | o Ho H | o i Ho Hi H | o i t Ho Hi Ht H | o i t b Ho Hi Ht Hb H
                   | o i t b r Ho Hi Ht Hb Hr H | enc Henc H | enc h Henc Hh H
                   | enc h lg Henc Hh Hlg H].
    1-6: replace (preprocess_image ext image_path) with (@Raise BatchEncoding e);
      [reflexivity | symmetry; apply preprocess_image_raises; find_stage].
    + rewrite Henc. cbn [outcome_bind]. rewrite H. reflexivity.
    + rewrite Henc. cbn [outcome_bind]. rewrite Hh. cbn [outcome_bind].
      rewrite H. reflexivity.
    + rewrite Henc. cbn [outcome_bind]. rewrite Hh. cbn [outcome_bind].
      rewrite Hlg. cbn [outcome_bind].
      cbn [bind Monad_outcome] in H.
      destruct (tensor_argmax (softmax ext lg 1)) as [cls | e0]; cbn [outcome_bind] in *;
        [| reraise H].
      destruct (tensor_max (softmax ext lg 1)) as [raw | e1]; cbn [outcome_bind] in *;
        [| reraise H].
      rewrite H. reflexivity.
  - intros H. unfold classify_document_body in H. cbn [bind Monad_outcome] in H.
    destruct (preprocess_image ext image_path) as [enc | e0] eqn:Henc;
      cbn [outcome_bind] in H.
    2: { injection H as ->. apply preprocess_image_raises in Henc.
         destruct Henc as [H | [o [Ho [H | [i [Hi [H | [t [Ht [H | [b [Hb [H | [r [Hr H]]]]]]]]]]]]]]].
         - apply image_loading_raises; exact H.
         - eapply image_conversion_raises; eassumption.
         - eapply ocr_text_raises; eassumption.
         - eapply ocr_boxes_raises; eassumption.
         - eapply box_normalization_raises; eassumption.
         - eapply tokenizer_raises; eassumption. }
    destruct (detect_logo ext image_path) as [h | e1] eqn:Hh; cbn [outcome_bind] in H.
    2: { injection H as ->. eapply logo_detection_raises; eassumption. }
    destruct (model_logits ext enc) as [lg | e2] eqn:Hlg; cbn [outcome_bind] in H.
    2: { injection H as ->. eapply model_inference_raises; eassumption. }
    eapply prediction_raises; try eassumption.
    cbn [bind Monad_outcome].
    destruct (tensor_argmax (softmax ext lg 1)) as [cls | e3]; cbn [outcome_bind] in *;
      [| reraise H].
    destruct (tensor_max (softmax ext lg 1)) as [raw | e4]; cbn [outcome_bind] in *;
      [| reraise H].
    destruct (dict_getitem get_document_types cls) as [dt | e5]; cbn [outcome_bind] in *;
      [discriminate H | reraise H].
Qed.

(** C5: if a stage of [classify_document] (image loading, OCR, box
    normalization, tokenization, logo detection, model inference, reading
    the prediction) raises an exception [e] that is an instance of
    [Exception], the call returns [None], having printed the message; no
    exception reaches the caller and no partial result is returned. *)
Theorem classify_document_returns_None (image_path : string) (e : exc) (w : world) :
  stage_raises ext image_path e ->
  isinstance e Exception = true ->
  classify_document ext image_path w =
  (Return VNone, print_to w ("Error processing document: " ++ exc_str e)%string).
Proof.
  intros Hstage Hexc.
  apply stage_raises_body in Hstage.
  rewrite classify_document_run, Hstage, Hexc. reflexivity.
Qed.

(** A path to a file that does not exist: [Image.open] raises
    [FileNotFoundError], and the call returns [None]. *)
Lemma classify_document_missing_file (image_path : string) (e : exc) (w : world) :
  Image_open ext image_path = Raise e ->
  exc_type e = FileNotFoundError ->
  fst (classify_document ext image_path w) = Return VNone.
Proof.
  intros Hopen Hclass.
  assert (Hbody : classify_document_body ext image_path = Raise e).
  { apply stage_raises_body. apply image_loading_raises. exact Hopen. }
  rewrite classify_document_run, Hbody.
  unfold isinstance. rewrite Hclass. reflexivity.
Qed.

(** The call returns a value or raises; what it raises is not an
    instance of [Exception]. *)
Lemma classify_document_propagates_only_non_Exception
    (image_path : string) (e : exc) (w w' : world) :
  classify_document ext image_path w = (Raise e, w') ->
  isinstance e Exception = false.
Proof.
  rewrite classify_document_run.
  destruct (classify_document_body ext image_path) as [r | e0]; [discriminate |].
  destruct (isinstance e0 Exception) eqn:E; [discriminate |].
  intros H. injection H as <- _. exact E.
Qed.

End ClassifyFailures.

(** The file [nope.png] does not exist in the fixture. *)
Lemma classify_document_returns_None_witness :
  DocumentClassifier.classify_document Fixture.externals "nope.png" Fixture.fresh
  = (Return VNone,
     {| stdout :=
          ["Error processing document: [Errno 2] No such file or directory: nope.png"];
        http_log := [] |}).
Proof.
  apply (@classify_document_returns_None Fixture.externals "nope.png"
           (Fixture.no_such_file "nope.png") Fixture.fresh).
  - apply DocumentClassifier.image_loading_raises. reflexivity.
  - reflexivity.
Defined.

(* ===================================================================== *)
(** * [classify_document]: results *)
(* ===================================================================== *)

Section Predictions.

Import DocumentClassifier.

(** The scan returns an index together with the entry at that index. *)
Lemma scan_max_nth (full rest : list float) :
  forall (seen : list float) (best_i : nat) (best : float),
    full = seen ++ rest ->
    nth_error full best_i = Some best ->
    nth_error full (fst (scan_max best_i best (List.length seen) rest))
    = Some (snd (scan_max best_i best (List.length seen) rest)).
Proof.
  induction rest as [| x rest IH]; intros seen best_i best Hfull Hbest; simpl.
  - exact Hbest.
  - assert (Hfull' : full = (seen ++ [x]) ++ rest)
      by (rewrite <- app_assoc; exact Hfull).
    assert (Hlen : List.length (seen ++ [x]) = S (List.length seen))
      by (rewrite length_app; simpl; lia).
    destruct (beats x best).
    + rewrite <- Hlen. apply IH; [exact Hfull' |].
      rewrite Hfull, nth_error_app2 by lia.
      rewrite Nat.sub_diag. reflexivity.
    + rewrite <- Hlen. apply IH; [exact Hfull' | exact Hbest].
Qed.

(** The value the scan returns is one of the entries. *)
Lemma scan_max_Forall (P : float -> Prop) (rest : list float) :
  forall (best_i i : nat) (best : float),
    P best -> Forall P rest -> P (snd (scan_max best_i best i rest)).
Proof.
  induction rest as [| x rest IH]; intros best_i i best Hbest Hrest; simpl.
  - exact Hbest.
  - inversion Hrest as [| ? ? Hx Hrest']; subst.
    destruct (beats x best); apply IH; assumption.
Qed.

(** [max()] is the entry at [argmax()]. *)
Lemma tensor_max_at_argmax (t : tensor float) (predicted_class : Z) (confidence : float) :
  tensor_argmax t = Return predicted_class ->
  tensor_max t = Return confidence ->
  0 <= predicted_class /\
  nth_error (List.concat t) (Z.to_nat predicted_class) = Some confidence.
Proof.
  unfold tensor_argmax, tensor_max.
  destruct (List.concat t) as [| x rest] eqn:Hflat; [discriminate |].
  intros Hi Hv. injection Hi as <-. injection Hv as <-.
  split; [lia |]. rewrite Nat2Z.id.
  apply (@scan_max_nth (x :: rest) rest [x] 0%nat x); reflexivity.
Qed.

Lemma tensor_max_Forall (P : float -> Prop) (t : tensor float) (confidence : float) :
  tensor_max t = Return confidence ->
  Forall P (List.concat t) -> P confidence.
Proof.
  unfold tensor_max.
  destruct (List.concat t) as [| x rest]; [discriminate |].
  intros Hv Hall. injection Hv as <-.
  inversion Hall; subst. apply scan_max_Forall; assumption.
Qed.

(** The labels: a class has a label exactly when it is one of 0 to 4. *)
Lemma dict_getitem_label (predicted_class : Z) (document_type : string) :
  dict_getitem get_document_types predicted_class = Return document_type ->
  (predicted_class = 0 /\ document_type = "Invoice") \/
  (predicted_class = 1 /\ document_type = "Resume") \/
  (predicted_class = 2 /\ document_type = "Contract") \/
  (predicted_class = 3 /\ document_type = "ID Card") \/
  (predicted_class = 4 /\ document_type = "Bank Statement").
Proof.
  unfold get_document_types. cbn [dict_getitem].
  destruct (Z.eqb_spec 0 predicted_class);
    [intros H; injection H as <-; left; split; [symmetry; assumption | reflexivity] |].
  destruct (Z.eqb_spec 1 predicted_class);
    [intros H; injection H as <-; right; left; split; [symmetry; assumption | reflexivity] |].
  destruct (Z.eqb_spec 2 predicted_class);
    [intros H; injection H as <-; do 2 right; left; split;
     [symmetry; assumption | reflexivity] |].
  destruct (Z.eqb_spec 3 predicted_class);
    [intros H; injection H as <-; do 3 right; left; split;
     [symmetry; assumption | reflexivity] |].
  destruct (Z.eqb_spec 4 predicted_class);
    [intros H; injection H as <-; do 4 right; split;
     [symmetry; assumption | reflexivity] |].
  discriminate.
Qed.

(** The boost is for the classes 0 and 2, that is, for the labels
    Invoice and Contract. *)
Lemma boosted_class_label (predicted_class : Z) (document_type : string) :
  dict_getitem get_document_types predicted_class = Return document_type ->
  existsb (Z.eqb predicted_class) [0; 2] = true <->
  document_type = "Invoice" \/ document_type = "Contract".
Proof.
  intros H. apply dict_getitem_label in H.
  destruct H as [[-> ->] | [[-> ->] | [[-> ->] | [[-> ->] | [-> ->]]]]]; simpl;
    split; intros H; auto; try discriminate H;
    destruct H as [H | H]; discriminate H.
Qed.

Lemma adjust_confidence_boost (predicted_class : Z) (confidence : float) :
  predicted_class = 0 \/ predicted_class = 2 ->
  adjust_confidence true predicted_class confidence = (confidence + logo_boost)%float.
Proof. intros [-> | ->]; reflexivity. Qed.

Lemma adjust_confidence_no_logo (predicted_class : Z) (confidence : float) :
  adjust_confidence false predicted_class confidence = confidence.
Proof. reflexivity. Qed.

Lemma adjust_confidence_other_class (has_logo : bool) (predicted_class : Z)
    (confidence : float) :
  predicted_class <> 0 -> predicted_class <> 2 ->
  adjust_confidence has_logo predicted_class confidence = confidence.
Proof.
  intros H0 H2. unfold adjust_confidence. simpl.
  destruct (Z.eqb_spec predicted_class 0); [contradiction |].
  destruct (Z.eqb_spec predicted_class 2); [contradiction |].
  rewrite andb_false_r. reflexivity.
Qed.

(** The examples of the fusion rule: 0.85 + 0.1 is 0.95 in binary64; a
    resume keeps 0.85; and 1.0 becomes 1.1, which is greater than 1. *)
Lemma adjust_confidence_invoice_085 :
  adjust_confidence true 0 Fixture.p85 = Fixture.p95.
Proof. vm_compute. reflexivity. Qed.

Lemma adjust_confidence_contract_085 :
  adjust_confidence true 2 Fixture.p85 = Fixture.p95.
Proof. vm_compute. reflexivity. Qed.

Lemma adjust_confidence_resume_085 :
  adjust_confidence true 1 Fixture.p85 = Fixture.p85.
Proof. vm_compute. reflexivity. Qed.

Lemma adjust_confidence_exceeds_1 :
  (1 <? adjust_confidence true 0 1)%float = true.
Proof. vm_compute. reflexivity. Qed.

End Predictions.

Section ClassifyResults.

Import DocumentClassifier.

Context (ext : Externals).

(** What a returning [try] block has computed. *)
Lemma classify_document_body_inv (image_path : string) (result : pyval) :
  classify_document_body ext image_path = Return result ->
  exists encoding has_logo logits predicted_class confidence document_type,
    preprocess_image ext image_path = Return encoding /\
    detect_logo ext image_path = Return has_logo /\
    model_logits ext encoding = Return logits /\
    tensor_argmax (softmax ext logits 1) = Return predicted_class /\
    tensor_max (softmax ext logits 1) = Return confidence /\
    dict_getitem get_document_types predicted_class = Return document_type /\
    result = VDict [("document_type", VStr document_type);
                    ("confidence",
                     VFloat (adjust_confidence has_logo predicted_class confidence));
                    ("has_logo", VBool has_logo)].
Proof.
  unfold classify_document_body. intros H.
  apply bind_Return_inv in H. destruct H as [encoding [Henc H]].
  apply bind_Return_inv in H. destruct H as [has_logo [Hlogo H]].
  apply bind_Return_inv in H. destruct H as [logits [Hlogits H]].
  apply bind_Return_inv in H. destruct H as [predicted_class [Hclass H]].
  apply bind_Return_inv in H. destruct H as [confidence [Hconf H]].
  apply bind_Return_inv in H. destruct H as [document_type [Htype H]].
  injection H as <-.
  exists encoding, has_logo, logits, predicted_class, confidence, document_type.
  repeat split; assumption.
Qed.

(** A result other than [None] is the result of the [try] block. *)
Lemma classify_document_success (image_path : string) (w w' : world) (result : pyval) :
  classify_document ext image_path w = (Return result, w') ->
  result <> VNone ->
  classify_document_body ext image_path = Return result.
Proof.
  rewrite classify_document_run. intros H Hsome.
  destruct (classify_document_body ext image_path) as [r | e].
  - injection H as -> _. reflexivity.
  - destruct (isinstance e Exception); [| discriminate H].
    injection H as <- _. contradiction.
Qed.

(** C2: in every result other than [None], the confidence is the raw
    confidence (the [max()] of the predictions) plus [0.1] when a logo
    was detected and the label is Invoice or Contract, and the raw
    confidence itself when no logo was detected or the label is another
    one; that value is stored as it is, with no clamping. *)
Theorem classify_document_confidence (image_path : string) (w w' : world)
    (result : pyval) :
  classify_document ext image_path w = (Return result, w') ->
  result <> VNone ->
  exists encoding logits has_logo raw document_type final,
    preprocess_image ext image_path = Return encoding /\
    model_logits ext encoding = Return logits /\
    detect_logo ext image_path = Return has_logo /\
    tensor_max (softmax ext logits 1) = Return raw /\
    result = VDict [("document_type", VStr document_type);
                    ("confidence", VFloat final);
                    ("has_logo", VBool has_logo)] /\
    (has_logo = true ->
     document_type = "Invoice" \/ document_type = "Contract" ->
     final = (raw + logo_boost)%float) /\
    (has_logo = false \/ (document_type <> "Invoice" /\ document_type <> "Contract") ->
     final = raw).
Proof.
  intros Hrun Hsome.
  apply classify_document_success in Hrun; [| exact Hsome].
  apply classify_document_body_inv in Hrun.
  destruct Hrun as [encoding [has_logo [logits [cls [raw [dt H]]]]]].
  destruct H as [Henc [Hlogo [Hlogits [Hclass [Hraw [Hlabel Hresult]]]]]].
  exists encoding, logits, has_logo, raw, dt, (adjust_confidence has_logo cls raw).
  repeat (split; [assumption |]).
  pose proof (@boosted_class_label cls dt Hlabel) as Hboost.
  unfold adjust_confidence. split.
  - intros -> Hdt. apply Hboost in Hdt. rewrite Hdt. reflexivity.
  - intros [-> | [Hi Hc]]; [reflexivity |].
    assert (E : existsb (Z.eqb cls) [0; 2] = false).
    { apply not_true_is_false. intros E. apply Hboost in E.
      destruct E; contradiction. }
    rewrite E, andb_false_r. reflexivity.
Qed.

(** C7: every result other than [None] is a dict with exactly the keys
    [document_type], [confidence] and [has_logo]; the type is the label
    of the [argmax()] of the predictions, one of the five labels; the
    logo flag is a bool; and the confidence before the adjustment is the
    prediction at the [argmax()] index, which lies in [0, 1] when the
    predictions do. *)
Theorem classify_document_result (image_path : string) (w w' : world) (result : pyval) :
  classify_document ext image_path w = (Return result, w') ->
  result <> VNone ->
  exists encoding logits has_logo predicted_class raw document_type,
    preprocess_image ext image_path = Return encoding /\
    model_logits ext encoding = Return logits /\
    detect_logo ext image_path = Return has_logo /\
    result = VDict [("document_type", VStr document_type);
                    ("confidence",
                     VFloat (adjust_confidence has_logo predicted_class raw));
                    ("has_logo", VBool has_logo)] /\
    tensor_argmax (softmax ext logits 1) = Return predicted_class /\
    dict_getitem get_document_types predicted_class = Return document_type /\
    In document_type ["Invoice"; "Resume"; "Contract"; "ID Card"; "Bank Statement"] /\
    nth_error (List.concat (softmax ext logits 1)) (Z.to_nat predicted_class) = Some raw /\
    (Forall (fun p => (0 <=? p)%float = true /\ (p <=? 1)%float = true)
       (List.concat (softmax ext logits 1)) ->
     (0 <=? raw)%float = true /\ (raw <=? 1)%float = true).
Proof.
  intros Hrun Hsome.
  apply classify_document_success in Hrun; [| exact Hsome].
  apply classify_document_body_inv in Hrun.
  destruct Hrun as [encoding [has_logo [logits [cls [raw [dt H]]]]]].
  destruct H as [Henc [Hlogo [Hlogits [Hclass [Hraw [Hlabel Hresult]]]]]].
  exists encoding, logits, has_logo, cls, raw, dt.
  repeat (split; [assumption |]).
  split.
  - apply dict_getitem_label in Hlabel.
    destruct Hlabel as [[_ ->] | [[_ ->] | [[_ ->] | [[_ ->] | [_ ->]]]]];
      simpl; auto 6.
  - split.
    + apply (@tensor_max_at_argmax _ _ _ Hclass Hraw).
    + intros Hall.
      apply (@tensor_max_Forall
               (fun p => (0 <=? p)%float = true /\ (p <=? 1)%float = true)
               _ _ Hraw Hall).
Qed.

End ClassifyResults.

(** The invoice of the fixture: raw confidence 0.85, a logo, and the
    label Invoice give 0.95. *)
Lemma classify_document_confidence_witness :
  exists raw : float,
    raw = Fixture.p85 /\ Fixture.p95 = (raw + DocumentClassifier.logo_boost)%float.
Proof.
  destruct
    (@classify_document_confidence Fixture.externals "invoice.png"
       Fixture.fresh Fixture.fresh
       (VDict [("document_type", VStr "Invoice");
               ("confidence", VFloat Fixture.p95);
               ("has_logo", VBool true)]))
    as [encoding [logits [has_logo [raw [dt [final H]]]]]].
  - vm_compute. reflexivity.
  - discriminate.
  - destruct H as [Henc [Hlogits [_ [Hraw [Hresult [Hboost _]]]]]].
    injection Hresult as Hdt Hfinal Hlogo.
    exists raw. split.
    + vm_compute in Henc. injection Henc as <-.
      vm_compute in Hlogits. injection Hlogits as <-.
      vm_compute in Hraw. injection Hraw as <-. reflexivity.
    + rewrite Hfinal. apply Hboost; [symmetry; exact Hlogo | left; symmetry; exact Hdt].
Defined.

(** The resume of the fixture: a dict of three items, with the second
    label and the confidence 0.85 at index 1 of the predictions. *)
Lemma classify_document_result_witness :
  exists predicted_class raw,
    predicted_class = 1 /\ raw = Fixture.p85 /\
    DocumentClassifier.dict_getitem DocumentClassifier.get_document_types predicted_class
    = Return "Resume".
Proof.
  destruct
    (@classify_document_result Fixture.externals "resume.png"
       Fixture.fresh Fixture.fresh
       (VDict [("document_type", VStr "Resume");
               ("confidence", VFloat Fixture.p85);
               ("has_logo", VBool true)]))
    as [encoding [logits [has_logo [cls [raw [dt H]]]]]].
  - vm_compute. reflexivity.
  - discriminate.
  - destruct H as [Henc [Hlogits [_ [Hresult [Hclass [Hlabel [_ [Hnth _]]]]]]]].
    injection Hresult as Hdt _ _.
    vm_compute in Henc. injection Henc as <-.
    vm_compute in Hlogits. injection Hlogits as <-.
    vm_compute in Hclass. injection Hclass as <-.
    exists 1, raw. split; [reflexivity |]. split.
    + vm_compute in Hnth. injection Hnth as <-. reflexivity.
    + reflexivity.
Defined.

(* ===================================================================== *)
(** * [classify.py]: the HTTP variant *)
(* ===================================================================== *)

Section HttpVariant.

Import Classify.

Context (ext : HttpExternals).

(** [d.get(key)] on a dict, as a total function. *)
Lemma py_get_dict (items : list (string * pyval)) (key : string) :
  py_get (VDict items) key =
  Return (match assoc key items with Some v => v | None => VNone end).
Proof. unfold py_get. destruct (assoc key items); reflexivity. Qed.

(** The function once the file is read and the server has answered with
    a JSON object. *)
Lemma classify_document_answered (image_path : string) (w : world)
    (image : list Byte.byte) (response : Response ext) (items : list (string * pyval)) :
  read_file ext image_path = Return image ->
  requests_post ext OLLAMA_API_URL (payload (b64encode image)) = Return response ->
  Response_json ext response = Return (VDict items) ->
  let sent :=
    log_request w {| method := "POST"; url := OLLAMA_API_URL;
                     json := payload (b64encode image) |} in
  let done := match assoc "done" items with Some v => v | None => VNone end in
  let output_json := match assoc "response" items with Some v => v | None => VNone end in
  classify_document ext image_path w =
  if truthy done then
    if truthy output_json then
      match output_json with
      | VStr source =>
          try_except
            (document_info <- py_eval ext source ;;
             lift (py_get document_info "category"))
            [SyntaxError; KeyError]
            (fun _ =>
               print "Unexpected JSON format in response." ;;
               print source ;;
               ret (VStr "Unknown document type"))
            sent
      | _ =>
          (Raise (mkExc TypeError "eval() arg 1 must be a string, bytes or code object"),
           sent)
      end
    else (Return (VStr "Unknown document type"), sent)
  else (Return (VStr "Unknown document type"), sent).
Proof.
  intros Hread Hpost Hjson sent done output_json.
  unfold classify_document. cbn [bind ret Monad_Py].
  unfold Py_bind at 1. unfold lift at 1. rewrite Hread.
  unfold Py_bind at 1. unfold post. rewrite Hpost.
  unfold Py_bind at 1. unfold lift at 1. rewrite Hjson.
  unfold Py_bind at 1. unfold lift at 1. rewrite py_get_dict.
  fold done sent.
  destruct (truthy done); [| reflexivity].
  unfold Py_bind at 1. unfold lift at 1. rewrite py_get_dict.
  fold output_json.
  destruct (truthy output_json); [| reflexivity].
  destruct output_json; reflexivity.
Qed.

(** Evaluating the response and reading the category. *)
Lemma eval_category_run (source : string) (w : world) :
  try_except
    (document_info <- py_eval ext source ;; lift (py_get document_info "category"))
    [SyntaxError; KeyError]
    (fun _ =>
       print "Unexpected JSON format in response." ;;
       print source ;;
       ret (VStr "Unknown document type"))
    w
  = let '(r, (printed, sent)) := eval ext source w in
    let w' := {| stdout := stdout w ++ printed; http_log := http_log w ++ sent |} in
    match r with
    | Return value =>
        match value with
        | VDict items =>
            (Return (match assoc "category" items with Some v => v | None => VNone end),
             w')
        | _ => (Raise (mkExc AttributeError "object has no attribute 'get'"), w')
        end
    | Raise e =>
        if catches [SyntaxError; KeyError] e
        then (Return (VStr "Unknown document type"),
              print_to (print_to w' "Unexpected JSON format in response.") source)
        else (Raise e, w')
    end.
Proof.
  unfold try_except, py_eval. cbn [bind ret Monad_Py].
  unfold Py_bind, Py_ret, lift, print.
  destruct (eval ext source w) as [r [printed sent]].
  destruct r as [value | e].
  - destruct value; try reflexivity.
    rewrite py_get_dict. reflexivity.
  - destruct (catches [SyntaxError; KeyError] e); reflexivity.
Qed.

(** The request goes out as soon as the file is read, and stays in the
    log whatever happens next. *)
Lemma classify_document_log (image_path : string) (w : world) (image : list Byte.byte) :
  read_file ext image_path = Return image ->
  exists later,
    http_log (snd (classify_document ext image_path w)) =
    http_log w ++
    {| method := "POST"; url := OLLAMA_API_URL; json := payload (b64encode image) |}
    :: later.
Proof.
  intros Hread.
  destruct (requests_post ext OLLAMA_API_URL (payload (b64encode image)))
    as [response | e] eqn:Hpost.
  2: { exists []. unfold classify_document. cbn [bind ret Monad_Py].
       unfold Py_bind at 1. unfold lift at 1. rewrite Hread.
       unfold Py_bind at 1. unfold post. rewrite Hpost. reflexivity. }
  destruct (Response_json ext response) as [answer | e] eqn:Hjson.
  2: { exists []. unfold classify_document. cbn [bind ret Monad_Py].
       unfold Py_bind at 1. unfold lift at 1. rewrite Hread.
       unfold Py_bind at 1. unfold post. rewrite Hpost.
       unfold Py_bind at 1. unfold lift at 1. rewrite Hjson. reflexivity. }
  assert (Hother :
            (forall items, answer <> VDict items) ->
            classify_document ext image_path w =
            (Raise (mkExc AttributeError "object has no attribute 'get'"),
             log_request w {| method := "POST"; url := OLLAMA_API_URL;
                              json := payload (b64encode image) |})).
  { intros Hnot. unfold classify_document. cbn [bind ret Monad_Py].
    unfold Py_bind at 1. unfold lift at 1. rewrite Hread.
    unfold Py_bind at 1. unfold post. rewrite Hpost.
    unfold Py_bind at 1. unfold lift at 1. rewrite Hjson.
    unfold Py_bind at 1. unfold lift at 1.
    destruct answer; try reflexivity. exfalso. eapply Hnot. reflexivity. }
  destruct answer as [| b | n | x | s | l | items];
    try (rewrite Hother by discriminate; exists []; reflexivity).
  rewrite (@classify_document_answered _ w _ _ _ Hread Hpost Hjson).
  destruct (truthy match assoc "done" items with Some v => v | None => VNone end);
    [| exists []; reflexivity].
  destruct (truthy match assoc "response" items with Some v => v | None => VNone end);
    [| exists []; reflexivity].
  destruct (match assoc "response" items with Some v => v | None => VNone end)
    as [| b | n | x | source | l | items'];
    try (exists []; reflexivity).
  rewrite eval_category_run.
  destruct (eval ext source _) as [r [printed sent]].
  exists sent.
  destruct r as [value | e].
  - destruct value; simpl; rewrite <- app_assoc; reflexivity.
  - destruct (catches [SyntaxError; KeyError] e); simpl; rewrite <- app_assoc; reflexivity.
Qed.

(** C8: once the image file is read, [classify_document] sends one POST
    request to the endpoint, whose JSON body has the items [model],
    [prompt], [images] (a list with the base64 text of the file),
    [format] (the string json) and [stream] (false), in this order and no
    other; and when the answer is a JSON object whose [done] item is true
    and whose [response] item is a non-empty string, the result is what
    [eval] of that string gives, asked for its [category] with [get]. *)
Theorem classify_document_request (image_path : string) (w : world)
    (image : list Byte.byte) :
  read_file ext image_path = Return image ->
  let body :=
    VDict [("model", VStr "x/llama3.2-vision:latest");
           ("prompt",
            VStr "Classify the document type Return only the category in JSON format.");
           ("images", VList [VStr (b64encode image)]);
           ("format", VStr "json");
           ("stream", VBool false)] in
  let request :=
    {| method := "POST"; url := "http://localhost:11434/api/generate"; json := body |} in
  (exists later,
      http_log (snd (classify_document ext image_path w)) =
      http_log w ++ request :: later) /\
  (forall response items done source value,
      requests_post ext (url request) body = Return response ->
      Response_json ext response = Return (VDict items) ->
      assoc "done" items = Some done ->
      truthy done = true ->
      assoc "response" items = Some (VStr source) ->
      source <> "" ->
      fst (eval ext source (log_request w request)) = Return value ->
      fst (classify_document ext image_path w) = py_get value "category").
Proof.
  intros Hread body request. split.
  - apply classify_document_log. exact Hread.
  - intros response items done source value Hpost Hjson Hdone Htrue Hout Hsource Heval.
    rewrite (@classify_document_answered _ w _ _ _ Hread Hpost Hjson).
    rewrite Hdone, Hout, Htrue.
    assert (Hne : truthy (VStr source) = true).
    { simpl. destruct (String.eqb_spec source ""); [contradiction | reflexivity]. }
    rewrite Hne, eval_category_run.
    change (log_request w _) with (log_request w request).
    destruct (eval ext source (log_request w request)) as [r [printed sent]].
    simpl in Heval. subst r.
    destruct value; try reflexivity.
    rewrite py_get_dict. reflexivity.
Qed.

(** C10: when the image file cannot be read, the exception of the read
    goes to the caller, with nothing printed or sent; and when the server
    answers with a JSON object whose [done] item is missing or false,
    or whose [response] item is missing or empty, or whose [response] is
    a string on which [eval] raises an instance of [SyntaxError] or of
    [KeyError], the function returns the string
    [Unknown document type]. *)
Theorem classify_document_unknown (image_path : string) (w : world) :
  (forall e,
      read_file ext image_path = Raise e ->
      classify_document ext image_path w = (Raise e, w)) /\
  (forall image response items,
      read_file ext image_path = Return image ->
      requests_post ext OLLAMA_API_URL (payload (b64encode image)) = Return response ->
      Response_json ext response = Return (VDict items) ->
      let done := match assoc "done" items with Some v => v | None => VNone end in
      let output_json :=
        match assoc "response" items with Some v => v | None => VNone end in
      let sent :=
        log_request w {| method := "POST"; url := OLLAMA_API_URL;
                         json := payload (b64encode image) |} in
      truthy done = false \/
      truthy output_json = false \/
      (exists source e,
          output_json = VStr source /\
          fst (eval ext source sent) = Raise e /\
          (isinstance e SyntaxError = true \/ isinstance e KeyError = true)) ->
      fst (classify_document ext image_path w) = Return (VStr "Unknown document type")).
Proof.
  split.
  - intros e Hread. unfold classify_document. cbn [bind ret Monad_Py].
    unfold Py_bind at 1. unfold lift at 1. rewrite Hread. reflexivity.
  - intros image response items Hread Hpost Hjson done output_json sent Hcase.
    rewrite (@classify_document_answered _ w _ _ _ Hread Hpost Hjson).
    fold done output_json sent.
    destruct (truthy done) eqn:Hdone; [| reflexivity].
    destruct (truthy output_json) eqn:Hout; [| reflexivity].
    destruct Hcase as [H | [H | [source [e [Hstr [Heval Hclass]]]]]];
      [discriminate H | discriminate H |].
    rewrite Hstr, eval_category_run.
    destruct (eval ext source sent) as [r [printed more]].
    simpl in Heval. subst r.
    assert (Hcatch : catches [SyntaxError; KeyError] e = true).
    { unfold catches. simpl. destruct Hclass as [-> | ->];
        [reflexivity | apply orb_true_iff; right; reflexivity]. }
    rewrite Hcatch. reflexivity.
Qed.

End HttpVariant.

(** The invoice of the fixture: the request carries the base64 text of
    the three bytes of the file, and the answer evaluates to a dict whose
    category is Invoice. *)
Lemma classify_document_request_witness :
  (exists later,
      http_log (snd (Classify.classify_document Fixture.http_externals "invoice.png"
                       Fixture.fresh))
      = {| method := "POST";
           url := "http://localhost:11434/api/generate";
           json := VDict [("model", VStr "x/llama3.2-vision:latest");
                          ("prompt",
                           VStr "Classify the document type Return only the category in JSON format.");
                          ("images", VList [VStr "TWFu"]);
                          ("format", VStr "json");
                          ("stream", VBool false)] |} :: later) /\
  fst (Classify.classify_document Fixture.http_externals "invoice.png" Fixture.fresh)
  = Return (VStr "Invoice").
Proof.
  destruct (@classify_document_request Fixture.http_externals "invoice.png"
              Fixture.fresh (list_byte_of_string "Man") eq_refl)
    as [Hlog Hresult].
  split; [exact Hlog |].
  rewrite (Hresult
             (VDict [("model", VStr Classify.MODEL_NAME);
                     ("response", VStr "{'category': 'Invoice'}");
                     ("done", VBool true)])
             [("model", VStr Classify.MODEL_NAME);
              ("response", VStr "{'category': 'Invoice'}");
              ("done", VBool true)]
             (VBool true) "{'category': 'Invoice'}"
             (VDict [("category", VStr "Invoice")]));
    try reflexivity.
  discriminate.
Defined.

(** Two files of the fixture: one that does not exist, and one for which
    the generation is not done. *)
Lemma classify_document_unknown_witness :
  Classify.classify_document Fixture.http_externals "nope.png" Fixture.fresh
  = (Raise (Fixture.no_such_file "nope.png"), Fixture.fresh) /\
  fst (Classify.classify_document Fixture.http_externals "pending.png" Fixture.fresh)
  = Return (VStr "Unknown document type") /\
  fst (Classify.classify_document Fixture.http_externals "garbled.png" Fixture.fresh)
  = Return (VStr "Unknown document type").
Proof.
  split; [| split].
  - apply (proj1 (@classify_document_unknown Fixture.http_externals "nope.png"
                    Fixture.fresh)).
    reflexivity.
  - apply (proj2 (@classify_document_unknown Fixture.http_externals "pending.png"
                    Fixture.fresh)
             (list_byte_of_string "Ma")
             (VDict [("model", VStr Classify.MODEL_NAME);
                     ("response", VStr "{'category': 'Inv");
                     ("done", VBool false)])
             [("model", VStr Classify.MODEL_NAME);
              ("response", VStr "{'category': 'Inv");
              ("done", VBool false)]);
      try reflexivity.
    left. reflexivity.
  - apply (proj2 (@classify_document_unknown Fixture.http_externals "garbled.png"
                    Fixture.fresh)
             (list_byte_of_string "M")
             (VDict [("model", VStr Classify.MODEL_NAME);
                     ("response", VStr "{category");
                     ("done", VBool true)])
             [("model", VStr Classify.MODEL_NAME);
              ("response", VStr "{category");
              ("done", VBool true)]);
      try reflexivity.
    right. right. exists "{category", (mkExc SyntaxError "invalid syntax").
    split; [reflexivity |]. split; [reflexivity | left; reflexivity].
Defined.

(* ===================================================================== *)
(** * The pipeline at its edges *)
(* ===================================================================== *)

Lemma int_truediv_Return_inv (a b : Z) (q : float) :
  int_truediv a b = Return q ->
  b <> 0 /\ quotient_in_range a b /\ q = nearest_quotient a b.
Proof.
  unfold int_truediv, quotient_in_range.
  destruct (Z.eqb_spec b 0) as [E | Hb]; [discriminate |].
  destruct (Z.leb_spec (overflow_threshold * Z.abs b) (Z.abs a)) as [Hge | Hlt];
    [discriminate |].
  intros H. injection H as <-. repeat split; assumption.
Qed.

Lemma getitem_Return_inv {A} (l : list A) (i : nat) (a : A) :
  getitem l i = Return a -> nth_error l i = Some a.
Proof.
  unfold getitem. destruct (nth_error l i); [| discriminate].
  intros H. injection H as ->. reflexivity.
Qed.

Section PipelineEdges.

Import DocumentClassifier.

Context (ext : Externals).

(** X1: the loop body returns only for a line of at least five fields
    whose fields 1 to 4 read as integers, in an image whose width and
    height are not zero and with quotients in the range of [float]; the
    word is field 0 and the box is the four floats of the formula.  On
    any other line it raises. *)
Theorem normalize_box_returns_only_well_formed (width height : Z) (box : string)
    (b : Box) (word : string) :
  normalize_box ext width height box = Return (b, word) ->
  exists s1 s2 s3 s4 rest x1 y1 x2 y2,
    str_split ext box = word :: s1 :: s2 :: s3 :: s4 :: rest /\
    int_of_str ext s1 = Return x1 /\ int_of_str ext s2 = Return y1 /\
    int_of_str ext s3 = Return x2 /\ int_of_str ext s4 = Return y2 /\
    width <> 0 /\ height <> 0 /\
    quotient_in_range x1 width /\ quotient_in_range (height - y1) height /\
    quotient_in_range x2 width /\ quotient_in_range (height - y2) height /\
    b = [PyFloat (nearest_quotient x1 width * 1000);
         PyFloat (nearest_quotient (height - y1) height * 1000);
         PyFloat (nearest_quotient x2 width * 1000);
         PyFloat (nearest_quotient (height - y2) height * 1000)]%float.
Proof.
  unfold normalize_box. intros H.
  bind_inv H s1 Hs1. bind_inv H x1 Hx1. bind_inv H q1 Hq1.
  bind_inv H s2 Hs2. bind_inv H y1 Hy1. bind_inv H q2 Hq2.
  bind_inv H s3 Hs3. bind_inv H x2 Hx2. bind_inv H q3 Hq3.
  bind_inv H s4 Hs4. bind_inv H y2 Hy2. bind_inv H q4 Hq4.
  bind_inv H s0 Hs0.
  injection H as <- <-.
  apply getitem_Return_inv in Hs0, Hs1, Hs2, Hs3, Hs4.
  apply int_truediv_Return_inv in Hq1, Hq2, Hq3, Hq4.
  destruct Hq1 as [Hw [R1 ->]]. destruct Hq2 as [Hh [R2 ->]].
  destruct Hq3 as [_ [R3 ->]]. destruct Hq4 as [_ [R4 ->]].
  destruct (str_split ext box) as [| f0 [| f1 [| f2 [| f3 [| f4 rest]]]]];
    simpl in Hs0, Hs1, Hs2, Hs3, Hs4; try discriminate.
  injection Hs0 as ->. injection Hs1 as ->. injection Hs2 as ->.
  injection Hs3 as ->. injection Hs4 as ->.
  exists s1, s2, s3, s4, rest, x1, y1, x2, y2.
  repeat (split; [assumption || reflexivity |]). reflexivity.
Qed.

(** A box of the loop has four entries. *)
Lemma normalize_box_four (width height : Z) (box : string) (r : Box * string) :
  normalize_box ext width height box = Return r -> List.length (fst r) = 4%nat.
Proof.
  unfold normalize_box. intros H.
  bind_inv H s1 Hs1. bind_inv H x1 Hx1. bind_inv H q1 Hq1.
  bind_inv H s2 Hs2. bind_inv H y1 Hy1. bind_inv H q2 Hq2.
  bind_inv H s3 Hs3. bind_inv H x2 Hx2. bind_inv H q3 Hq3.
  bind_inv H s4 Hs4. bind_inv H y2 Hy2. bind_inv H q4 Hq4.
  bind_inv H s0 Hs0.
  injection H as <-. reflexivity.
Qed.

Lemma Forall_firstn {A} (P : A -> Prop) (n : nat) (l : list A) :
  Forall P l -> Forall P (firstn n l).
Proof.
  intros H. revert n.
  induction H as [| a l Ha Hl IH]; intros [| n]; simpl; constructor;
    [exact Ha | apply IH].
Qed.

Lemma match_length_Forall (P : Box -> Prop) (normalized_boxes : list Box)
    (input_length : nat) :
  P zero_box -> Forall P normalized_boxes ->
  Forall P (match_length normalized_boxes input_length).
Proof.
  intros Hzero Hall. unfold match_length.
  destruct (List.length normalized_boxes <? input_length)%nat.
  - apply Forall_app. split; [exact Hall |].
    apply Forall_forall. intros b Hb. apply repeat_spec in Hb. subst b. exact Hzero.
  - destruct (input_length <? List.length normalized_boxes)%nat; [| exact Hall].
    apply Forall_firstn. exact Hall.
Qed.

(** X2: when the stages and the loop return, the nested list under
    [bbox] is rectangular: one row of [L] boxes, each of four numbers,
    whether the box comes from the OCR or from the padding. *)
Theorem preprocess_image_bbox_rectangular (image_path : string) (image : Image ext)
    (text boxes : string) (encoding : BatchEncoding) (r : list Box * list string) :
  stages_return ext image_path image text boxes encoding ->
  normalize_boxes ext (fst (Image_size ext image)) (snd (Image_size ext image))
    (str_splitlines ext boxes) [] [] = Return r ->
  exists final : list Box,
    preprocess_image ext image_path = Return (set_bbox encoding [final]) /\
    List.length final = size_1 (input_ids encoding) /\
    Forall (fun b => List.length b = 4%nat) final.
Proof.
  intros Hstages Hloop.
  exists (match_length (fst r) (size_1 (input_ids encoding))).
  split; [apply preprocess_image_returns with (1 := Hstages) (2 := Hloop) |].
  split; [apply match_length_length |].
  apply match_length_Forall; [reflexivity |].
  pose proof (normalize_boxes_spec _ _ _ _ _ _ Hloop) as [new [Hfst Hall]].
  simpl in Hfst. rewrite Hfst. clear Hfst Hloop.
  induction Hall as [| line b lines new [word Hline] Hrest IH]; constructor.
  - apply (@normalize_box_four _ _ _ (b, word) Hline).
  - exact IH.
Qed.

(** The loop stops at the first line on which its body raises. *)
Lemma normalize_boxes_raises (width height : Z) (before after : list string)
    (line : string) (e : exc) :
  Forall (fun l => exists r, normalize_box ext width height l = Return r) before ->
  normalize_box ext width height line = Raise e ->
  forall acc acc_words,
    normalize_boxes ext width height (before ++ line :: after) acc acc_words = Raise e.
Proof.
  intros Hbefore Hline.
  induction Hbefore as [| l rest [r Hl] Hrest IH]; intros acc acc_words; simpl.
  - rewrite Hline. reflexivity.
  - rewrite Hl. cbn [outcome_bind]. apply IH.
Qed.

(** A line without a field 1 has no [b[1]]. *)
Lemma normalize_box_short_line (width height : Z) (box : string) :
  (List.length (str_split ext box) <= 1)%nat ->
  normalize_box ext width height box =
  Raise (mkExc IndexError "list index out of range").
Proof.
  intros Hshort. unfold normalize_box, getitem.
  destruct (str_split ext box) as [| f0 [| f1 rest]]; simpl in *;
    [reflexivity | reflexivity | lia].
Qed.

(** X3: one line of the OCR output with no field 1 (an empty line, or a
    lone word) fails the whole classification, however many good lines
    come before it and whatever follows: [classify_document] prints the
    [IndexError] and returns [None]. *)
Theorem classify_document_short_line (image_path : string) (opened image : Image ext)
    (text boxes : string) (before after : list string) (line : string) (w : world) :
  Image_open ext image_path = Return opened ->
  Image_convert ext opened "RGB" = Return image ->
  image_to_string ext image = Return text ->
  image_to_boxes ext image = Return boxes ->
  str_splitlines ext boxes = before ++ line :: after ->
  Forall
    (fun l =>
       exists r,
         normalize_box ext (fst (Image_size ext image)) (snd (Image_size ext image)) l
         = Return r)
    before ->
  (List.length (str_split ext line) <= 1)%nat ->
  classify_document ext image_path w =
  (Return VNone, print_to w "Error processing document: list index out of range").
Proof.
  intros Hopen Hconv Htext Hboxes Hlines Hbefore Hshort.
  assert (Hstage : stage_raises ext image_path
                     (mkExc IndexError "list index out of range")).
  { eapply box_normalization_raises; try eassumption.
    rewrite Hlines. apply normalize_boxes_raises; [exact Hbefore |].
    apply normalize_box_short_line. exact Hshort. }
  apply stage_raises_body in Hstage.
  rewrite classify_document_run, Hstage. reflexivity.
Qed.

(** X4: [classify_document] returns [None] exactly when a stage raised
    an instance of [Exception]; a run whose stages all return never
    gives [None]. *)
Theorem classify_document_None_iff (image_path : string) (w : world) :
  fst (classify_document ext image_path w) = Return VNone <->
  exists e, stage_raises ext image_path e /\ isinstance e Exception = true.
Proof.
  rewrite classify_document_run. split.
  - destruct (classify_document_body ext image_path) as [result | e] eqn:Hbody.
    + intros H. simpl in H. injection H as ->.
      apply classify_document_body_inv in Hbody.
      destruct Hbody as [? [? [? [? [? [? [_ [_ [_ [_ [_ [_ H]]]]]]]]]]]].
      discriminate H.
    + intros H. exists e. split; [apply stage_raises_body; exact Hbody |].
      destruct (isinstance e Exception); [reflexivity | discriminate H].
  - intros [e [Hstage Hexc]]. apply stage_raises_body in Hstage.
    rewrite Hstage, Hexc. reflexivity.
Qed.

(** Contours that fail the area test leave the list as it is. *)
Lemma filter_contours_small (contours : list (contour ext)) :
  Forall (fun c => (1000 <? cv2_contourArea ext c)%float = false) contours ->
  forall potential_logos,
    filter_contours ext contours potential_logos = Return potential_logos.
Proof.
  induction 1 as [| c rest Hc Hrest IH]; intros potential_logos; simpl.
  - reflexivity.
  - rewrite Hc. apply IH.
Qed.

(** X5: when no contour has an area greater than 1000 (none at all, as
    on a blank page, or small ones only), [detect_logo] returns false,
    and no bounding rectangle is divided: a flat rectangle of height 0
    among them does no harm. *)
Theorem detect_logo_small_contours (image_path : string)
    (contours : list (contour ext)) :
  contours_found ext image_path contours ->
  Forall (fun c => (1000 <? cv2_contourArea ext c)%float = false) contours ->
  detect_logo ext image_path = Return false.
Proof.
  intros [image [gray [tb [ch [Hread [Hgray [Hthresh [Hfind Hcs]]]]]]]] Hsmall.
  unfold detect_logo.
  rewrite (bind_Return _ Hread), (bind_Return _ Hgray), (bind_Return _ Hthresh).
  rewrite (bind_Return _ Hfind). rewrite <- Hcs.
  rewrite (filter_contours_small Hsmall). reflexivity.
Qed.

End PipelineEdges.

(** The first line of the invoice has its six fields. *)
Lemma normalize_box_returns_only_well_formed_witness :
  exists s1 s2 s3 s4 rest,
    Fixture.split "I 100 1330 112 1350 0" = "I" :: s1 :: s2 :: s3 :: s4 :: rest.
Proof.
  destruct
    (@normalize_box_returns_only_well_formed Fixture.externals 1000 1400
       "I 100 1330 112 1350 0"
       [PyFloat (nearest_quotient 100 1000 * 1000);
        PyFloat (nearest_quotient (1400 - 1330) 1400 * 1000);
        PyFloat (nearest_quotient 112 1000 * 1000);
        PyFloat (nearest_quotient (1400 - 1350) 1400 * 1000)]%float
       "I")
    as [s1 [s2 [s3 [s4 [rest [x1 [y1 [x2 [y2 [Hsplit _]]]]]]]]]].
  - vm_compute. reflexivity.
  - exists s1, s2, s3, s4, rest. exact Hsplit.
Defined.

(** The invoice: 512 boxes of four numbers. *)
Lemma preprocess_image_bbox_rectangular_witness :
  exists final : list Box,
    DocumentClassifier.preprocess_image Fixture.externals "invoice.png"
    = Return (set_bbox (Fixture.encode "IN" 512) [final]) /\
    List.length final = 512%nat /\
    Forall (fun b => List.length b = 4%nat) final.
Proof.
  apply (@preprocess_image_bbox_rectangular Fixture.externals "invoice.png"
           Fixture.invoice "IN" (Fixture.scene_boxes Fixture.invoice)
           (Fixture.encode "IN" 512) (Fixture.invoice_boxes, ["I"; "N"])).
  - split; [exists Fixture.invoice; split; reflexivity |].
    split; [reflexivity |]. split; reflexivity.
  - vm_compute. reflexivity.
Defined.

(** The file with an empty line between two good lines. *)
Lemma classify_document_short_line_witness :
  DocumentClassifier.classify_document Edge.externals "gap.png" Fixture.fresh
  = (Return VNone,
     {| stdout := ["Error processing document: list index out of range"];
        http_log := [] |}).
Proof.
  apply (@classify_document_short_line Edge.externals "gap.png" Edge.gap Edge.gap
           "IN" (Fixture.scene_boxes Edge.gap)
           ["I 100 1330 112 1350 0"] ["N 114 1330 130 1350 0"] "" Fixture.fresh);
    try reflexivity.
  - constructor; [| constructor]. eexists. vm_compute. reflexivity.
  - vm_compute. lia.
Defined.

(** The file with two small contours, both flat. *)
Lemma detect_logo_small_contours_witness :
  DocumentClassifier.detect_logo Edge.externals "specks.png" = Return false.
Proof.
  apply (@detect_logo_small_contours Edge.externals "specks.png"
           (Fixture.scene_contours Edge.specks)).
  - exists (Some Edge.specks), Edge.specks, (nearest_float 127, Edge.specks),
      (Fixture.scene_contours Edge.specks, None).
    repeat split; reflexivity.
  - repeat constructor.
Defined.

(* ===================================================================== *)
(** * [classify.py]: what is not caught *)
(* ===================================================================== *)

Section HttpEdges.

Import Classify.

Context (ext : HttpExternals).

(** X6: when the evaluated response is a dict without the key
    [category], [classify_document] returns [None]: [get] has no default
    here, and the string [Unknown document type] is not used. *)
Theorem classify_document_missing_category (image_path : string) (w : world)
    (image : list Byte.byte) (response : Response ext)
    (items evaluated : list (string * pyval)) (done : pyval) (source : string) :
  read_file ext image_path = Return image ->
  requests_post ext OLLAMA_API_URL (payload (b64encode image)) = Return response ->
  Response_json ext response = Return (VDict items) ->
  assoc "done" items = Some done ->
  truthy done = true ->
  assoc "response" items = Some (VStr source) ->
  source <> "" ->
  fst (eval ext source
         (log_request w {| method := "POST"; url := OLLAMA_API_URL;
                           json := payload (b64encode image) |}))
  = Return (VDict evaluated) ->
  assoc "category" evaluated = None ->
  fst (classify_document ext image_path w) = Return VNone.
Proof.
  intros Hread Hpost Hjson Hdone Htrue Hout Hsource Heval Hmissing.
  rewrite (@classify_document_answered _ _ w _ _ _ Hread Hpost Hjson).
  rewrite Hdone, Hout, Htrue.
  assert (Hne : truthy (VStr source) = true).
  { simpl. destruct (String.eqb_spec source ""); [contradiction | reflexivity]. }
  rewrite Hne, eval_category_run.
  destruct (eval ext source _) as [r [printed sent]].
  simpl in Heval. subst r. rewrite Hmissing. reflexivity.
Qed.

(** X7: an exception of [eval] that is neither a [SyntaxError] nor a
    [KeyError] (a [NameError] for the JSON words null, true and false,
    for one) is not caught: it reaches the caller, after the request was
    sent, and nothing is printed by the function. *)
Theorem classify_document_eval_propagates (image_path : string) (w : world)
    (image : list Byte.byte) (response : Response ext)
    (items : list (string * pyval)) (done : pyval) (source : string)
    (e : exc) (printed : list string) (sent : list request) :
  read_file ext image_path = Return image ->
  requests_post ext OLLAMA_API_URL (payload (b64encode image)) = Return response ->
  Response_json ext response = Return (VDict items) ->
  assoc "done" items = Some done ->
  truthy done = true ->
  assoc "response" items = Some (VStr source) ->
  source <> "" ->
  eval ext source
    (log_request w {| method := "POST"; url := OLLAMA_API_URL;
                      json := payload (b64encode image) |})
  = (Raise e, (printed, sent)) ->
  isinstance e SyntaxError = false ->
  isinstance e KeyError = false ->
  classify_document ext image_path w =
  (Raise e,
   {| stdout := stdout w ++ printed;
      http_log :=
        (http_log w ++ [{| method := "POST"; url := OLLAMA_API_URL;
                           json := payload (b64encode image) |}]) ++ sent |}).
Proof.
  intros Hread Hpost Hjson Hdone Htrue Hout Hsource Heval Hsyntax Hkey.
  rewrite (@classify_document_answered _ _ w _ _ _ Hread Hpost Hjson).
  rewrite Hdone, Hout, Htrue.
  assert (Hne : truthy (VStr source) = true).
  { simpl. destruct (String.eqb_spec source ""); [contradiction | reflexivity]. }
  rewrite Hne, eval_category_run, Heval.
  unfold catches. simpl. rewrite Hsyntax, Hkey. reflexivity.
Qed.

(** X8: a JSON answer that is not an object has no [get]: the call
    raises an [AttributeError] after the request was sent, and nothing
    is printed.  The handler of the source covers only the [eval]. *)
Theorem classify_document_answer_not_object (image_path : string) (w : world)
    (image : list Byte.byte) (response : Response ext) (answer : pyval) :
  read_file ext image_path = Return image ->
  requests_post ext OLLAMA_API_URL (payload (b64encode image)) = Return response ->
  Response_json ext response = Return answer ->
  (forall items, answer <> VDict items) ->
  exists e,
    classify_document ext image_path w =
    (Raise e,
     log_request w {| method := "POST"; url := OLLAMA_API_URL;
                      json := payload (b64encode image) |}) /\
    exc_type e = AttributeError.
Proof.
  intros Hread Hpost Hjson Hnot.
  exists (mkExc AttributeError "object has no attribute 'get'").
  split; [| reflexivity].
  unfold classify_document. cbn [bind ret Monad_Py].
  unfold Py_bind at 1. unfold lift at 1. rewrite Hread.
  unfold Py_bind at 1. unfold post. rewrite Hpost.
  unfold Py_bind at 1. unfold lift at 1. rewrite Hjson.
  unfold Py_bind at 1. unfold lift at 1.
  destruct answer; try reflexivity. exfalso. eapply Hnot. reflexivity.
Qed.

(** X9: a [response] that is true but not a string cannot be
    evaluated: the [TypeError] of [eval] is not caught by the handler
    for [SyntaxError] and [KeyError] and leaves the function. *)
Theorem classify_document_response_not_string (image_path : string) (w : world)
    (image : list Byte.byte) (response : Response ext)
    (items : list (string * pyval)) (done output_json : pyval) :
  read_file ext image_path = Return image ->
  requests_post ext OLLAMA_API_URL (payload (b64encode image)) = Return response ->
  Response_json ext response = Return (VDict items) ->
  assoc "done" items = Some done -> truthy done = true ->
  assoc "response" items = Some output_json -> truthy output_json = true ->
  (forall source, output_json <> VStr source) ->
  exists e,
    classify_document ext image_path w =
    (Raise e,
     log_request w {| method := "POST"; url := OLLAMA_API_URL;
                      json := payload (b64encode image) |}) /\
    exc_type e = TypeError.
Proof.
  intros Hread Hpost Hjson Hdone Htrue Hout Houttrue Hnot.
  rewrite (@classify_document_answered _ _ w _ _ _ Hread Hpost Hjson).
  rewrite Hdone, Hout, Htrue, Houttrue.
  exists (mkExc TypeError "eval() arg 1 must be a string, bytes or code object").
  split; [| reflexivity].
  destruct output_json; try reflexivity. exfalso. eapply Hnot. reflexivity.
Qed.

(** X10: when the evaluated response is a value other than a dict (a
    list, a number, a string, [None]), [result.get] raises an
    [AttributeError], which the handler does not catch either. *)
Theorem classify_document_evaluated_not_dict (image_path : string) (w : world)
    (image : list Byte.byte) (response : Response ext)
    (items : list (string * pyval)) (done : pyval) (source : string)
    (value : pyval) :
  read_file ext image_path = Return image ->
  requests_post ext OLLAMA_API_URL (payload (b64encode image)) = Return response ->
  Response_json ext response = Return (VDict items) ->
  assoc "done" items = Some done -> truthy done = true ->
  assoc "response" items = Some (VStr source) -> source <> "" ->
  fst (eval ext source
         (log_request w {| method := "POST"; url := OLLAMA_API_URL;
                           json := payload (b64encode image) |}))
  = Return value ->
  (forall evaluated, value <> VDict evaluated) ->
  exists e,
    fst (classify_document ext image_path w) = Raise e /\
    exc_type e = AttributeError.
Proof.
  intros Hread Hpost Hjson Hdone Htrue Hout Hsource Heval Hnot.
  rewrite (@classify_document_answered _ _ w _ _ _ Hread Hpost Hjson).
  rewrite Hdone, Hout, Htrue.
  assert (Hne : truthy (VStr source) = true).
  { simpl. destruct (String.eqb_spec source ""); [contradiction | reflexivity]. }
  rewrite Hne, eval_category_run.
  destruct (eval ext source _) as [r [printed more]].
  simpl in Heval. subst r.
  exists (mkExc AttributeError "object has no attribute 'get'").
  split; [| reflexivity].
  destruct value; try reflexivity. exfalso. eapply Hnot. reflexivity.
Qed.

End HttpEdges.

(** Witness of X6: the server answers [{'type': 'Invoice'}] for
    other.png. *)
Lemma classify_document_missing_category_witness :
  fst (Classify.classify_document Oddities.http_externals "other.png" Fixture.fresh)
  = Return VNone.
Proof.
  apply (@classify_document_missing_category Oddities.http_externals
           "other.png" Fixture.fresh (list_byte_of_string "oth")
           (VDict [("response", VStr "{'type': 'Invoice'}"); ("done", VBool true)])
           [("response", VStr "{'type': 'Invoice'}"); ("done", VBool true)]
           [("type", VStr "Invoice")] (VBool true) "{'type': 'Invoice'}");
    try reflexivity.
  discriminate.
Defined.

(** Witness of X7: the category of null.png is the JSON word null,
    which [eval] reads as an undefined name. *)
Lemma classify_document_eval_propagates_witness :
  fst (Classify.classify_document Oddities.http_externals "null.png" Fixture.fresh)
  = Raise Oddities.name_error.
Proof.
  rewrite (@classify_document_eval_propagates Oddities.http_externals
             "null.png" Fixture.fresh (list_byte_of_string "nul")
             (VDict [("response", VStr "{'category': null}"); ("done", VBool true)])
             [("response", VStr "{'category': null}"); ("done", VBool true)]
             (VBool true) "{'category': null}" Oddities.name_error [] []);
    try reflexivity.
  discriminate.
Defined.

(** Witness of X8: the answer for array.png is a JSON array. *)
Lemma classify_document_answer_not_object_witness :
  exists e,
    Classify.classify_document Oddities.http_externals "array.png" Fixture.fresh =
    (Raise e,
     log_request Fixture.fresh
       {| method := "POST"; url := Classify.OLLAMA_API_URL;
          json := Classify.payload "YXJy" |}) /\
    exc_type e = AttributeError.
Proof.
  apply (@classify_document_answer_not_object Oddities.http_externals
           "array.png" Fixture.fresh (list_byte_of_string "arr")
           (VList [VStr "Invoice"]) (VList [VStr "Invoice"]));
    try reflexivity.
  discriminate.
Defined.

(** Witness of X9: the response for number.png is the number 7. *)
Lemma classify_document_response_not_string_witness :
  exists e,
    Classify.classify_document Oddities.http_externals "number.png" Fixture.fresh =
    (Raise e,
     log_request Fixture.fresh
       {| method := "POST"; url := Classify.OLLAMA_API_URL;
          json := Classify.payload "bnVt" |}) /\
    exc_type e = TypeError.
Proof.
  apply (@classify_document_response_not_string Oddities.http_externals
           "number.png" Fixture.fresh (list_byte_of_string "num")
           (VDict [("response", VInt 7); ("done", VBool true)])
           [("response", VInt 7); ("done", VBool true)]
           (VBool true) (VInt 7));
    try reflexivity.
  discriminate.
Defined.

(** Witness of X10: the response for list.png evaluates to a list. *)
Lemma classify_document_evaluated_not_dict_witness :
  exists e,
    fst (Classify.classify_document Oddities.http_externals "list.png" Fixture.fresh)
    = Raise e /\
    exc_type e = AttributeError.
Proof.
  apply (@classify_document_evaluated_not_dict Oddities.http_externals
           "list.png" Fixture.fresh (list_byte_of_string "lis")
           (VDict [("response", VStr "['Invoice']"); ("done", VBool true)])
           [("response", VStr "['Invoice']"); ("done", VBool true)]
           (VBool true) "['Invoice']" (VList [VStr "Invoice"]));
    try reflexivity.
  - discriminate.
  - discriminate.
Defined.

(* ===================================================================== *)
(** * [main] of [document_classifier.py] *)
(* ===================================================================== *)

Section MainProgram.

Import DocumentClassifier.

Context (ext : Externals) (format : pyval -> string -> outcome string).

(** X11: when the classification of the example path succeeds, [main]
    prints exactly three lines, the type, the confidence with two
    decimals and [Yes] or [No] for the logo, and returns; none of its
    three subscripts fails and nothing is printed about an error. *)
Theorem main_prints_three_lines (w : world) (document_type shown : string)
    (confidence : float) (has_logo : bool) :
  classify_document_body ext Main.image_path =
  Return (VDict [("document_type", VStr document_type);
                 ("confidence", VFloat confidence);
                 ("has_logo", VBool has_logo)]) ->
  format (VFloat confidence) ".2f" = Return shown ->
  Main.main ext format w =
  (Return tt,
   {| stdout := stdout w ++
                ["Document Type: " ++ document_type;
                 "Confidence: " ++ shown;
                 "Logo Detected: " ++ (if has_logo then "Yes" else "No")]%string;
      http_log := http_log w |}).
Proof.
  intros Hbody Hformat.
  unfold Main.main, try_except, classify_document, try_except, lift.
  cbn [bind ret Monad_Py]. unfold Py_bind at 1. rewrite Hbody.
  unfold Main.report. cbn [truthy py_getitem assoc String.eqb Ascii.eqb Bool.eqb].
  cbn. rewrite Hformat. cbn. unfold print_to. cbn.
  rewrite <- !app_assoc. reflexivity.
Qed.

(** X12: when a stage of the classification raises an instance of
    [Exception], [main] prints one line only, the one that
    [classify_document] prints, and returns: the result is [None], so
    nothing is reported and the handler of [main] does not run. *)
Theorem main_prints_one_error (w : world) (e : exc) :
  classify_document_body ext Main.image_path = Raise e ->
  isinstance e Exception = true ->
  Main.main ext format w =
  (Return tt, print_to w ("Error processing document: " ++ exc_str e)%string).
Proof.
  intros Hbody Hexc.
  unfold Main.main, try_except, classify_document, try_except, lift.
  cbn [bind ret Monad_Py]. unfold Py_bind at 1. rewrite Hbody.
  unfold catches. cbn [existsb]. rewrite Hexc. cbn. reflexivity.
Qed.

End MainProgram.

(** Witness of X11: the invoice of the small world at the path of
    [main]. *)
Lemma main_prints_three_lines_witness :
  Main.main Edge.externals Edge.format Fixture.fresh =
  (Return tt,
   {| stdout := ["Document Type: Invoice"; "Confidence: 0.95"; "Logo Detected: Yes"];
      http_log := [] |}).
Proof.
  apply (@main_prints_three_lines Edge.externals Edge.format Fixture.fresh
           "Invoice" "0.95" Fixture.p95 true); vm_compute; reflexivity.
Defined.

(** Witness of X12: the small world of the claims has no file at the
    path of [main]. *)
Lemma main_prints_one_error_witness :
  Main.main Fixture.externals Edge.format Fixture.fresh =
  (Return tt,
   print_to Fixture.fresh
     ("Error processing document: "
      ++ exc_str (Fixture.no_such_file Main.image_path))%string).
Proof.
  apply (@main_prints_one_error Fixture.externals Edge.format Fixture.fresh
           (Fixture.no_such_file Main.image_path)); vm_compute; reflexivity.
Defined.

(* ===================================================================== *)
(** * The desktop application: [classify_document] *)
(* ===================================================================== *)

Section Keeps.

Context (R : gui -> gui -> Prop).
Hypothesis R_refl : forall g, R g g.
Hypothesis R_trans : forall a b c, R a b -> R b c -> R a c.

Lemma keeps_ret {A} (a : A) : keeps R (ret a).
Proof. intros g. apply R_refl. Qed.

Lemma keeps_call {A} (m : outcome A) : keeps R (call m).
Proof. intros g. apply R_refl. Qed.

Lemma keeps_raise {A} (e : exc) : keeps R (@raise A e).
Proof. intros g. apply R_refl. Qed.

Lemma keeps_finish (failure : option exc) : keeps R (Gui.finish failure).
Proof. intros g. destruct failure; apply R_refl. Qed.

Lemma keeps_bind {A B} (m : Gui A) (k : A -> Gui B) :
  keeps R m -> (forall a, keeps R (k a)) -> keeps R (bind m k).
Proof.
  intros Hm Hk g. cbn [bind Monad_Gui]. unfold Gui_bind.
  specialize (Hm g). destruct (m g) as [[a | e] g1]; simpl in Hm.
  - eapply R_trans; [exact Hm | apply Hk].
  - exact Hm.
Qed.

Lemma keeps_try {A} (body : Gui A) (classes : list exc_class)
    (handler : exc -> Gui A) :
  keeps R body -> (forall e, keeps R (handler e)) ->
  keeps R (gui_try body classes handler).
Proof.
  intros Hm Hk g. unfold gui_try.
  specialize (Hm g). destruct (body g) as [[a | e] g1]; simpl in Hm.
  - exact Hm.
  - destruct (catches classes e).
    + eapply R_trans; [exact Hm | apply Hk].
    + exact Hm.
Qed.

End Keeps.

Lemma unchanged_refl {T} (part : gui -> T) (g : gui) : unchanged part g g.
Proof. reflexivity. Qed.

Lemma unchanged_trans {T} (part : gui -> T) (a b c : gui) :
  unchanged part a b -> unchanged part b c -> unchanged part a c.
Proof. unfold unchanged. intros H1 H2. rewrite H2. exact H1. Qed.

Lemma adds_only_refl (P : fs_event -> Prop) (g : gui) : adds_only P g g.
Proof. exists []. split; [symmetry; apply app_nil_r | constructor]. Qed.

Lemma adds_only_trans (P : fs_event -> Prop) (a b c : gui) :
  adds_only P a b -> adds_only P b c -> adds_only P a c.
Proof.
  intros [n1 [H1 F1]] [n2 [H2 F2]]. exists (n1 ++ n2). split.
  - rewrite H2, H1. symmetry. apply app_assoc.
  - apply Forall_app. split; assumption.
Qed.

Ltac keeps_steps refl trans :=
  repeat first
    [ match goal with H : _ |- _ => solve [apply H] end
    | apply (keeps_ret refl)
    | apply (keeps_call refl)
    | apply (keeps_raise refl)
    | apply (@keeps_finish _ refl)
    | apply (keeps_bind trans); [| intros ?]
    | apply (keeps_try trans); [| intros ?]
    | match goal with
      | |- keeps _ (if ?b then _ else _) => destruct b
      | |- keeps _ (let (_, _) := ?p in _) => destruct p
      end ].

Section GuiClassify.

Context (ext : GuiExternals).

Lemma get_model_keeps {T} (part : gui -> T) : keeps (unchanged part) Gui.get_model.
Proof. intros g. reflexivity. Qed.

Lemma get_file_path_keeps {T} (part : gui -> T) :
  keeps (unchanged part) Gui.get_file_path.
Proof. intros g. reflexivity. Qed.

Lemma in_world_keeps_widgets {A} (m : Py A) : keeps (unchanged widgets) (in_world m).
Proof. intros g. unfold in_world. destruct (m (outside g)). reflexivity. Qed.

Lemma now_keeps_widgets : keeps (unchanged widgets) (Gui.now ext).
Proof. intros g. reflexivity. Qed.

Lemma evaluate_keeps_widgets (output_json : pyval) :
  keeps (unchanged widgets) (Gui.evaluate ext output_json).
Proof.
  destruct output_json; try (intros g; reflexivity). apply in_world_keeps_widgets.
Qed.

Lemma classified_keeps_widgets (image_path : string) (output_json : pyval) :
  keeps (unchanged widgets) (Gui.classified ext image_path output_json).
Proof.
  unfold Gui.classified.
  pose proof (evaluate_keeps_widgets output_json).
  pose proof now_keeps_widgets.
  pose proof (get_model_keeps widgets).
  keeps_steps (@unchanged_refl _ widgets) (@unchanged_trans _ widgets).
Qed.

Lemma classify_document_keeps_widgets (image_path : string) :
  keeps (unchanged widgets) (Gui.classify_document ext image_path).
Proof.
  unfold Gui.classify_document, Gui.classify_document_body.
  pose proof (classified_keeps_widgets image_path).
  pose proof (get_model_keeps widgets).
  pose proof (fun A (m : Py A) => in_world_keeps_widgets m).
  keeps_steps (@unchanged_refl _ widgets) (@unchanged_trans _ widgets).
Qed.

(** X14: whatever the file, the server and [eval] do, and whether it
    returns or raises, [classify_document] of the application leaves
    the Tk variables, the three result widgets, the message boxes and
    the trace of the file system as they were: it only reads
    [model_var], sends the request and reads the clock. *)
Theorem gui_classify_document_keeps_widgets (image_path : string) (g : gui) :
  widgets (snd (Gui.classify_document ext image_path g)) = widgets g.
Proof. apply classify_document_keeps_widgets. Qed.

Lemma model_var_of_widgets (g g' : gui) :
  unchanged widgets g g' -> model_var g' = model_var g.
Proof. unfold unchanged, widgets. intros H. injection H. auto. Qed.

(** A result of the inner [try] block is the dict of lines 235 to 247 . *)
Lemma classified_Return_inv (image_path : string) (output_json : pyval)
    (g g' : gui) (results : dict) :
  Gui.classified ext image_path output_json g = (Return results, g') ->
  exists category size,
    results = success_dict category (isoformat ext (datetime_now ext (clock g)))
                (model_var g) (os_path_basename ext image_path) size image_path.
Proof.
  unfold Gui.classified. cbn [bind ret Monad_Gui]. unfold Gui_bind at 1.
  pose proof (evaluate_keeps_widgets output_json g) as Hkeep.
  destruct (Gui.evaluate ext output_json g) as [[result | e] g1] eqn:Hev;
    [| discriminate].
  simpl in Hkeep.
  assert (Hclock : clock g1 = clock g).
  { destruct output_json; try discriminate Hev.
    unfold Gui.evaluate, in_world in Hev.
    destruct (Classify.py_eval (http ext) s (outside g)) as [r w].
    injection Hev as _ <-. reflexivity. }
  unfold Gui_bind, call, Gui.now, Gui.get_model, Gui_ret.
  destruct (py_get_default result "category" (VStr "Unknown")) as [category | e];
    [| discriminate].
  cbn [model_var with_clock].
  destruct (os_path_getsize ext image_path) as [size | e]; [| discriminate].
  intros H. injection H as <- _.
  exists category, size. rewrite (model_var_of_widgets Hkeep), Hclock. reflexivity.
Qed.

Lemma classify_document_body_Return_inv (image_path : string) (g g' : gui)
    (results : dict) :
  Gui.classify_document_body ext image_path g = (Return results, g') ->
  exists category size,
    results = success_dict category (isoformat ext (datetime_now ext (clock g)))
                (model_var g) (os_path_basename ext image_path) size image_path.
Proof.
  unfold Gui.classify_document_body. cbn [bind ret Monad_Gui].
  unfold Gui_bind, call, Gui.get_model, in_world, Classify.post, raise.
  destruct (read_file (http ext) image_path) as [image | e]; [| discriminate].
  destruct (requests_post (http ext) _ _) as [response | e]; [| discriminate].
  destruct (Response_json (http ext) response) as [answer | e]; [| discriminate].
  destruct (py_get_default answer "done" VNone) as [done | e]; [| discriminate].
  destruct (truthy done); [| discriminate].
  destruct (py_get_default answer "response" VNone) as [output_json | e];
    [| discriminate].
  destruct (truthy output_json); [| discriminate].
  unfold gui_try.
  match goal with
  | |- context [Gui.classified ext image_path output_json ?g1] =>
      destruct (Gui.classified ext image_path output_json g1)
        as [[r | e] g2] eqn:Hc
  end.
  - intros H. injection H as <- _. apply classified_Return_inv in Hc. exact Hc.
  - destruct (catches _ e); discriminate.
Qed.

(** X13: [classify_document] of the application returns a dict of one
    of two shapes, the single key [error] with a text, or the keys
    [category], [confidence] (always [0.95]) and [details], where the
    details name the model of [model_var], the base name of the file
    and its path; so the test for the key [error] tells them apart.
    What it can raise is no instance of [Exception]. *)
Theorem gui_classify_document_shape (image_path : string) (g : gui) :
  match fst (Gui.classify_document ext image_path g) with
  | Return results =>
      (exists message, results = [("error", VStr message)]) \/
      (exists category size,
          results = success_dict category
                      (isoformat ext (datetime_now ext (clock g)))
                      (model_var g) (os_path_basename ext image_path)
                      size image_path)
  | Raise e => isinstance e Exception = false
  end.
Proof.
  unfold Gui.classify_document, gui_try.
  destruct (Gui.classify_document_body ext image_path g) as [[results | e] g1] eqn:Hbody.
  - right. apply classify_document_body_Return_inv in Hbody. exact Hbody.
  - unfold catches. cbn [existsb].
    destruct (isinstance e Exception) eqn:He; cbn.
    + left. eexists. reflexivity.
    + exact He.
Qed.

(** The function once the file is read and the server has answered
    with a JSON object. *)
Lemma gui_classify_document_answered (image_path : string) (g : gui)
    (image : list Byte.byte) (response : Response (http ext)) (items : dict) :
  read_file (http ext) image_path = Return image ->
  requests_post (http ext) Gui.OLLAMA_API_URL
    (request_data (model_var g) (b64encode image)) = Return response ->
  Response_json (http ext) response = Return (VDict items) ->
  Gui.classify_document_body ext image_path g =
  if truthy (dict_get items "done" VNone) then
    if truthy (dict_get items "response" VNone) then
      gui_try (Gui.classified ext image_path (dict_get items "response" VNone))
        [SyntaxError; KeyError]
        (fun e =>
           raise (mkExc Exception ("Error parsing API response: " ++ exc_str e)%string))
        (requested g image)
    else (Raise (mkExc Exception "Classification failed"), requested g image)
  else (Raise (mkExc Exception "Classification failed"), requested g image).
Proof.
  intros Hread Hpost Hjson.
  unfold Gui.classify_document_body. cbn [bind ret Monad_Gui].
  unfold Gui_bind at 1. unfold call at 1. rewrite Hread.
  unfold Gui_bind at 1. unfold Gui.get_model at 1.
  unfold Gui_bind at 1. unfold in_world, Classify.post.
  fold (request_data (model_var g) (b64encode image)). rewrite Hpost.
  fold (requested g image).
  unfold Gui_bind at 1. unfold call at 1. rewrite Hjson.
  unfold Gui_bind at 1. unfold call at 1. cbn [py_get_default].
  destruct (truthy (dict_get items "done" VNone)); [| reflexivity].
  unfold Gui_bind at 1. unfold call at 1.
  destruct (truthy (dict_get items "response" VNone)); reflexivity.
Qed.

(** The inner [try] block on a text. *)
Lemma classified_run (image_path source : string) (g : gui) :
  Gui.classified ext image_path (VStr source) g =
  let '(r, (printed, sent)) := eval (http ext) source (outside g) in
  let g1 :=
    with_outside g {| stdout := stdout (outside g) ++ printed;
                      http_log := http_log (outside g) ++ sent |} in
  match r with
  | Raise e => (Raise e, g1)
  | Return value =>
      match py_get_default value "category" (VStr "Unknown") with
      | Raise e => (Raise e, g1)
      | Return category =>
          let g2 := with_clock g1 (S (clock g)) in
          match os_path_getsize ext image_path with
          | Raise e => (Raise e, g2)
          | Return size =>
              (Return (success_dict category
                         (isoformat ext (datetime_now ext (clock g)))
                         (model_var g) (os_path_basename ext image_path)
                         size image_path), g2)
          end
      end
  end.
Proof.
  unfold Gui.classified. cbn [bind ret Monad_Gui].
  unfold Gui_bind, Gui.evaluate, in_world, Classify.py_eval.
  destruct (eval (http ext) source (outside g)) as [[value | e] [printed sent]];
    [| reflexivity].
  unfold call. destruct (py_get_default value "category" (VStr "Unknown"));
    [| reflexivity].
  unfold Gui.now, Gui.get_model. cbn [clock model_var with_outside with_clock].
  destruct (os_path_getsize ext image_path); reflexivity.
Qed.

(** X15: when the file cannot be read, the application's
    [classify_document] returns the dict with the single key [error]
    and the text of the exception; no request is sent and the state is
    as before. *)
Theorem gui_classify_document_unreadable (image_path : string) (g : gui) (e : exc) :
  read_file (http ext) image_path = Raise e ->
  isinstance e Exception = true ->
  Gui.classify_document ext image_path g =
  (Return [("error", VStr (exc_str e))], g).
Proof.
  intros Hread Hexc.
  unfold Gui.classify_document, gui_try, Gui.classify_document_body.
  cbn [bind ret Monad_Gui]. unfold Gui_bind at 1. unfold call at 1.
  rewrite Hread. unfold catches. cbn [existsb]. rewrite Hexc. reflexivity.
Qed.

(** X16: when the answer of the server has no true [done], or no true
    [response], the result is the error dict with the text
    [Classification failed], after the one request. *)
Theorem gui_classify_document_failed (image_path : string) (g : gui)
    (image : list Byte.byte) (response : Response (http ext)) (items : dict) :
  read_file (http ext) image_path = Return image ->
  requests_post (http ext) Gui.OLLAMA_API_URL
    (request_data (model_var g) (b64encode image)) = Return response ->
  Response_json (http ext) response = Return (VDict items) ->
  truthy (dict_get items "done" VNone) = false \/
  truthy (dict_get items "response" VNone) = false ->
  Gui.classify_document ext image_path g =
  (Return [("error", VStr "Classification failed")], requested g image).
Proof.
  intros Hread Hpost Hjson Hfalse.
  unfold Gui.classify_document, gui_try.
  rewrite (@gui_classify_document_answered _ g _ _ _ Hread Hpost Hjson).
  destruct Hfalse as [-> | Hout]; [reflexivity |].
  rewrite Hout. destruct (truthy (dict_get items "done" VNone)); reflexivity.
Qed.

(** X17: when [eval] raises an instance of [Exception], the result is
    an error dict: for a [SyntaxError] or a [KeyError] the text is that
    of the exception after [Error parsing API response: ], for any
    other class it is the text of the exception alone. *)
Theorem gui_classify_document_eval_raises (image_path : string) (g : gui)
    (image : list Byte.byte) (response : Response (http ext)) (items : dict)
    (source : string) (e : exc) :
  read_file (http ext) image_path = Return image ->
  requests_post (http ext) Gui.OLLAMA_API_URL
    (request_data (model_var g) (b64encode image)) = Return response ->
  Response_json (http ext) response = Return (VDict items) ->
  truthy (dict_get items "done" VNone) = true ->
  dict_get items "response" VNone = VStr source ->
  source <> "" ->
  fst (eval (http ext) source (outside (requested g image))) = Raise e ->
  isinstance e Exception = true ->
  fst (Gui.classify_document ext image_path g) =
  Return [("error",
           VStr (if catches [SyntaxError; KeyError] e
                 then "Error parsing API response: " ++ exc_str e
                 else exc_str e)%string)].
Proof.
  intros Hread Hpost Hjson Hdone Hout Hsource Heval Hexc.
  unfold Gui.classify_document, gui_try at 1.
  rewrite (@gui_classify_document_answered _ g _ _ _ Hread Hpost Hjson).
  rewrite Hdone, Hout.
  assert (Hne : truthy (VStr source) = true).
  { simpl. destruct (String.eqb_spec source ""); [contradiction | reflexivity]. }
  rewrite Hne. unfold gui_try. rewrite classified_run.
  destruct (eval (http ext) source _) as [r [printed sent]].
  simpl in Heval. subst r. cbv beta iota zeta.
  destruct (catches [SyntaxError; KeyError] e).
  - reflexivity.
  - unfold catches. cbn [existsb]. rewrite Hexc. reflexivity.
Qed.

(** X18: when the response evaluates to a dict and the size of the
    file can be read, the result is the success dict: its category is
    the one of the evaluated dict, [Unknown] if it has none, and the
    confidence is [0.95] whatever the server said. *)
Theorem gui_classify_document_success (image_path : string) (g : gui)
    (image : list Byte.byte) (response : Response (http ext)) (items evaluated : dict)
    (source : string) (size : Z) :
  read_file (http ext) image_path = Return image ->
  requests_post (http ext) Gui.OLLAMA_API_URL
    (request_data (model_var g) (b64encode image)) = Return response ->
  Response_json (http ext) response = Return (VDict items) ->
  truthy (dict_get items "done" VNone) = true ->
  dict_get items "response" VNone = VStr source ->
  source <> "" ->
  fst (eval (http ext) source (outside (requested g image))) = Return (VDict evaluated) ->
  os_path_getsize ext image_path = Return size ->
  fst (Gui.classify_document ext image_path g) =
  Return (success_dict
            (match assoc "category" evaluated with
             | Some category => category
             | None => VStr "Unknown"
             end)
            (isoformat ext (datetime_now ext (clock g)))
            (model_var g) (os_path_basename ext image_path) size image_path).
Proof.
  intros Hread Hpost Hjson Hdone Hout Hsource Heval Hsize.
  unfold Gui.classify_document, gui_try at 1.
  rewrite (@gui_classify_document_answered _ g _ _ _ Hread Hpost Hjson).
  rewrite Hdone, Hout.
  assert (Hne : truthy (VStr source) = true).
  { simpl. destruct (String.eqb_spec source ""); [contradiction | reflexivity]. }
  rewrite Hne. unfold gui_try. rewrite classified_run.
  destruct (eval (http ext) source _) as [r [printed sent]].
  simpl in Heval. subst r. cbn [py_get_default]. rewrite Hsize. reflexivity.
Qed.

End GuiClassify.

(** Witness of X15: no file nope.png on the desk. *)
Lemma gui_classify_document_unreadable_witness :
  Gui.classify_document Desk.externals "nope.png" (Desk.started "nope.png") =
  (Return [("error", VStr "[Errno 2] No such file or directory: nope.png")],
   Desk.started "nope.png").
Proof.
  apply (@gui_classify_document_unreadable Desk.externals "nope.png"
           (Desk.started "nope.png") (Fixture.no_such_file "nope.png"));
    reflexivity.
Defined.

(** Witness of X16: the generation for pending.png is not done. *)
Lemma gui_classify_document_failed_witness :
  Gui.classify_document Desk.externals "pending.png" (Desk.started "pending.png") =
  (Return [("error", VStr "Classification failed")],
   requested (Desk.started "pending.png") (list_byte_of_string "Ma")).
Proof.
  apply (@gui_classify_document_failed Desk.externals "pending.png"
           (Desk.started "pending.png") (list_byte_of_string "Ma")
           (VDict [("model", VStr Classify.MODEL_NAME);
                   ("response", VStr "{'category': 'Inv");
                   ("done", VBool false)])
           [("model", VStr Classify.MODEL_NAME);
            ("response", VStr "{'category': 'Inv");
            ("done", VBool false)]);
    try reflexivity.
  left. reflexivity.
Defined.

(** Witness of X17: the response for garbled.png is no expression. *)
Lemma gui_classify_document_eval_raises_witness :
  fst (Gui.classify_document Desk.externals "garbled.png" (Desk.started "garbled.png")) =
  Return [("error", VStr "Error parsing API response: invalid syntax")].
Proof.
  apply (@gui_classify_document_eval_raises Desk.externals "garbled.png"
           (Desk.started "garbled.png") (list_byte_of_string "M")
           (VDict [("model", VStr Classify.MODEL_NAME);
                   ("response", VStr "{category");
                   ("done", VBool true)])
           [("model", VStr Classify.MODEL_NAME);
            ("response", VStr "{category");
            ("done", VBool true)]
           "{category" (mkExc SyntaxError "invalid syntax"));
    try reflexivity.
  discriminate.
Defined.

(** Witness of X18: the response for other.png has the key [type], not
    [category]. *)
Lemma gui_classify_document_success_witness :
  fst (Gui.classify_document Desk.odd_externals "other.png" (Desk.started "other.png")) =
  Return (success_dict (VStr "Unknown") "2024-04-11T09:30:00"
            "x/llama3.2-vision:latest" "other.png" 3 "other.png").
Proof.
  apply (@gui_classify_document_success Desk.odd_externals "other.png"
           (Desk.started "other.png") (list_byte_of_string "oth")
           (VDict [("response", VStr "{'type': 'Invoice'}"); ("done", VBool true)])
           [("response", VStr "{'type': 'Invoice'}"); ("done", VBool true)]
           [("type", VStr "Invoice")] "{'type': 'Invoice'}" 3);
    try reflexivity.
  discriminate.
Defined.

(* ===================================================================== *)
(** * The desktop application: saving and the button *)
(* ===================================================================== *)

Section GuiWorkflow.

Context (ext : GuiExternals).

(** X19: with no file chosen, [classify_and_save] shows the warning
    and does nothing else: the status is not set, the window is not
    redrawn, nothing is sent and no file is touched. *)
Theorem classify_and_save_without_file (g : gui) :
  file_path g = "" ->
  Gui.classify_and_save ext g =
  (Return tt,
   with_dialogs g
     (dialogs g ++ [mkDialog "showwarning" "Warning" "Please select a file first"])).
Proof.
  intros Hnone. unfold Gui.classify_and_save. cbn [bind ret Monad_Gui].
  unfold Gui_bind at 1. unfold Gui.get_file_path at 1. rewrite Hnone.
  reflexivity.
Qed.

(** The first steps of [classify_and_save] with a file chosen. *)
Lemma classify_and_save_started (g : gui) :
  file_path g <> "" ->
  Gui.classify_and_save ext g =
  gui_try (Gui.classify_and_save_body ext) [Exception]
    (fun e =>
       Gui.set_status ("Error: " ++ exc_str e)%string ;;
       Gui.show "showerror" "Error" ("Classification failed: " ++ exc_str e)%string)
    (processing g).
Proof.
  intros Hsome. unfold Gui.classify_and_save. cbn [bind ret Monad_Gui].
  unfold Gui_bind at 1. unfold Gui.get_file_path at 1.
  destruct (String.eqb_spec (file_path g) ""); [contradiction |].
  reflexivity.
Qed.

(** X20: when the classification gives an error dict, [classify_and_save]
    saves nothing: no call to the file system is made, the result
    widgets and the history stay as they were, the status is the error
    text after [Error: ] and one error box is shown. *)
Theorem classify_and_save_error (g g' : gui) (results : dict) (message : string) :
  file_path g <> "" ->
  Gui.classify_document ext (file_path g) (processing g) = (Return results, g') ->
  assoc "error" results = Some (VStr message) ->
  exists final,
    Gui.classify_and_save ext g = (Return tt, final) /\
    fs_log final = fs_log g /\
    status_var final = ("Error: " ++ message)%string /\
    dialogs final = dialogs g ++ [error_box message] /\
    result_text final = result_text g /\
    json_text final = json_text g /\
    history_tree final = history_tree g.
Proof.
  intros Hsome Hrun Herror.
  pose proof (classify_document_keeps_widgets ext (file_path g) (processing g)) as Hkeep.
  rewrite Hrun in Hkeep. unfold unchanged, widgets in Hkeep. simpl in Hkeep.
  injection Hkeep as Hfs _ _ _ _ Hres Hjson Hhist Hdia.
  rewrite (@classify_and_save_started g Hsome).
  unfold gui_try, Gui.classify_and_save_body. cbn [bind ret Monad_Gui].
  unfold Gui_bind at 1. unfold Gui.get_file_path at 1.
  cbn [file_path processing with_redraws with_status_var].
  unfold Gui_bind at 1.
  change (Gui.classify_document ext (file_path g)
            (with_redraws (with_status_var g "Processing...") (S (redraws g))))
    with (Gui.classify_document ext (file_path g) (processing g)).
  rewrite Hrun.
  unfold Gui_bind at 1. unfold dict_contains. rewrite Herror.
  unfold Gui_bind at 1. unfold call at 1. cbn [py_getitem]. rewrite Herror.
  cbn.
  eexists. split; [reflexivity |]. cbn. rewrite Hdia.
  repeat split; assumption.
Qed.

Lemma Gui_bind_Return_inv {A B} (m : Gui A) (k : A -> Gui B) (g g' : gui) (b : B) :
  Gui_bind m k g = (Return b, g') ->
  exists a g1, m g = (Return a, g1) /\ k a g1 = (Return b, g').
Proof.
  unfold Gui_bind. destruct (m g) as [[a | e] g1]; [| discriminate].
  intros H. exists a, g1. split; [reflexivity | exact H].
Qed.

(** The steps that touch neither the message boxes nor the redraws. *)
Lemma file_calls_keep_shown :
  (forall path, keeps (unchanged shown) (Gui.mkdir ext path)) /\
  (forall path, keeps (unchanged shown) (Gui.path_exists ext path)) /\
  (forall path mode, keeps (unchanged shown) (Gui.open_file ext path mode)) /\
  (forall path text, keeps (unchanged shown) (Gui.write ext path text)) /\
  (forall path, keeps (unchanged shown) (Gui.read ext path)) /\
  keeps (unchanged shown) (Gui.now ext).
Proof.
  repeat split; intros; intros g;
    unfold Gui.mkdir, Gui.path_exists, Gui.open_file, Gui.write, Gui.read, Gui.finish;
    try match goal with
        | |- context [match ?f with Some _ => _ | None => _ end] => destruct f
        end;
    reflexivity.
Qed.

Lemma widget_calls_keep_shown :
  (forall text, keeps (unchanged shown) (Gui.set_status text)) /\
  (forall text, keeps (unchanged shown) (Gui.set_result_text text)) /\
  (forall text, keeps (unchanged shown) (Gui.set_json_text text)) /\
  (forall row, keeps (unchanged shown) (Gui.insert_history row)).
Proof. repeat split; intros; intros g; reflexivity. Qed.

Lemma classify_document_keeps_shown (image_path : string) :
  keeps (unchanged shown) (Gui.classify_document ext image_path).
Proof.
  intros g. pose proof (classify_document_keeps_widgets ext image_path g) as H.
  unfold unchanged, widgets in H. injection H as _ Hredraws _ _ _ _ _ _ Hdialogs.
  unfold unchanged, shown. rewrite Hredraws, Hdialogs. reflexivity.
Qed.

Lemma save_results_keeps_shown (results : dict) (image_path : string) :
  keeps (unchanged shown) (Gui.save_results ext results image_path).
Proof.
  destruct file_calls_keep_shown as [_ [_ [Hopen [Hwrite [_ Hnow]]]]].
  unfold Gui.save_results, Gui.dump, Gui.confidence_percent.
  keeps_steps (@unchanged_refl _ shown) (@unchanged_trans _ shown).
Qed.

Lemma update_display_keeps_shown (results : dict) (text_path json_path : string) :
  keeps (unchanged shown) (Gui.update_display ext results text_path json_path).
Proof.
  destruct file_calls_keep_shown as [_ [_ [Hopen [_ [Hread Hnow]]]]].
  destruct widget_calls_keep_shown as [_ [Hresult [Hjson Hhistory]]].
  assert (Hname : forall v, keeps (unchanged shown) (Gui.name_of ext v)).
  { intros v g. destruct v; reflexivity. }
  unfold Gui.update_display.
  keeps_steps (@unchanged_refl _ shown) (@unchanged_trans _ shown).
Qed.

Lemma classify_and_save_body_keeps_shown :
  keeps (unchanged shown) (Gui.classify_and_save_body ext).
Proof.
  destruct widget_calls_keep_shown as [Hstatus _].
  pose proof classify_document_keeps_shown as Hclassify.
  pose proof save_results_keeps_shown as Hsave.
  pose proof update_display_keeps_shown as Hupdate.
  pose proof (get_file_path_keeps shown) as Hpath.
  unfold Gui.classify_and_save_body.
  keeps_steps (@unchanged_refl _ shown) (@unchanged_trans _ shown).
Qed.

(** The last step of the [try] block sets the status. *)
Lemma classify_and_save_body_status (g g' : gui) (r : unit) :
  Gui.classify_and_save_body ext g = (Return r, g') ->
  status_var g' = "Results saved successfully".
Proof.
  unfold Gui.classify_and_save_body. cbn [bind ret Monad_Gui]. intros H.
  repeat match type of H with
         | Gui_bind _ _ _ = (Return _, _) =>
             apply Gui_bind_Return_inv in H; destruct H as [? [? [_ H]]]
         end.
  unfold Gui.set_status in H. injection H as _ <-. reflexivity.
Qed.

(** X21: with a file chosen, a run of [classify_and_save] that ends
    has redrawn the window once and has one of two outcomes: the status
    [Results saved successfully] and no message box, or a status
    [Error: message] together with one error box for the same message.
    What it can raise is no instance of [Exception]. *)
Theorem classify_and_save_outcome (g : gui) :
  file_path g <> "" ->
  match Gui.classify_and_save ext g with
  | (Return _, final) =>
      redraws final = S (redraws g) /\
      ((status_var final = "Results saved successfully" /\
        dialogs final = dialogs g) \/
       exists message,
         status_var final = ("Error: " ++ message)%string /\
         dialogs final = dialogs g ++ [error_box message])
  | (Raise e, _) => isinstance e Exception = false
  end.
Proof.
  intros Hsome. rewrite (@classify_and_save_started g Hsome). unfold gui_try.
  pose proof (classify_and_save_body_keeps_shown (processing g)) as Hkeep.
  destruct (Gui.classify_and_save_body ext (processing g)) as [[r | e] g1] eqn:Hbody.
  - apply classify_and_save_body_status in Hbody.
    unfold unchanged, shown in Hkeep. simpl in Hkeep.
    injection Hkeep as Hdialogs Hredraws.
    split; [exact Hredraws | left; split; assumption].
  - unfold unchanged, shown in Hkeep. simpl in Hkeep.
    injection Hkeep as Hdialogs Hredraws.
    unfold catches. cbn [existsb].
    destruct (isinstance e Exception) eqn:He; cbn; [| exact He].
    split; [exact Hredraws |]. right. exists (exc_str e).
    split; [reflexivity |]. rewrite Hdialogs. reflexivity.
Qed.

End GuiWorkflow.

(** Witness of X19: the application just started, no file chosen. *)
Lemma classify_and_save_without_file_witness :
  Gui.classify_and_save Desk.externals (Desk.started "") =
  (Return tt,
   with_dialogs (Desk.started "")
     [mkDialog "showwarning" "Warning" "Please select a file first"]).
Proof.
  apply (@classify_and_save_without_file Desk.externals (Desk.started "")).
  reflexivity.
Defined.

(** Witness of X20: the file chosen is not on the desk. *)
Lemma classify_and_save_error_witness :
  exists final,
    Gui.classify_and_save Desk.externals (Desk.started "nope.png") = (Return tt, final) /\
    fs_log final = [] /\
    status_var final = "Error: [Errno 2] No such file or directory: nope.png" /\
    dialogs final = [error_box "[Errno 2] No such file or directory: nope.png"] /\
    result_text final = "" /\
    json_text final = "" /\
    history_tree final = [].
Proof.
  apply (@classify_and_save_error Desk.externals (Desk.started "nope.png")
           (processing (Desk.started "nope.png"))
           [("error", VStr "[Errno 2] No such file or directory: nope.png")]
           "[Errno 2] No such file or directory: nope.png").
  - discriminate.
  - reflexivity.
  - reflexivity.
Defined.

(** Witness of X21: the invoice on the desk is classified and saved. *)
Lemma classify_and_save_outcome_witness :
  match Gui.classify_and_save Desk.externals (Desk.started "invoice.png") with
  | (Return _, final) =>
      redraws final = 1%nat /\
      ((status_var final = "Results saved successfully" /\ dialogs final = []) \/
       exists message,
         status_var final = ("Error: " ++ message)%string /\
         dialogs final = [error_box message])
  | (Raise e, _) => isinstance e Exception = false
  end.
Proof.
  apply (@classify_and_save_outcome Desk.externals (Desk.started "invoice.png")).
  discriminate.
Defined.

(* ===================================================================== *)
(** * The desktop application: the files it writes *)
(* ===================================================================== *)

Section GuiFiles.

Context (ext : GuiExternals).

Lemma In_mkdirs_exists (pre : list fs_event) (path : string) (answer : bool) :
  Forall (fun ev => exists p f, ev = Mkdir p f) pre ->
  ~ In (PathExists path answer) pre.
Proof.
  intros Hpre Hin. rewrite Forall_forall in Hpre.
  destruct (Hpre _ Hin) as [p [f H]]. discriminate H.
Qed.

Lemma mkdirs_look_only (pre : list fs_event) :
  Forall (fun ev => exists p f, ev = Mkdir p f) pre -> Forall looks_only pre.
Proof.
  apply Forall_impl. intros ev [p [f ->]]. exact I.
Qed.

(** One [mkdir] of the loop, after directories only were made. *)
Lemma setup_mkdir_step (g0 g : gui) (pre : list fs_event) (path : string)
    (rest : Gui unit) :
  fs_log g = fs_log g0 ++ pre ->
  Forall (fun ev => exists p f, ev = Mkdir p f) pre ->
  (forall g1 pre1,
      fs_log g1 = fs_log g0 ++ pre1 ->
      Forall (fun ev => exists p f, ev = Mkdir p f) pre1 ->
      exists new,
        fs_log (snd (rest g1)) = fs_log g0 ++ new /\
        (In (PathExists (Gui.log_file ext) true) new -> Forall looks_only new)) ->
  exists new,
    fs_log (snd (Gui_bind (Gui.mkdir ext path) (fun _ => rest) g)) = fs_log g0 ++ new /\
    (In (PathExists (Gui.log_file ext) true) new -> Forall looks_only new).
Proof.
  intros Hlog Hpre Hrest. unfold Gui_bind, Gui.mkdir.
  assert (Hnext : forall failure,
             Forall (fun ev => exists p f, ev = Mkdir p f)
               (pre ++ [Mkdir path failure])).
  { intros failure. apply Forall_app. split; [exact Hpre |].
    constructor; [| constructor]. eexists. eexists. reflexivity. }
  destruct (fs_mkdir ext (fs_log g) path) as [e |]; cbn [Gui.finish].
  - exists (pre ++ [Mkdir path (Some e)]). split.
    + cbn. rewrite Hlog. symmetry. apply app_assoc.
    + intros _. apply mkdirs_look_only. apply Hnext.
  - apply (Hrest _ (pre ++ [Mkdir path None])).
    + cbn. rewrite Hlog. symmetry. apply app_assoc.
    + apply Hnext.
Qed.

(** Lines 86 to 90, after directories only were made. *)
Lemma setup_log_step (g0 g : gui) (pre : list fs_event) :
  fs_log g = fs_log g0 ++ pre ->
  Forall (fun ev => exists p f, ev = Mkdir p f) pre ->
  exists new,
    fs_log (snd ((found <- Gui.path_exists ext (Gui.log_file ext) ;;
                  if negb found then
                    Gui.open_file ext (Gui.log_file ext) "w" ;;
                    line <- call (csv_row ext Gui.log_header) ;;
                    Gui.write ext (Gui.log_file ext) line
                  else ret tt) g)) = fs_log g0 ++ new /\
    (In (PathExists (Gui.log_file ext) true) new -> Forall looks_only new).
Proof.
  intros Hlog Hpre. cbn [bind ret Monad_Gui].
  unfold Gui_bind at 1. unfold Gui.path_exists.
  destruct (fs_exists ext (fs_log g) (Gui.log_file ext)); cbn [negb].
  - exists (pre ++ [PathExists (Gui.log_file ext) true]). split.
    + cbn. rewrite Hlog. symmetry. apply app_assoc.
    + intros _. apply Forall_app. split; [apply mkdirs_look_only; exact Hpre |].
      repeat constructor.
  - assert (Hno : forall more,
               (forall ev, In ev more ->
                           match ev with Opened _ _ _ | Wrote _ _ _ => True | _ => False end) ->
               ~ In (PathExists (Gui.log_file ext) true)
                   (pre ++ PathExists (Gui.log_file ext) false :: more)).
    { intros more Hmore Hin. apply in_app_or in Hin. destruct Hin as [Hin | Hin].
      - exact (@In_mkdirs_exists _ _ _ Hpre Hin).
      - destruct Hin as [Hin | Hin]; [discriminate Hin |].
        exact (Hmore _ Hin). }
    unfold Gui_bind, Gui.open_file, call, Gui.write, Gui.record_event.
    cbn [fs_log with_fs_log].
    destruct (fs_open ext _ _ _) as [e |]; cbn [Gui.finish].
    + eexists (pre ++ PathExists _ false :: [Opened _ _ _]). split.
      * cbn. rewrite Hlog, <- !app_assoc. reflexivity.
      * intros Hin. exfalso. revert Hin. apply Hno.
        intros ev [<- | []]. exact I.
    + destruct (csv_row ext Gui.log_header) as [line | e].
      * cbn [fs_log with_fs_log].
        destruct (fs_write ext _ _ _) as [e |]; cbn [Gui.finish];
          (eexists (pre ++ PathExists _ false :: [Opened _ _ _; Wrote _ _ _]); split;
           [cbn; rewrite Hlog, <- !app_assoc; reflexivity
           | intros Hin; exfalso; revert Hin; apply Hno;
             intros ev [<- | [<- | []]]; exact I]).
      * eexists (pre ++ PathExists _ false :: [Opened _ _ _]). split.
        -- cbn. rewrite Hlog, <- !app_assoc. reflexivity.
        -- intros Hin. exfalso. revert Hin. apply Hno.
           intros ev [<- | []]. exact I.
Qed.

(** X22: [setup_directories] never truncates a log that is there:
    in a run where [exists()] answers true for the log file, the only
    calls to the file system are those that make the directories and
    the question itself; nothing is opened and nothing is written. *)
Theorem setup_directories_keeps_log (g : gui) :
  exists new,
    fs_log (snd (Gui.setup_directories ext g)) = fs_log g ++ new /\
    (In (PathExists (Gui.log_file ext) true) new -> Forall looks_only new).
Proof.
  unfold Gui.setup_directories. cbn [bind ret Monad_Gui].
  apply (@setup_mkdir_step g g []);
    [symmetry; apply app_nil_r | constructor |].
  intros g1 pre1 Hlog1 Hpre1. apply (@setup_mkdir_step g g1 pre1); try assumption.
  intros g2 pre2 Hlog2 Hpre2. apply (@setup_mkdir_step g g2 pre2); try assumption.
  intros g3 pre3 Hlog3 Hpre3. apply (@setup_mkdir_step g g3 pre3); try assumption.
  intros g4 pre4 Hlog4 Hpre4. apply (@setup_log_step g g4 pre4); assumption.
Qed.

(** The steps that add no call to the file system, and the two that
    add one. *)
Lemma now_adds_nothing (P : fs_event -> Prop) : keeps (adds_only P) (Gui.now ext).
Proof.
  intros g. exists []. split; [symmetry; apply app_nil_r | constructor].
Qed.

Lemma open_file_adds (P : fs_event -> Prop) (path mode : string) :
  (forall failure, P (Opened path mode failure)) ->
  keeps (adds_only P) (Gui.open_file ext path mode).
Proof.
  intros HP g. unfold Gui.open_file.
  exists [Opened path mode (fs_open ext (fs_log g) path mode)]. split.
  - destruct (fs_open ext (fs_log g) path mode); reflexivity.
  - constructor; [apply HP | constructor].
Qed.

Lemma write_adds (P : fs_event -> Prop) (path text : string) :
  (forall failure, P (Wrote path text failure)) ->
  keeps (adds_only P) (Gui.write ext path text).
Proof.
  intros HP g. unfold Gui.write.
  exists [Wrote path text (fs_write ext (fs_log g) path text)]. split.
  - destruct (fs_write ext (fs_log g) path text); reflexivity.
  - constructor; [apply HP | constructor].
Qed.

(** X23: whether it returns or raises, [save_results] touches three
    files only: every call to the file system it makes opens or writes
    the JSON file or the text file, both named after the first reading
    of the clock and opened with mode w, or the log, which is opened
    for appending.  It makes no directory and reads nothing. *)
Theorem save_results_files (results : dict) (image_path : string) (g : gui) :
  adds_only (saving ext (datetime_now ext (clock g)) image_path)
    g (snd (Gui.save_results ext results image_path g)).
Proof.
  unfold Gui.save_results. cbn [bind ret Monad_Gui].
  unfold Gui_bind at 1. unfold Gui.now at 1.
  set (stamp := datetime_now ext (clock g)).
  fold (filename_base ext stamp image_path).
  fold (json_path ext stamp image_path). fold (text_path ext stamp image_path).
  set (P := saving ext stamp image_path).
  match goal with
  | |- adds_only P g (snd (?m ?g1)) =>
      change (adds_only P g1 (snd (m g1))); generalize g1;
      change (keeps (adds_only P) m)
  end.
  assert (Hopen_json : forall mode, mode = "w" ->
             keeps (adds_only P) (Gui.open_file ext (json_path ext stamp image_path) mode)).
  { intros mode ->. apply open_file_adds. intros f. left. split; reflexivity. }
  assert (Hopen_text :
             keeps (adds_only P) (Gui.open_file ext (text_path ext stamp image_path) "w")).
  { apply open_file_adds. intros f. right. left. split; reflexivity. }
  assert (Hopen_log : keeps (adds_only P) (Gui.open_file ext (Gui.log_file ext) "a")).
  { apply open_file_adds. intros f. right. right. split; reflexivity. }
  assert (Hwrite_json : forall text,
             keeps (adds_only P) (Gui.write ext (json_path ext stamp image_path) text)).
  { intros text. apply write_adds. intros f. left. reflexivity. }
  assert (Hwrite_text : forall text,
             keeps (adds_only P) (Gui.write ext (text_path ext stamp image_path) text)).
  { intros text. apply write_adds. intros f. right. left. reflexivity. }
  assert (Hwrite_log : forall text,
             keeps (adds_only P) (Gui.write ext (Gui.log_file ext) text)).
  { intros text. apply write_adds. intros f. right. right. reflexivity. }
  pose proof (now_adds_nothing P) as Hnow.
  specialize (Hopen_json "w" eq_refl).
  unfold Gui.dump, Gui.confidence_percent.
  keeps_steps (@adds_only_refl P) (@adds_only_trans P).
Qed.

(** X24: on the success dict of [classify_document], the lookups of
    [update_display] do not fail: when the text file can be opened and
    read and the dict can be serialized, [update_display] returns, the
    two text widgets hold what was read and the JSON text, and the new
    first row of the history carries the category and the name of the
    path stored in the dict. *)
Theorem update_display_on_success (g : gui) (category : pyval)
    (processed model name image_path shown_path json_file content text : string)
    (size : Z) :
  let results := success_dict category processed model name size image_path in
  fs_open ext (fs_log g) shown_path "r" = None ->
  fs_read ext (fs_log g ++ [Opened shown_path "r" None]) shown_path = Return content ->
  json_dumps ext (VDict results) 4 = Return text ->
  exists final,
    Gui.update_display ext results shown_path json_file g = (Return tt, final) /\
    result_text final = content /\
    json_text final = text /\
    history_tree final =
    (strftime ext (datetime_now ext (clock g)) "%H:%M:%S", category,
     Path_name ext image_path) :: history_tree g /\
    status_var final = status_var g /\
    dialogs final = dialogs g.
Proof.
  intros results Hopen Hread Hdumps.
  unfold Gui.update_display. cbn [bind ret Monad_Gui].
  unfold Gui_bind, Gui.set_result_text, Gui.open_file, Gui.read, Gui.set_json_text,
    call, Gui.now, Gui.insert_history, Gui.record_event.
  cbn [fs_log with_result_text with_fs_log]. rewrite Hopen. cbn [Gui.finish].
  cbn [fs_log with_result_text with_fs_log]. rewrite Hread.
  rewrite Hdumps. cbn.
  eexists. split; [reflexivity |]. cbn. repeat split.
Qed.

End GuiFiles.

(** Witness of X22: a desk where the log was written before. *)
Lemma setup_directories_keeps_log_witness :
  exists new,
    fs_log (snd (Gui.setup_directories Desk.externals
                   (with_fs_log (Desk.started "")
                      [Opened (Gui.log_file Desk.externals) "w" None])))
    = [Opened (Gui.log_file Desk.externals) "w" None] ++ new /\
    In (PathExists (Gui.log_file Desk.externals) true) new /\
    Forall looks_only new.
Proof.
  destruct (setup_directories_keeps_log Desk.externals
              (with_fs_log (Desk.started "")
                 [Opened (Gui.log_file Desk.externals) "w" None]))
    as [new [Hlog Hlooks]].
  exists new. split; [exact Hlog |].
  assert (Hin : In (PathExists (Gui.log_file Desk.externals) true) new).
  { vm_compute in Hlog. injection Hlog as <-. vm_compute. auto 6. }
  split; [exact Hin | exact (Hlooks Hin)].
Defined.

(** Witness of X24: the success dict for the invoice, on a desk where
    nothing was written yet. *)
Lemma update_display_on_success_witness :
  exists final,
    Gui.update_display Desk.externals
      (success_dict (VStr "Invoice") "2024-04-11T09:30:00"
         "x/llama3.2-vision:latest" "invoice.png" 3 "invoice.png")
      "summary.txt" "summary.json" (Desk.started "invoice.png")
    = (Return tt, final) /\
    result_text final = "" /\
    json_text final = "{}" /\
    history_tree final = [("09:30:00", VStr "Invoice", "invoice.png")] /\
    status_var final = "" /\
    dialogs final = [].
Proof.
  apply (@update_display_on_success Desk.externals (Desk.started "invoice.png")
           (VStr "Invoice") "2024-04-11T09:30:00" "x/llama3.2-vision:latest"
           "invoice.png" "invoice.png" "summary.txt" "summary.json" "" "{}" 3);
    reflexivity.
Defined.
